(** * Search-then-RAG pipeline (Suhani_Bansal variant): a shallow embedding

    The development follows the Python sources
    [data_models.py], [rag_agent.py], [scraper.py], [search_agents.py] and
    [system.py].

    Conventions of the embedding.
    - Python text is a [string] whose characters are the code points below
      256; the character classes ([str.isspace], [str.lower], regex [\s] and
      [\w]) are the ones Python uses on those code points.
    - Python [int] is [Z]; a [float] obtained by dividing two integers, or
      read from a clock, is the exact rational [Q].
    - A Python exception is the [Raise] constructor of [PyResult].
    - The network, the HTML extractors, the embedding model and the vector
      index are collaborators of the code: they are [Variable]s of the
      section that uses them. *)

From Stdlib Require Import ZArith QArith String Ascii List Lia Permutation Sorted.
From stdpp Require Import base option list strings pretty gmap sets.

Import ListNotations.
Local Open Scope string_scope.
Local Open Scope Z_scope.

(** ** Exceptions *)

Module Py.

Inductive PyExn : Type :=
  | ValueError (msg : string)
  | IndexError (msg : string)
  | ZeroDivisionError (msg : string)
  | AttributeError (msg : string)
  | NameError (msg : string)
  | Exception (msg : string).

(** [str(e)] *)
Definition exn_str (e : PyExn) : string :=
  match e with
  | ValueError m | IndexError m | ZeroDivisionError m | AttributeError m
  | NameError m | Exception m => m
  end.

Inductive PyResult (A : Type) : Type :=
  | Ok (a : A)
  | Raise (e : PyExn).
Arguments Ok {A} a.
Arguments Raise {A} e.

Definition bind {A B} (m : PyResult A) (f : A -> PyResult B) : PyResult B :=
  match m with
  | Ok a => f a
  | Raise e => Raise e
  end.

End Py.
Export Py.

Notation "'let?' x ':=' m 'in' k" := (Py.bind m (fun x => k))
  (at level 10, x name, m at level 100, k at level 200).

(** ** Text primitives of Python on code points below 256 *)

Module Text.

Definition code (c : ascii) : N := N_of_ascii c.

(** [c.isspace()], which is also the regex class [\s]:
    TAB LF VT FF CR, FS GS RS US, SPACE, NEL and NBSP. *)
Definition isspace (c : ascii) : bool :=
  let n := code c in
  ((9 <=? n) && (n <=? 13) || (28 <=? n) && (n <=? 32)
   || (n =? 133) || (n =? 160))%N.

(** [c.lower()]: A-Z and the Latin-1 capitals except the multiplication sign. *)
Definition lower_char (c : ascii) : ascii :=
  let n := code c in
  if ((65 <=? n) && (n <=? 90) || (192 <=? n) && (n <=? 222) && negb (n =? 215))%N
  then ascii_of_N (n + 32) else c.

Fixpoint lower (s : string) : string :=
  match s with
  | EmptyString => EmptyString
  | String c s' => String (lower_char c) (lower s')
  end.

(** The regex class [\w]: alphanumeric code points and the underscore. *)
Definition isword (c : ascii) : bool :=
  let n := code c in
  ((48 <=? n) && (n <=? 57) || (65 <=? n) && (n <=? 90) || (n =? 95)
   || (97 <=? n) && (n <=? 122)
   || (n =? 170) || (n =? 178) || (n =? 179) || (n =? 181) || (n =? 185)
   || (n =? 186) || (188 <=? n) && (n <=? 190)
   || (192 <=? n) && (n <=? 214) || (216 <=? n) && (n <=? 246)
   || (248 <=? n))%N.

(** [s.lstrip()], [s.rstrip()], [s.strip()] *)
Fixpoint lstrip (s : string) : string :=
  match s with
  | EmptyString => EmptyString
  | String c s' => if isspace c then lstrip s' else s
  end.

Fixpoint rstrip (s : string) : string :=
  match s with
  | EmptyString => EmptyString
  | String c s' =>
      match rstrip s' with
      | EmptyString => if isspace c then EmptyString else String c EmptyString
      | r => String c r
      end
  end.

Definition strip (s : string) : string := rstrip (lstrip s).

(** [re.sub(r'\s+', ' ', s)]: every maximal run of whitespace becomes one
    space. *)
Fixpoint sub_spaces (s : string) : string :=
  match s with
  | EmptyString => EmptyString
  | String c s' =>
      if isspace c then
        match s' with
        | String c' _ => if isspace c' then sub_spaces s' else String " " (sub_spaces s')
        | EmptyString => String " " EmptyString
        end
      else String c (sub_spaces s')
  end.

(** [s.split()]: the maximal runs of non-whitespace, in order. [cur] is the
    word being read. *)
Fixpoint split_from (cur : string) (s : string) : list string :=
  match s with
  | EmptyString => match cur with EmptyString => [] | _ => [cur] end
  | String c s' =>
      if isspace c then
        match cur with
        | EmptyString => split_from EmptyString s'
        | _ => cur :: split_from EmptyString s'
        end
      else split_from (cur ++ String c EmptyString) s'
  end.

Definition split (s : string) : list string := split_from EmptyString s.

(** [sep.join(ws)] *)
Fixpoint join (sep : string) (ws : list string) : string :=
  match ws with
  | [] => EmptyString
  | [w] => w
  | w :: ws' => w ++ sep ++ join sep ws'
  end.

(** [len(s)] *)
Definition len (s : string) : Z := Z.of_nat (String.length s).

End Text.

(** ** Lists, ranges and sorting as Python has them *)

Module PyList.

Definition len {A} (l : list A) : Z := Z.of_nat (length l).

(** A slice bound, clamped the way [l[a:b]] clamps it. *)
Definition clamp (n i : Z) : Z :=
  if i <? 0 then Z.max 0 (i + n) else Z.min i n.

(** [l[start:stop]] *)
Definition slice {A} (l : list A) (start stop : Z) : list A :=
  let a := clamp (len l) start in
  let b := clamp (len l) stop in
  firstn (Z.to_nat (b - a)) (skipn (Z.to_nat a) l).

(** [l[:stop]] *)
Definition prefix {A} (l : list A) (stop : Z) : list A := slice l 0 stop.

(** [l[i]], negative indices counting from the end. *)
Definition getitem {A} (l : list A) (i : Z) : PyResult A :=
  let j := if i <? 0 then i + len l else i in
  if (0 <=? j) && (j <? len l) then
    match nth_error l (Z.to_nat j) with
    | Some x => Ok x
    | None => Raise (IndexError "list index out of range")
    end
  else Raise (IndexError "list index out of range").

(** [range(start, stop, step)] *)
Definition range_count (start stop step : Z) : Z :=
  if 0 <? step then (if start <? stop then (stop - start - 1) / step + 1 else 0)
  else (if stop <? start then (start - stop - 1) / (- step) + 1 else 0).

Definition range (start stop step : Z) : PyResult (list Z) :=
  if step =? 0 then Raise (ValueError "range() arg 3 must not be zero")
  else Ok (map (fun k => start + Z.of_nat k * step)
               (seq 0 (Z.to_nat (range_count start stop step)))).

(** [l.sort(key=..., reverse=True)]: descending, and elements with equal keys
    keep their order. [gt y x] says that the key of [y] is strictly greater
    than the key of [x]. *)
Section Sort.
Context {A : Type} (gt : A -> A -> bool).

Fixpoint insert_desc (x : A) (l : list A) : list A :=
    match l with
    | [] => [x]
    | y :: l' => if gt y x then y :: insert_desc x l' else x :: l
    end.

Fixpoint sort_desc (l : list A) : list A :=
    match l with
    | [] => []
    | x :: l' => insert_desc x (sort_desc l')
    end.
End Sort.

(** [a > b] and [a < b] on floats *)
Definition Qgtb (a b : Q) : bool := negb (Qle_bool a b).
Definition Qltb (a b : Q) : bool := Qgtb b a.

(** [a / b] on integers *)
Definition truediv (a b : Z) : PyResult Q :=
  if b =? 0 then Raise (ZeroDivisionError "division by zero")
  else Ok (Qred (inject_Z a / inject_Z b)).

End PyList.

(** ** data_models.py *)

(** The values held by the [metadata] dictionaries. *)
Inductive PyVal : Type :=
  | VInt (z : Z)
  | VFloat (q : Q)
  | VStr (s : string).

Module SearchResult.
Record t : Type := mk {
    title : string;
    url : string;
    snippet : string;
    source : string;
    metadata : gmap string PyVal }.
End SearchResult.

Module SearchResponse.
Record t : Type := mk {
    success : bool;
    results : list SearchResult.t;
    source : string;
    total_results : Z;
    response_time : Q;
    error_message : option string }.
End SearchResponse.

Module ScrapedContent.
Record t : Type := mk {
    url : string;
    title : string;
    content : string;
    text_length : Z;
    scrape_timestamp : Q;
    success : bool;
    error_message : option string;
    metadata : gmap string PyVal }.
End ScrapedContent.

Module DocumentChunk.
Record t : Type := mk {
    content : string;
    source_url : string;
    chunk_index : Z;
    metadata : gmap string PyVal }.
End DocumentChunk.

Module RAGResult.
Record t : Type := mk {
    query : string;
    relevant_chunks : list DocumentChunk.t;
    generated_response : string;
    confidence_score : Q;
    sources : list string;
    retrieval_time : Q;
    generation_time : Q }.
End RAGResult.

(** ** rag_agent.py *)

Module RAG.

Definition nl : string := String (ascii_of_nat 10) EmptyString.

(** [self._preprocess_text(text)] *)
Definition _preprocess_text (text : string) : string :=
  Text.strip (Text.sub_spaces (Text.lower text)).

(** The loop of [_chunk_text]: [chunks] is the list built so far, so that
    [len(chunks)] numbers the next chunk. *)
Fixpoint chunk_loop (words : list string) (chunk_size : Z) (source_url : string)
    (starts : list Z) (chunks : list DocumentChunk.t) : list DocumentChunk.t :=
  match starts with
  | [] => chunks
  | i :: rest =>
      let chunk_words := PyList.slice words i (i + chunk_size) in
      let chunk_text := Text.join " " chunk_words in
      chunk_loop words chunk_size source_url rest
        (chunks ++ [DocumentChunk.mk (_preprocess_text chunk_text) source_url
                      (PyList.len chunks)
                      {[ "word_count" := VInt (PyList.len chunk_words) ]}])
  end.

(** [self._chunk_text(text, source_url)] *)
Definition _chunk_text (chunk_size chunk_overlap : Z) (text source_url : string)
    : PyResult (list DocumentChunk.t) :=
  let words := Text.split text in
  let? starts := PyList.range 0 (PyList.len words) (chunk_size - chunk_overlap) in
  Ok (chunk_loop words chunk_size source_url starts []).

(** [self._calculate_keyword_similarity(query, chunk)] *)
Definition word_set (ws : list string) : gset string := list_to_set ws.

Definition _calculate_keyword_similarity (query : string) (chunk : DocumentChunk.t)
    : PyResult Q :=
  let query_words := word_set (Text.split (_preprocess_text query)) in
  let chunk_words := word_set (Text.split (DocumentChunk.content chunk)) in
  if decide (query_words = ∅) then Ok 0%Q
  else
    let intersection := Z.of_nat (size (query_words ∩ chunk_words)) in
    let union := Z.of_nat (size (query_words ∪ chunk_words)) in
    if 0 <? union then PyList.truediv intersection union else Ok 0%Q.

(** [chunk.metadata['similarity_score'] = score] *)
Definition set_score (chunk : DocumentChunk.t) (score : Q) : DocumentChunk.t :=
  DocumentChunk.mk (DocumentChunk.content chunk) (DocumentChunk.source_url chunk)
    (DocumentChunk.chunk_index chunk)
    (<[ "similarity_score" := VFloat score ]> (DocumentChunk.metadata chunk)).

(** [chunk.metadata.get('similarity_score', 0)] as a number *)
Definition get_score (chunk : DocumentChunk.t) : Q :=
  match DocumentChunk.metadata chunk !! "similarity_score" with
  | Some (VFloat q) => q
  | Some (VInt z) => inject_Z z
  | _ => 0%Q
  end.

(** [np.mean(xs)] of a non-empty list *)
Definition mean (xs : list Q) : Q :=
  Qred (fold_right Qplus 0%Q xs / inject_Z (PyList.len xs)).

(** The keyword-only loop of [query]: the chunks as the loop leaves them
    (a chunk with a positive score now carries it) and [scored_chunks]. *)
Fixpoint keyword_loop (query : string) (chunks : list DocumentChunk.t)
    : PyResult (list DocumentChunk.t * list (Q * DocumentChunk.t)) :=
  match chunks with
  | [] => Ok ([], [])
  | chunk :: rest =>
      let? score := _calculate_keyword_similarity query chunk in
      let? r := keyword_loop query rest in
      if PyList.Qgtb score 0 then
        Ok (set_score chunk score :: fst r, (score, set_score chunk score) :: snd r)
      else Ok (chunk :: fst r, snd r)
  end.

(** The answer built from the retrieved chunks: response text and confidence. *)
Definition generate (query : string) (relevant_chunks : list DocumentChunk.t)
    : string * Q :=
  match relevant_chunks with
  | [] => ("No relevant information found for query: " ++ query, 0%Q)
  | _ =>
      let context :=
        Text.join (nl ++ nl)
          (map (fun chunk => "Source: " ++ DocumentChunk.source_url chunk ++ nl
                             ++ DocumentChunk.content chunk)
               (PyList.prefix relevant_chunks 3)) in
      ("Based on the retrieved context for '" ++ query
         ++ "', here is a summary:" ++ nl ++ nl ++ context,
       mean (map get_score relevant_chunks))
  end.

(** [list(set(c.source_url for c in relevant_chunks))]; the order Python gives
    the elements of a set is not fixed, here it is the one of [elements]. *)
Definition source_list (relevant_chunks : list DocumentChunk.t) : list string :=
  elements (list_to_set (map DocumentChunk.source_url relevant_chunks) : gset string).

(** [doc.success and doc.content and len(doc.content.strip()) > 100] *)
Definition worth_indexing (doc : ScrapedContent.t) : bool :=
  ScrapedContent.success doc
  && negb (String.eqb (ScrapedContent.content doc) "")
  && (100 <? Text.len (Text.strip (ScrapedContent.content doc))).

(** The steps of [index_documents] that follow the encoding, each of which
    numpy or faiss may refuse: [np.vstack([self.embeddings, new_embeddings])];
    [self.embeddings.shape[1]] with [faiss.IndexFlatIP(dimension)]; and the
    copy, [faiss.normalize_L2] and [self.index.add]. *)
Inductive Step : Type :=
  | Vstack
  | IndexFlatIP
  | IndexAdd.

Section Agent.

(** Whether [sentence_transformers] and [faiss] could be imported. *)
Variable EMBEDDINGS_AVAILABLE : bool.
(** A row of an embedding matrix. *)
Variable Vec : Type.
(** [self.model.encode(texts)], a matrix given by its rows, or what the
    model raises. *)
Variable encode : list string -> PyResult (list Vec).
(** [faiss.normalize_L2] on one row. *)
Variable normalize_L2 : Vec -> Vec.
(** [index.search(queries, k)] on the index holding the given rows, as
    [zip(scores[0], indices[0])]. *)
Variable index_search : list Vec -> list Vec -> Z -> PyResult (list (Q * Z)).
(** What a step raises, if anything, on the rows of the matrix it works
    on. *)
Variable step_error : Step -> list Vec -> option PyExn.

Record ImprovedRAGAgent : Type := mkAgent {
  chunk_size : Z;
  chunk_overlap : Z;
  document_chunks : list DocumentChunk.t;
  use_embeddings : bool;
  (** [self.model] is a loaded model ([true]) or [None] *)
  model : bool;
  (** the rows held by [self.index], or [None] *)
  index : option (list Vec);
  embeddings : option (list Vec) }.

(** [ImprovedRAGAgent(chunk_size, chunk_overlap, use_embeddings)] *)
Definition __init__ (chunk_size chunk_overlap : Z) (use_embeddings : bool)
    : PyResult ImprovedRAGAgent :=
  let use := use_embeddings && EMBEDDINGS_AVAILABLE in
  Ok (mkAgent chunk_size chunk_overlap [] use use None None).

(** The loop of [index_documents] that fills [new_chunks]. *)
Fixpoint index_loop (self : ImprovedRAGAgent) (documents : list ScrapedContent.t)
    (new_chunks : list DocumentChunk.t) : PyResult (list DocumentChunk.t) :=
  match documents with
  | [] => Ok new_chunks
  | doc :: rest =>
      if worth_indexing doc then
        let? chunks := _chunk_text (chunk_size self) (chunk_overlap self)
                         (ScrapedContent.content doc) (ScrapedContent.url doc) in
        index_loop self rest (new_chunks ++ chunks)
      else index_loop self rest new_chunks
  end.

(** [self.embeddings = new_embeddings] when there were none, or
    [np.vstack([self.embeddings, new_embeddings])]: the rows to store. *)
Definition vstack (old : option (list Vec)) (new_embeddings : list Vec)
    : PyResult (list Vec) :=
  match old with
  | None => Ok new_embeddings
  | Some rows =>
      match step_error Vstack (rows ++ new_embeddings) with
      | Some e => Raise e
      | None => Ok (rows ++ new_embeddings)%list
      end
  end.

(** [self.index_documents(documents)]: the agent as the call leaves it, and
    how the call ends. An exception of [_chunk_text] leaves before anything of
    [self] is assigned. [self.document_chunks] is extended before the
    encoding, [self.embeddings] is assigned before the index is made, and
    [self.index] is assigned before the rows are added to it: an exception of
    a later step leaves [self] with what was assigned before it. *)
Definition index_documents (self : ImprovedRAGAgent) (documents : list ScrapedContent.t)
    : ImprovedRAGAgent * PyResult unit :=
  match index_loop self documents [] with
  | Raise e => (self, Raise e)
  | Ok new_chunks =>
      let chunks' := (document_chunks self ++ new_chunks)%list in
      let extended :=
        mkAgent (chunk_size self) (chunk_overlap self) chunks' (use_embeddings self)
          (model self) (index self) (embeddings self) in
      if use_embeddings self && model self && negb (PyList.len new_chunks =? 0) then
        let texts := map DocumentChunk.content new_chunks in
        match (let? new_embeddings := encode texts in
               vstack (embeddings self) new_embeddings) with
        | Raise e => (extended, Raise e)
        | Ok embeddings' =>
            let stored (index' : option (list Vec)) :=
              mkAgent (chunk_size self) (chunk_overlap self) chunks'
                (use_embeddings self) (model self) index' (Some embeddings') in
            match step_error IndexFlatIP embeddings' with
            | Some e => (stored (index self), Raise e)
            | None =>
                match step_error IndexAdd embeddings' with
                | Some e => (stored (Some []), Raise e)
                | None => (stored (Some (map normalize_L2 embeddings')), Ok tt)
                end
            end
        end
      else (extended, Ok tt)
  end.

(** A sequence of [index_documents] calls on one agent. The caller of a call
    that raises catches the exception and keeps the agent, so the next call
    finds the agent as the raising call left it. *)
Fixpoint index_all (self : ImprovedRAGAgent) (batches : list (list ScrapedContent.t))
    : ImprovedRAGAgent :=
  match batches with
  | [] => self
  | documents :: rest => index_all (fst (index_documents self documents)) rest
  end.

(** The embedding loop of [query]: [store] is [self.document_chunks] with the
    scores written so far; a candidate is a blended score and the position of
    its chunk in the store, so that two hits on one chunk share it. *)
Fixpoint embedding_loop (query : string) (hits : list (Q * Z))
    (store : list DocumentChunk.t) (candidates : list (Q * nat))
    : PyResult (list DocumentChunk.t * list (Q * nat)) :=
  match hits with
  | [] => Ok (store, candidates)
  | (score, idx) :: rest =>
      let? chunk := PyList.getitem store idx in
      let pos := Z.to_nat (if idx <? 0 then idx + PyList.len store else idx) in
      let? keyword_score := _calculate_keyword_similarity query chunk in
      let combined_score := ((7 # 10) * score + (3 # 10) * keyword_score)%Q in
      embedding_loop query rest (<[ pos := set_score chunk combined_score ]> store)
        (candidates ++ [(combined_score, pos)])
  end.

(** [self.query(query, top_k)]; the two times are the clock differences the
    call measures. The result comes with the agent as the call leaves it. *)
Definition query (self : ImprovedRAGAgent) (query : string) (top_k : Z)
    (retrieval_time generation_time : Q) : PyResult (ImprovedRAGAgent * RAGResult.t) :=
  match document_chunks self with
  | [] =>
      Ok (self, RAGResult.mk query [] "No indexed documents available." 0%Q [] 0%Q 0%Q)
  | _ =>
      let? found :=
        match use_embeddings self, index self with
        | true, Some rows =>
            let? encoded := encode [_preprocess_text query] in
            let query_embedding := map normalize_L2 encoded in
            let k_search := Z.min (top_k * 3) (PyList.len (document_chunks self)) in
            let? hits := index_search rows query_embedding k_search in
            let? r := embedding_loop query hits (document_chunks self) [] in
            let candidate_chunks := PyList.sort_desc (fun y x => PyList.Qgtb (fst y) (fst x)) (snd r) in
            Ok (fst r,
                omap (fun c => fst r !! snd c) (PyList.prefix candidate_chunks top_k))
        | _, _ =>
            let? r := keyword_loop query (document_chunks self) in
            let scored_chunks := PyList.sort_desc (fun y x => PyList.Qgtb (fst y) (fst x)) (snd r) in
            Ok (fst r, map snd (PyList.prefix scored_chunks top_k))
        end in
      let relevant_chunks := snd found in
      let answer := generate query relevant_chunks in
      Ok (mkAgent (chunk_size self) (chunk_overlap self) (fst found)
            (use_embeddings self) (model self) (index self) (embeddings self),
          RAGResult.mk query relevant_chunks (fst answer) (snd answer)
            (source_list relevant_chunks) retrieval_time generation_time)
  end.

End Agent.

Arguments mkAgent {Vec}.
Arguments chunk_size {Vec}.
Arguments chunk_overlap {Vec}.
Arguments document_chunks {Vec}.
Arguments use_embeddings {Vec}.
Arguments model {Vec}.
Arguments index {Vec}.
Arguments embeddings {Vec}.
Arguments index_loop {Vec}.
Arguments vstack {Vec}.
Arguments index_documents {Vec}.
Arguments index_all {Vec}.
Arguments query {Vec}.

End RAG.

(** ** Calls that gather tasks under a semaphore *)

Module Async.

(** How such a call ends: it returns, it waits for ever, or it raises. *)
Inductive Outcome (A : Type) : Type :=
  | Done (a : A)
  | Blocked
  | Failed (e : PyExn).
Arguments Done {A} a.
Arguments Blocked {A}.
Arguments Failed {A} e.

(** [semaphore = asyncio.Semaphore(value)] followed by
    [await asyncio.gather] of the tasks, where each of the [count] tasks first
    enters the semaphore: a negative value is refused, and with the value 0
    no task ever enters. *)
Definition gathered {A} (value : Z) (count : nat) (results : A) : Outcome A :=
  if value <? 0 then Failed (ValueError "Semaphore initial value must be >= 0")
  else if (value =? 0) && negb (Nat.eqb count 0) then Blocked
  else Done results.

End Async.

(** ** scraper.py *)

Module Scraper.

(** What the scraper does to the outside world, in order. *)
Inductive Event : Type :=
  | Sleep (seconds : Q)
  | Get (url : string).

(** What one [session.get] gives: a response with its status and body (reading
    the body may fail), or an exception. *)
Inductive Fetched : Type :=
  | Response (status : Z) (text : PyResult string)
  | Failed (e : PyExn).

(** The punctuation that [_clean_text] keeps: [. , ! ? ; : ( ) -] and the
    double quote. *)
Definition punctuation : list ascii :=
  (list_ascii_of_string ".,!?;:()-" ++ [ascii_of_nat 34])%list.

(** [re.sub(r'[^\w\s\.,!?;:()\-<quote>]', '', s)] *)
Fixpoint keep_allowed (s : string) : string :=
  match s with
  | EmptyString => EmptyString
  | String c s' =>
      if Text.isword c || Text.isspace c || existsb (Ascii.eqb c) punctuation
      then String c (keep_allowed s') else keep_allowed s'
  end.

(** [re.sub(r' +', ' ', s)] *)
Fixpoint squeeze_blanks (s : string) : string :=
  match s with
  | EmptyString => EmptyString
  | String c s' =>
      if Ascii.eqb c " " then
        match s' with
        | String c' _ => if Ascii.eqb c' " " then squeeze_blanks s'
                         else String c (squeeze_blanks s')
        | EmptyString => String c EmptyString
        end
      else String c (squeeze_blanks s')
  end.

(** [self._clean_text(text)] *)
Definition _clean_text (text : string) : string :=
  Text.strip (squeeze_blanks (keep_allowed (Text.sub_spaces text))).

Record WebScraperAgent : Type := mkScraper {
  max_retries : Z;
  timeout : Z;
  rate_limit_delay : Q;
  last_request_time : Q }.

(** [WebScraperAgent(max_retries, timeout, rate_limit_delay)] *)
Definition __init__ (max_retries timeout : Z) (rate_limit_delay : Q) : WebScraperAgent :=
  mkScraper max_retries timeout rate_limit_delay 0%Q.

(** [self._rate_limit()], [now] and [now'] being the two readings of
    [time.time()]. *)
Definition _rate_limit (self : WebScraperAgent) (now now' : Q)
    : list Event * WebScraperAgent :=
  let time_since_last := (now - last_request_time self)%Q in
  (if PyList.Qltb time_since_last (rate_limit_delay self)
   then [Sleep (rate_limit_delay self - time_since_last)%Q] else [],
   mkScraper (max_retries self) (timeout self) (rate_limit_delay self) now').

(** How the body of the [try] of one attempt ends. *)
Inductive Attempt : Type :=
  | Returned (content : ScrapedContent.t)
  | HttpError (status : Z)
  | Raised (e : PyExn).

Section Scrape.

(** Whether [bs4] and [trafilatura] could both be imported. *)
Variable SCRAPING_AVAILABLE : bool.
(** Whether [from bs4 import BeautifulSoup] succeeded when the import of
    [trafilatura] after it did not: the name [BeautifulSoup] is bound when
    one of the two flags holds. *)
Variable bs4_imported : bool.
(** [self.session.get(url)] at the given attempt. *)
Variable session_get : string -> nat -> Fetched.
(** [trafilatura.extract(html, ...)]: a text, or [None]. *)
Variable trafilatura_extract : string -> PyResult (option string).
(** [BeautifulSoup(html).title]: no title element, or the [.string] of the
    element, which may be [None]. *)
Variable soup_title : string -> option (option string).
(** The text of the first of the [main], [article] and [body] elements once
    the boilerplate elements are removed, if there is one. *)
Variable main_content_text : string -> option string.
(** [datetime.now()] when the record is built. *)
Variable datetime_now : Q.

(** [soup.title.string.strip() if soup.title else "No Title"] *)
Definition title_of (html : string) : PyResult string :=
  match soup_title html with
  | None => Ok "No Title"
  | Some None => Raise (AttributeError "'NoneType' object has no attribute 'strip'")
  | Some (Some s) => Ok (Text.strip s)
  end.

(** The fallback extraction, which names [BeautifulSoup] whether or not it
    was imported. *)
Definition extract_with_soup (url html : string) : Attempt :=
  if SCRAPING_AVAILABLE || bs4_imported then
    match title_of html with
    | Raise e => Raised e
    | Ok title =>
        let text_content :=
          match main_content_text html with Some t => t | None => "" end in
        let cleaned_content := _clean_text text_content in
        Returned (ScrapedContent.mk url title cleaned_content
                    (Text.len cleaned_content) datetime_now true None
                    {[ "method" := VStr "beautifulsoup" ]})
    end
  else Raised (NameError "name 'BeautifulSoup' is not defined").

(** The body of the [try] at one attempt. *)
Definition try_attempt (url : string) (attempt : nat) : Attempt :=
  match session_get url attempt with
  | Failed e => Raised e
  | Response status text =>
      if status =? 200 then
        match text with
        | Raise e => Raised e
        | Ok html =>
            if SCRAPING_AVAILABLE then
              match trafilatura_extract html with
              | Raise e => Raised e
              | Ok (Some (String c content')) =>
                  let content := String c content' in
                  match title_of html with
                  | Raise e => Raised e
                  | Ok title =>
                      let cleaned_content := _clean_text content in
                      Returned (ScrapedContent.mk url title cleaned_content
                                  (Text.len cleaned_content) datetime_now true None
                                  {[ "method" := VStr "trafilatura" ]})
                  end
              | Ok _ => extract_with_soup url html
              end
            else extract_with_soup url html
        end
      else HttpError status
  end.

(** The [for attempt in range(self.max_retries)] loop and the return that
    follows it; [trace] collects the events. *)
Fixpoint attempt_loop (self : WebScraperAgent) (url : string) (attempts : list Z)
    (error_msg : string) (trace : list Event) : ScrapedContent.t * list Event :=
  match attempts with
  | [] =>
      (ScrapedContent.mk url "" "" 0 datetime_now false (Some error_msg) ∅, trace)
  | attempt :: rest =>
      match try_attempt url (Z.to_nat attempt) with
      | Returned content => (content, (trace ++ [Get url])%list)
      | HttpError status =>
          attempt_loop self url rest ("HTTP " ++ pretty status) (trace ++ [Get url])%list
      | Raised e =>
          attempt_loop self url rest (exn_str e)
            (trace ++ [Get url]
               ++ (if attempt <? max_retries self - 1
                   then [Sleep (inject_Z (2 ^ attempt))] else []))%list
      end
  end.

(** [self.scrape_url(url)] with the events it causes and the agent after it. *)
Definition scrape_url (self : WebScraperAgent) (url : string) (now now' : Q)
    : ScrapedContent.t * list Event * WebScraperAgent :=
  let limited := _rate_limit self now now' in
  let attempts :=
    match PyList.range 0 (max_retries self) 1 with Ok l => l | Raise _ => [] end in
  let done := attempt_loop self url attempts "" (fst limited) in
  (fst done, snd done, snd limited).

End Scrape.

Section ScrapeMany.

Variable SCRAPING_AVAILABLE : bool.
Variable bs4_imported : bool.
Variable session_get : string -> nat -> Fetched.
Variable trafilatura_extract : string -> PyResult (option string).
Variable soup_title : string -> option (option string).
Variable main_content_text : string -> option string.
Variable datetime_now : Q.

(** [self.scrape_multiple_urls(urls, max_concurrent)]: [gather] hands back the
    records in the order of [urls]. The tasks share [self] and interleave:
    [last i] is the [last_request_time] that the task of the [i]-th URL
    finds, [clock i] the two times it reads. *)
Definition scrape_multiple_urls (self : WebScraperAgent) (urls : list string)
    (max_concurrent : Z) (last : nat -> Q) (clock : nat -> Q * Q)
    : Async.Outcome (list ScrapedContent.t) :=
  Async.gathered max_concurrent (length urls)
    (imap (fun i url =>
             fst (fst (scrape_url SCRAPING_AVAILABLE bs4_imported session_get trafilatura_extract
                         soup_title main_content_text datetime_now
                         (mkScraper (max_retries self) (timeout self)
                            (rate_limit_delay self) (last i))
                         url (fst (clock i)) (snd (clock i)))))
       urls).

End ScrapeMany.

End Scraper.

(** ** search_agents.py *)

Module Search.

(** A search backend: the name of its class and its [search] coroutine, which
    returns a response or raises. *)
Record SearchAgent : Type := mkSearchAgent {
  type_name : string;
  search : string -> Z -> PyResult SearchResponse.t }.

Record MultiSearchAgent : Type := mkMulti {
  search_agents : list SearchAgent;
  max_concurrent : Z }.

(** [search_with_semaphore(agent)] *)
Definition search_with_semaphore (self : MultiSearchAgent) (query : string)
    (num_results : Z) (agent : SearchAgent) : SearchResponse.t :=
  match search agent query (num_results / PyList.len (search_agents self) + 2) with
  | Ok response => response
  | Raise e => SearchResponse.mk false [] (type_name agent) 0 0%Q (Some (exn_str e))
  end.

(** What the merge loop carries. *)
Record Merged : Type := mkMerged {
  all_results : list SearchResult.t;
  successful_sources : list string;
  seen_urls : gset string }.

(** [for result in response.results: ...] *)
Fixpoint add_results (results : list SearchResult.t) (m : Merged) : Merged :=
  match results with
  | [] => m
  | result :: rest =>
      if decide (SearchResult.url result ∈ seen_urls m) then add_results rest m
      else add_results rest
             (mkMerged (all_results m ++ [result]) (successful_sources m)
                ({[ SearchResult.url result ]} ∪ seen_urls m))
  end.

(** [for response in responses: ...]; an element of [responses] that is not a
    [SearchResponse] is an exception that [gather] handed back. *)
Fixpoint merge_loop (responses : list (PyResult SearchResponse.t)) (m : Merged) : Merged :=
  match responses with
  | [] => m
  | Ok response :: rest =>
      if SearchResponse.success response then
        let m' := add_results (SearchResponse.results response) m in
        merge_loop rest
          (mkMerged (all_results m')
             (successful_sources m' ++ [SearchResponse.source response]) (seen_urls m'))
      else merge_loop rest m
  | Raise _ :: rest => merge_loop rest m
  end.

(** The sort key [(len(x.snippet), 1 if x.source == "wikipedia" else 0)] *)
Definition rank_key (x : SearchResult.t) : Z * Z :=
  (Text.len (SearchResult.snippet x),
   if String.eqb (SearchResult.source x) "wikipedia" then 1 else 0).

(** [a > b] on pairs of integers *)
Definition pair_gtb (a b : Z * Z) : bool :=
  (fst b <? fst a) || ((fst a =? fst b) && (snd b <? snd a)).

(** The part of [search] after [gather]: merge, rank, cut. *)
Definition merge_responses (responses : list (PyResult SearchResponse.t))
    (num_results : Z) (response_time : Q) : SearchResponse.t :=
  let m := merge_loop responses (mkMerged [] [] ∅) in
  let ranked := PyList.sort_desc (fun y x => pair_gtb (rank_key y) (rank_key x))
                  (all_results m) in
  SearchResponse.mk (0 <? PyList.len ranked) (PyList.prefix ranked num_results)
    (Text.join "+" (successful_sources m)) (PyList.len ranked) response_time None.

(** [self.search(query, num_results)]; [gather] returns the responses in the
    order of [self.search_agents]. *)
Definition multi_search (self : MultiSearchAgent) (query : string) (num_results : Z)
    (response_time : Q) : SearchResponse.t :=
  let responses :=
    map (fun agent => Ok (search_with_semaphore self query num_results agent))
        (search_agents self) in
  merge_responses responses num_results response_time.

(** [self.search(query, num_results)] with its semaphore. *)
Definition gathered_search (self : MultiSearchAgent) (query : string)
    (num_results : Z) (response_time : Q) : Async.Outcome SearchResponse.t :=
  Async.gathered (max_concurrent self) (length (search_agents self))
    (multi_search self query num_results response_time).

End Search.

(** ** search_agents.py: the DuckDuckGo backend *)

Module DuckDuckGo.

Section Agent.

(** Whether [bs4] could be imported. *)
Variable BS4_AVAILABLE : bool.
(** [session.get(search_url, ...)] *)
Variable session_get : string -> Scraper.Fetched.
(** [urllib.parse.quote_plus] *)
Variable quote_plus : string -> string.
(** The anchors of class [result__a] of a page, each as its stripped text and
    its [href] (the empty text when it has none), and the stripped texts of
    the anchors of class [result__snippet]; either may raise. *)
Variable find_links : string -> PyResult (list (string * string)).
Variable find_snippets : string -> PyResult (list string).

(** The loop of [_parse_duckduckgo_results] from position [i] on. *)
Fixpoint parse_loop (query : string) (result_snippets : list string) (i : nat)
    (links : list (string * string)) (results : list SearchResult.t)
    : list SearchResult.t :=
  match links with
  | [] => results
  | (title, url) :: rest =>
      let snippet :=
        match result_snippets !! i with Some text => text | None => "" end in
      if negb (String.eqb title "") && negb (String.eqb url "")
         && negb (String.prefix "/" url)
      then parse_loop query result_snippets (S i) rest
             (results ++ [SearchResult.mk title url snippet "duckduckgo"
                            {[ "query" := VStr query ]}])
      else parse_loop query result_snippets (S i) rest results
  end.

(** [self._parse_duckduckgo_results(html, query)] *)
Definition _parse_duckduckgo_results (html query : string) : list SearchResult.t :=
  if BS4_AVAILABLE then
    match find_links html, find_snippets html with
    | Ok result_links, Ok result_snippets =>
        parse_loop query result_snippets 0 (PyList.prefix result_links 10) []
    | _, _ => []
    end
  else [].

(** [self.search(query, num_results)], after the rate limit; it catches
    every exception. *)
Definition search (query : string) (num_results : Z) (response_time : Q)
    : SearchResponse.t :=
  let search_url := ("https://html.duckduckgo.com/html/?q=" ++ quote_plus query)%string in
  let failure message :=
    SearchResponse.mk false [] "duckduckgo" 0 response_time (Some message) in
  match session_get search_url with
  | Scraper.Failed e => failure (exn_str e)
  | Scraper.Response status text =>
      if status =? 200 then
        match text with
        | Raise e => failure (exn_str e)
        | Ok html =>
            let results := _parse_duckduckgo_results html query in
            SearchResponse.mk true (PyList.prefix results num_results) "duckduckgo"
              (PyList.len results) response_time None
        end
      else failure ("HTTP " ++ pretty status)%string
  end.

(** The backend as the aggregator sees it. *)
Definition agent (response_time : Q) : Search.SearchAgent :=
  Search.mkSearchAgent "DuckDuckGoSearchAgent"
    (fun query num_results => Ok (search query num_results response_time)).

End Agent.

End DuckDuckGo.

(** ** system.py *)

Module System.

(** The keyword arguments kept for [WebScraperAgent] and for
    [ImprovedRAGAgent]; an absent key leaves the default of the constructor. *)
Record ScraperConfig : Type := mkScraperConfig {
  cfg_max_retries : option Z;
  cfg_timeout : option Z;
  cfg_rate_limit_delay : option Q }.

Record RagConfig : Type := mkRagConfig {
  cfg_chunk_size : option Z;
  cfg_chunk_overlap : option Z }.

(** [WebScraperAgent] built from the kept keyword arguments. *)
Definition make_scraper (config : ScraperConfig) : Scraper.WebScraperAgent :=
  Scraper.__init__
    (match cfg_max_retries config with Some n => n | None => 3 end)
    (match cfg_timeout config with Some n => n | None => 30 end)
    (match cfg_rate_limit_delay config with Some d => d | None => 1%Q end).

(** The dictionary that [_get_statistics] returns. *)
Record Statistics : Type := mkStatistics {
  total_chunks : Z;
  unique_sources : Z;
  embeddings_enabled : bool;
  avg_chunk_size : Q }.

(** The dictionary that [query_with_rag] returns. *)
Inductive Result : Type :=
  | Error (message : string)
  | Success (rag_result : RAGResult.t) (scraped_contents : list ScrapedContent.t)
      (total_processing_time : Q) (statistics : Statistics).

(** [c.metadata.get('word_count', 0)] *)
Definition word_count_of (chunk : DocumentChunk.t) : PyVal :=
  match DocumentChunk.metadata chunk !! "word_count" with
  | Some value => value
  | None => VInt 0
  end.

(** The numbers that [np.mean] averages; a string among the values has no
    number, and numpy refuses the list. *)
Fixpoint numbers (values : list PyVal) : option (list Q) :=
  match values with
  | [] => Some []
  | VInt z :: rest => option_map (cons (inject_Z z)) (numbers rest)
  | VFloat q :: rest => option_map (cons q) (numbers rest)
  | VStr _ :: _ => None
  end.

(** [c.success and len(c.content) > 100] *)
Definition usable (c : ScrapedContent.t) : bool :=
  ScrapedContent.success c && (100 <? Text.len (ScrapedContent.content c)).

Section Pipeline.

Variable EMBEDDINGS_AVAILABLE : bool.
Variable Vec : Type.
Variable encode : list string -> PyResult (list Vec).
Variable normalize_L2 : Vec -> Vec.
Variable index_search : list Vec -> list Vec -> Z -> PyResult (list (Q * Z)).
Variable step_error : RAG.Step -> list Vec -> option PyExn.
Variable SCRAPING_AVAILABLE : bool.
Variable bs4_imported : bool.
Variable session_get : string -> nat -> Scraper.Fetched.
Variable trafilatura_extract : string -> PyResult (option string).
Variable soup_title : string -> option (option string).
Variable main_content_text : string -> option string.
Variable datetime_now : Q.
(** [urlparse(url).scheme], which raises on some malformed URLs. *)
Variable url_scheme : string -> PyResult string.
(** [config.MULTI_SEARCH_CONCURRENCY] and [config.SCRAPER_MAX_CONCURRENT] *)
Variable MULTI_SEARCH_CONCURRENCY : Z.
Variable SCRAPER_MAX_CONCURRENT : Z.
(** What [np.mean] raises on a list that holds a string. *)
Variable np_mean_error : PyExn.

Record RobustWebSearchRAGSystem : Type := mkSystem {
  scraper_config : ScraperConfig;
  rag_config : RagConfig;
  search_agents : list Search.SearchAgent;
  multi_search : Search.MultiSearchAgent;
  rag_agent : RAG.ImprovedRAGAgent Vec }.

(** [RobustWebSearchRAGSystem(search_agents, use_embeddings, scraper_config,
    rag_config)] *)
Definition __init__ (search_agents : list Search.SearchAgent) (use_embeddings : bool)
    (scraper_config : ScraperConfig) (rag_config : RagConfig)
    : PyResult RobustWebSearchRAGSystem :=
  let? rag_agent :=
    RAG.__init__ EMBEDDINGS_AVAILABLE Vec
      (match cfg_chunk_size rag_config with Some n => n | None => 512 end)
      (match cfg_chunk_overlap rag_config with Some n => n | None => 64 end)
      use_embeddings in
  Ok (mkSystem scraper_config rag_config search_agents
        (Search.mkMulti search_agents MULTI_SEARCH_CONCURRENCY) rag_agent).

(** [self._get_statistics()] on the agent as it is. *)
Definition _get_statistics (rag_agent : RAG.ImprovedRAGAgent Vec)
    : PyResult Statistics :=
  let doc_chunks := RAG.document_chunks rag_agent in
  let? avg_chunk_size :=
    match doc_chunks with
    | [] => Ok 0%Q
    | _ =>
        match numbers (map word_count_of doc_chunks) with
        | Some counts => Ok (RAG.mean counts)
        | None => Raise np_mean_error
        end
    end in
  Ok (mkStatistics (PyList.len doc_chunks)
        (Z.of_nat (size (list_to_set (map DocumentChunk.source_url doc_chunks)
                         : gset string)))
        (RAG.use_embeddings rag_agent) avg_chunk_size).

(** [[r.url for r in results if urlparse(r.url).scheme in ['http', 'https']]] *)
Fixpoint valid_urls (results : list SearchResult.t) : PyResult (list string) :=
  match results with
  | [] => Ok []
  | r :: rest =>
      let? scheme := url_scheme (SearchResult.url r) in
      let? urls := valid_urls rest in
      if String.eqb scheme "http" || String.eqb scheme "https"
      then Ok (SearchResult.url r :: urls) else Ok urls
  end.

(** What [except Exception as e] returns. *)
Definition system_error (e : PyExn) : Result :=
  Error ("System error: " ++ exn_str e).

(** Step 4 of the pipeline and the dictionary of a completed run. *)
Definition answer (rag_agent : RAG.ImprovedRAGAgent Vec) (query : string)
    (num_search_results : Z) (scraped_contents : list ScrapedContent.t)
    (retrieval_time generation_time total_time : Q) : Result :=
  match RAG.query encode normalize_L2 index_search rag_agent query
          num_search_results retrieval_time generation_time with
  | Raise e => system_error e
  | Ok (rag_agent', rag_result) =>
      match _get_statistics rag_agent' with
      | Raise e => system_error e
      | Ok statistics => Success rag_result scraped_contents total_time statistics
      end
  end.

(** [self.query_with_rag(query, search_first, num_search_results)]. The times
    are the clock differences that the call and its callees measure; [last]
    and [clock] are what the scraping tasks find and read. *)
Definition query_with_rag (self : RobustWebSearchRAGSystem) (query : string)
    (search_first : bool) (num_search_results : Z)
    (search_time retrieval_time generation_time total_time : Q)
    (last : nat -> Q) (clock : nat -> Q * Q) : Async.Outcome Result :=
  if String.eqb (Text.strip query) "" then Async.Done (Error "Empty query provided")
  else if search_first then
    match Search.gathered_search (multi_search self) query num_search_results
            search_time with
    | Async.Failed e => Async.Done (system_error e)
    | Async.Blocked => Async.Blocked
    | Async.Done search_response =>
        if negb (SearchResponse.success search_response)
           || (PyList.len (SearchResponse.results search_response) =? 0)
        then Async.Done (Error "Search failed or returned no results")
        else
          match valid_urls (SearchResponse.results search_response) with
          | Raise e => Async.Done (system_error e)
          | Ok [] => Async.Done (Error "No valid URLs found to scrape")
          | Ok urls =>
              match Scraper.scrape_multiple_urls SCRAPING_AVAILABLE bs4_imported session_get
                      trafilatura_extract soup_title main_content_text
                      datetime_now (make_scraper (scraper_config self)) urls
                      SCRAPER_MAX_CONCURRENT last clock with
              | Async.Failed e => Async.Done (system_error e)
              | Async.Blocked => Async.Blocked
              | Async.Done scraped_contents =>
                  let successful_contents := List.filter usable scraped_contents in
                  let indexed :=
                    match successful_contents with
                    | [] => (rag_agent self, Ok tt)
                    | _ => RAG.index_documents encode normalize_L2 step_error
                             (rag_agent self) successful_contents
                    end in
                  match snd indexed with
                  | Raise e => Async.Done (system_error e)
                  | Ok _ =>
                      Async.Done (answer (fst indexed) query num_search_results
                                    scraped_contents retrieval_time
                                    generation_time total_time)
                  end
              end
          end
    end
  else
    Async.Done (answer (rag_agent self) query num_search_results []
                  retrieval_time generation_time total_time).

(** The dictionary that [save_index] pickles. *)
Record Pickled : Type := mkPickled {
  pickled_document_chunks : list DocumentChunk.t;
  pickled_embeddings : option (list Vec) }.

(** [self.save_index(filepath)]: what is written. *)
Definition save_index (self : RobustWebSearchRAGSystem) : Pickled :=
  mkPickled (RAG.document_chunks (rag_agent self)) (RAG.embeddings (rag_agent self)).

(** [self.load_index(filepath)], [data] being what is read. The index is not
    rebuilt. *)
Definition load_index (self : RobustWebSearchRAGSystem) (data : Pickled)
    : RobustWebSearchRAGSystem :=
  let rag := rag_agent self in
  mkSystem (scraper_config self) (rag_config self) (search_agents self)
    (multi_search self)
    (RAG.mkAgent (RAG.chunk_size rag) (RAG.chunk_overlap rag)
       (pickled_document_chunks data) (RAG.use_embeddings rag) (RAG.model rag)
       (RAG.index rag)
       (match RAG.use_embeddings rag, pickled_embeddings data with
        | true, Some rows => Some rows
        | _, _ => RAG.embeddings rag
        end)).

End Pipeline.

Arguments mkSystem {Vec}.
Arguments scraper_config {Vec}.
Arguments rag_config {Vec}.
Arguments search_agents {Vec}.
Arguments multi_search {Vec}.
Arguments rag_agent {Vec}.
Arguments _get_statistics {Vec}.
Arguments answer {Vec}.
Arguments query_with_rag {Vec}.
Arguments mkPickled {Vec}.
Arguments pickled_document_chunks {Vec}.
Arguments pickled_embeddings {Vec}.
Arguments save_index {Vec}.
Arguments load_index {Vec}.

End System.

(** ** Vocabulary of the statements *)

Module Spec.

(** *** Chunking *)

(** The [word_count] entry of a chunk. *)
Definition word_count (chunk : DocumentChunk.t) : option PyVal :=
  DocumentChunk.metadata chunk !! "word_count".

(** The chunk that [_chunk_text] builds from the words [i .. i + chunk_size). *)
Definition chunk_at (words : list string) (chunk_size : Z) (source_url : string)
    (number i : Z) : DocumentChunk.t :=
  DocumentChunk.mk
    (RAG._preprocess_text (Text.join " " (PyList.slice words i (i + chunk_size))))
    source_url number
    {[ "word_count" := VInt (PyList.len (PyList.slice words i (i + chunk_size))) ]}.

(** *** Keyword scores *)

(** The value of the similarity, without the error layer. *)
Definition jaccard (query_words chunk_words : gset string) : Q :=
  if decide (query_words = ∅) then 0%Q
  else Qred (inject_Z (Z.of_nat (size (query_words ∩ chunk_words)))
             / inject_Z (Z.of_nat (size (query_words ∪ chunk_words)))).

(** The lower-cased, whitespace-normalized word set of a text. *)
Definition normalized_words (text : string) : gset string :=
  RAG.word_set (Text.split (RAG._preprocess_text text)).

(** The Jaccard index of the normalized word sets of a query and a chunk. *)
Definition chunk_score (query : string) (chunk : DocumentChunk.t) : Q :=
  jaccard (normalized_words query) (normalized_words (DocumentChunk.content chunk)).

(** A chunk whose content went through [_preprocess_text]. *)
Definition preprocessed (chunk : DocumentChunk.t) : Prop :=
  exists text, DocumentChunk.content chunk = RAG._preprocess_text text.

(** What keyword-only mode relies on: the flag is off and every stored chunk
    is preprocessed. *)
Definition keyword_only {Vec} (self : RAG.ImprovedRAGAgent Vec) : Prop :=
  RAG.use_embeddings self = false
  /\ Forall preprocessed (RAG.document_chunks self).

(** The test [score > 0] of the keyword loop. *)
Definition positive (query : string) (chunk : DocumentChunk.t) : bool :=
  PyList.Qgtb (chunk_score query chunk) 0.

(** The chunk once the keyword loop has written its score into it. *)
Definition scored (query : string) (chunk : DocumentChunk.t) : DocumentChunk.t :=
  RAG.set_score chunk (chunk_score query chunk).

(** The chunks with a positive score, best first, ties in stored order. *)
Definition ranking (query : string) (chunks : list DocumentChunk.t)
    : list DocumentChunk.t :=
  PyList.sort_desc
    (fun y x => PyList.Qgtb (chunk_score query y) (chunk_score query x))
    (List.filter (positive query) chunks).

(** What [split_from] gives when the rest of the text holds no word. *)
Definition pending (cur : string) : list string :=
  match cur with
  | EmptyString => []
  | _ => [cur]
  end.

(** *** Alignment *)

(** The number of rows of a matrix that may still be [None]. *)
Definition rows_of {Vec} (matrix : option (list Vec)) : nat :=
  match matrix with
  | None => 0%nat
  | Some rows => length rows
  end.

(** The invariant: embedding mode is on, and the matrix and the index have
    one row per chunk. *)
Definition aligned {Vec} (self : RAG.ImprovedRAGAgent Vec) : Prop :=
  RAG.use_embeddings self = true
  /\ RAG.model self = true
  /\ rows_of (RAG.embeddings self) = length (RAG.document_chunks self)
  /\ rows_of (RAG.index self) = length (RAG.document_chunks self).

(** *** Scraped records *)

(** A record whose length field is right; a failed one is empty. *)
Definition well_formed (record : ScrapedContent.t) : Prop :=
  ScrapedContent.text_length record = Text.len (ScrapedContent.content record)
  /\ (ScrapedContent.success record = true ->
      exists text, ScrapedContent.content record = Scraper._clean_text text)
  /\ (ScrapedContent.success record = false ->
      ScrapedContent.content record = ""
      /\ ScrapedContent.text_length record = 0).

(** *** Merged responses *)

(** Whether an element of [responses] passes the test of the merge loop. *)
Definition contributes (response : PyResult SearchResponse.t) : bool :=
  match response with
  | Ok r => SearchResponse.success r
  | Raise _ => false
  end.

(** The results of the responses that pass, in the order the loop reads them. *)
Definition successful_results (responses : list (PyResult SearchResponse.t))
    : list SearchResult.t :=
  flat_map (fun response =>
              match response with
              | Ok r => if SearchResponse.success r then SearchResponse.results r else []
              | Raise _ => []
              end) responses.

(** The results whose URL is neither in [seen] nor carried by an earlier
    result. *)
Fixpoint dedup_urls (seen : gset string) (results : list SearchResult.t)
    : list SearchResult.t :=
  match results with
  | [] => []
  | result :: rest =>
      if decide (SearchResult.url result ∈ seen) then dedup_urls seen rest
      else result :: dedup_urls ({[ SearchResult.url result ]} ∪ seen) rest
  end.

(** The URLs carried by a list of results. *)
Definition url_set (results : list SearchResult.t) : gset string :=
  list_to_set (map SearchResult.url results).

(** Whether the [search] of an agent raises on the request the aggregator
    sends it. *)
Definition raises (self : Search.MultiSearchAgent) (query : string) (num_results : Z)
    (agent : Search.SearchAgent) : bool :=
  match Search.search agent query
          (num_results / PyList.len (Search.search_agents self) + 2) with
  | Ok _ => false
  | Raise _ => true
  end.

(** *** Further vocabulary: characters, words, windows *)

(** Every character of a text passes a test. *)
Fixpoint all_chars (P : ascii -> bool) (s : string) : bool :=
  match s with
  | EmptyString => true
  | String c s' => P c && all_chars P s'
  end.

(** A word as [str.split] gives them: not empty, no whitespace inside. *)
Definition is_word (w : string) : Prop :=
  w <> EmptyString /\ all_chars (fun c => negb (Text.isspace c)) w = true.

(** A character that [str.lower] leaves as it is. *)
Definition is_lowered (c : ascii) : bool := Ascii.eqb (Text.lower_char c) c.

(** A character that [_clean_text] lets through. *)
Definition is_allowed (c : ascii) : bool :=
  Text.isword c || Text.isspace c || existsb (Ascii.eqb c) Scraper.punctuation.

(** The chunks that the loop of [_chunk_text] appends for the given window
    starts, the first of them numbered [first]. *)
Fixpoint chunks_from (words : list string) (chunk_size : Z) (source_url : string)
    (first : Z) (starts : list Z) : list DocumentChunk.t :=
  match starts with
  | [] => []
  | i :: rest =>
      chunk_at words chunk_size source_url first i
        :: chunks_from words chunk_size source_url (first + 1) rest
  end.

(** What a query may not change in a stored chunk. *)
Definition chunk_text (chunk : DocumentChunk.t) : string * string * Z :=
  (DocumentChunk.content chunk, DocumentChunk.source_url chunk,
   DocumentChunk.chunk_index chunk).

(** The score that the keyword loop gives a chunk, whatever its content. *)
Definition raw_score (query : string) (chunk : DocumentChunk.t) : Q :=
  jaccard (normalized_words query)
    (RAG.word_set (Text.split (DocumentChunk.content chunk))).

(** A text that is empty or begins with a character that is not whitespace. *)
Definition starts_clean (s : string) : bool :=
  match s with
  | EmptyString => true
  | String c _ => negb (Text.isspace c)
  end.

(** A character that is not whitespace, or is the plain space. *)
Definition plain_space_only (c : ascii) : bool :=
  negb (Text.isspace c) || Ascii.eqb c " ".

(** *** Further vocabulary: traces of the scraper *)

(** The number of requests in a trace, and the sleeps of a trace in order. *)
Definition requests (trace : list Scraper.Event) : nat :=
  length (List.filter (fun event => match event with
                                    | Scraper.Get _ => true
                                    | Scraper.Sleep _ => false
                                    end) trace).

Definition sleeps (trace : list Scraper.Event) : list Q :=
  flat_map (fun event => match event with
                         | Scraper.Sleep seconds => [seconds]
                         | Scraper.Get _ => []
                         end) trace.

(** The strategy that a record says it was extracted with. *)
Definition method_of (record : ScrapedContent.t) : option PyVal :=
  ScrapedContent.metadata record !! "method".


(** What a record says besides its text, by outcome. *)
Definition labelled (url : string) (record : ScrapedContent.t) : Prop :=
  ScrapedContent.url record = url
  /\ (ScrapedContent.success record = true ->
      ScrapedContent.error_message record = None
      /\ (method_of record = Some (VStr "trafilatura")
          \/ method_of record = Some (VStr "beautifulsoup")))
  /\ (ScrapedContent.success record = false ->
      ScrapedContent.error_message record <> None
      /\ ScrapedContent.title record = ""
      /\ method_of record = None).

(** *** Further vocabulary: merged responses *)

(** The sources of the responses that pass the test of the merge loop. *)
Definition contributing_sources (responses : list (PyResult SearchResponse.t))
    : list string :=
  flat_map (fun response =>
              match response with
              | Ok r => if SearchResponse.success r then [SearchResponse.source r] else []
              | Raise _ => []
              end) responses.

(** [a] may stand before [b] in the ranking: its snippet is longer, or as
    long and [b] is not the only one of the two from wikipedia. *)
Definition ranks_before (a b : SearchResult.t) : Prop :=
  fst (Search.rank_key b) < fst (Search.rank_key a)
  \/ (fst (Search.rank_key a) = fst (Search.rank_key b)
      /\ snd (Search.rank_key b) <= snd (Search.rank_key a)).

(** A result as the DuckDuckGo parser lets it through. *)
Definition parsed_result (query : string) (result : SearchResult.t) : Prop :=
  SearchResult.title result <> ""
  /\ SearchResult.url result <> ""
  /\ String.prefix "/" (SearchResult.url result) = false
  /\ SearchResult.source result = "duckduckgo"
  /\ SearchResult.metadata result !! "query" = Some (VStr query).

(** *** Further vocabulary: the pipeline *)

(** The [RAGResult] of a query, or its exception. *)
Definition result_of {Vec} (outcome : PyResult (RAG.ImprovedRAGAgent Vec * RAGResult.t))
    : PyResult RAGResult.t :=
  match outcome with
  | Ok (_, result) => Ok result
  | Raise e => Raise e
  end.

(** A chunk whose metadata count its words, at most [chunk_size] of them. *)
Definition counted (chunk_size : Z) (chunk : DocumentChunk.t) : Prop :=
  exists n : Z, word_count chunk = Some (VInt n) /\ 0 <= n <= chunk_size.

End Spec.
Import Spec.

(** ** Sample inputs

    Concrete collaborators and inputs on which the statements below are run. *)

Module Sample.

(** An embedding model over one-number rows, and an index that finds nothing. *)
Definition demo_encode (texts : list string) : PyResult (list Z) :=
  Ok (map Text.len texts).
(** numpy and faiss refusing nothing. *)
Definition no_refusal (step : RAG.Step) (rows : list Z) : option PyExn := None.
(** The same model when it runs out of memory on a batch of more than one
    text. *)
Definition small_encode (texts : list string) : PyResult (list Z) :=
  if 1 <? PyList.len texts then Raise (Exception "CUDA out of memory")
  else demo_encode texts.
Definition demo_search (rows queries : list Z) (k : Z) : PyResult (list (Q * Z)) :=
  Ok [].
Definition demo_agent (use_embeddings : bool) : RAG.ImprovedRAGAgent Z :=
  RAG.mkAgent 512 64 [] use_embeddings use_embeddings None None.

(** A document of [n] words. *)
Definition doc_of_words (n : nat) : string := Text.join " " (repeat "w" n).

Definition chunk_of (content : string) : DocumentChunk.t :=
  DocumentChunk.mk content "http://example.org" 0 ∅.

(** A scraped page of [n] words. *)
Definition page (n : nat) : ScrapedContent.t :=
  ScrapedContent.mk "http://example.org" "A page" (doc_of_words n)
    (Text.len (doc_of_words n)) 0%Q true None ∅.

(** A keyword-only agent whose advance step is zero. *)
Definition stuck_agent : RAG.ImprovedRAGAgent Z :=
  RAG.mkAgent 500 500 [] false false None None.

(** A server that answers every request with HTTP 503, and a network on which
    every request times out. *)
Definition always_503 (url : string) (attempt : nat) : Scraper.Fetched :=
  Scraper.Response 503 (Ok "Service Unavailable").
Definition always_timeout (url : string) (attempt : nat) : Scraper.Fetched :=
  Scraper.Failed (Exception "Timeout").

(** A server that answers with a small page, and extractors for it. *)
Definition serves_page (url : string) (attempt : nat) : Scraper.Fetched :=
  Scraper.Response 200 (Ok "<html><title> T </title><body>Hello,  <b>World</b>!</body></html>").
Definition no_extract (html : string) : PyResult (option string) := Ok None.
Definition demo_title (html : string) : option (option string) := Some (Some " T ").
Definition demo_main (html : string) : option string := Some "Hello,  World! ".

(** A page about one subject, long enough to be indexed, and a page that
    shares no word with it. *)
Definition ai_page : ScrapedContent.t :=
  let content :=
    Text.join " " (repeat "Artificial General  Intelligence is" 4) in
  ScrapedContent.mk "http://example.org/agi" "AGI" content (Text.len content)
    0%Q true None ∅.
Definition other_page : ScrapedContent.t :=
  ScrapedContent.mk "http://example.org/w" "W" (doc_of_words 60)
    (Text.len (doc_of_words 60)) 0%Q true None ∅.

(** Two backends and their responses: one answers a, b; the other answers
    b, c; a third one raises. *)
Definition hit (url : string) : SearchResult.t :=
  SearchResult.mk "title" url "snippet" "backend" ∅.
Definition answer (urls : list string) : SearchResponse.t :=
  SearchResponse.mk true (map hit urls) "backend" (PyList.len urls) 0%Q None.
Definition backend (urls : list string) : Search.SearchAgent :=
  Search.mkSearchAgent "DuckDuckGoSearchAgent" (fun query n => Ok (answer urls)).
Definition broken_backend : Search.SearchAgent :=
  Search.mkSearchAgent "WikipediaSearchAgent"
    (fun query n => Raise (Exception "Cannot connect to host")).
Definition demo_multi : Search.MultiSearchAgent :=
  Search.mkMulti [backend ["a"; "b"]; broken_backend; backend ["b"; "c"]] 3.

(** The scraper with its default settings. *)
Definition demo_scraper : Scraper.WebScraperAgent := Scraper.__init__ 3 30 1%Q.

(** A result page with four anchors, two of them unusable, and two
    snippets. *)
Definition page_links (html : string) : PyResult (list (string * string)) :=
  Ok [("Rocq", "https://rocq-prover.org"); ("", "https://example.org/untitled");
      ("Relative", "/l/?uddg=x"); ("Stdpp", "https://example.org/stdpp")].
Definition page_snippets (html : string) : PyResult (list string) :=
  Ok ["A proof assistant"; "No title"].
Definition serves_results (url : string) : Scraper.Fetched :=
  Scraper.Response 200 (Ok "<html>results</html>").

(** A server that answers with a page of 60 words, and its extractors; the
    scheme of the sample URLs. *)
Definition serves_long_page (url : string) (attempt : nat) : Scraper.Fetched :=
  Scraper.Response 200 (Ok "<html><body>sixty words</body></html>").
Definition long_main (html : string) : option string := Some (doc_of_words 60).
Definition demo_scheme (url : string) : PyResult string :=
  if String.prefix "https:" url then Ok "https"
  else if String.prefix "http:" url then Ok "http" else Ok "".
Definition web_backend : Search.SearchAgent :=
  Search.mkSearchAgent "DuckDuckGoSearchAgent"
    (fun query n => Ok (answer ["http://example.org/a"; "ftp://example.org/b"])).

(** A system over one backend whose chunker has a zero advance step, and one
    with the default configuration. *)
Definition stuck_system : System.RobustWebSearchRAGSystem Z :=
  System.mkSystem (System.mkScraperConfig None None None)
    (System.mkRagConfig (Some 500) (Some 500)) [web_backend]
    (Search.mkMulti [web_backend] 3) stuck_agent.
Definition demo_system (use_embeddings : bool) : System.RobustWebSearchRAGSystem Z :=
  System.mkSystem (System.mkScraperConfig None None None)
    (System.mkRagConfig None None) [web_backend]
    (Search.mkMulti [web_backend] 3) (demo_agent use_embeddings).


(** A system with embeddings whose chunks hold 50 words and advance by 40. *)
Definition small_system : System.RobustWebSearchRAGSystem Z :=
  System.mkSystem (System.mkScraperConfig None None None)
    (System.mkRagConfig (Some 50) (Some 10)) [web_backend]
    (Search.mkMulti [web_backend] 3)
    (RAG.mkAgent 50 10 [] true true None None).

(** A system that has indexed one chunk with its embedding, and a system
    whose aggregator admits no task. *)
Definition indexed_system : System.RobustWebSearchRAGSystem Z :=
  System.mkSystem (System.mkScraperConfig None None None)
    (System.mkRagConfig None None) [web_backend]
    (Search.mkMulti [web_backend] 3)
    (RAG.mkAgent 512 64 [chunk_of "artificial general intelligence"] true true
       (Some [31]) (Some [31])).
Definition idle_system : System.RobustWebSearchRAGSystem Z :=
  System.mkSystem (System.mkScraperConfig None None None)
    (System.mkRagConfig None None) [web_backend]
    (Search.mkMulti [web_backend] 0) (demo_agent false).

End Sample.
Import Sample.

(** * Properties *)

(** ** The primitives on small inputs *)

Example split_demo :
  Text.split "  Artificial	general  intelligence is " =
  ["Artificial"; "general"; "intelligence"; "is"].
Proof. reflexivity. Qed.

Example sub_spaces_demo : Text.sub_spaces " a 	 b  " = " a b ".
Proof. reflexivity. Qed.

Example strip_demo : Text.strip "  a b  " = "a b".
Proof. reflexivity. Qed.

Example range_demo : PyList.range 0 1200 400 = Ok [0; 400; 800].
Proof. reflexivity. Qed.

Example range_neg_demo : PyList.range 0 5 (-2) = Ok [].
Proof. reflexivity. Qed.

Example slice_demo : PyList.slice [1; 2; 3; 4; 5] 3 10 = [4; 5].
Proof. reflexivity. Qed.

Example slice_neg_demo : PyList.prefix [1; 2; 3] (-1) = [1; 2].
Proof. reflexivity. Qed.

Example sort_demo :
  PyList.sort_desc (fun a b => snd b <? snd a) [("a", 1); ("b", 3); ("c", 1); ("d", 3)]
  = [("b", 3); ("d", 3); ("a", 1); ("c", 1)].
Proof. reflexivity. Qed.

Example truediv_demo : PyList.truediv 2 4 = Ok (1 # 2)%Q.
Proof. reflexivity. Qed.

(** ** Querying an empty index *)

Section EmptyIndex.

Variable Vec : Type.
Variable encode : list string -> PyResult (list Vec).
Variable normalize_L2 : Vec -> Vec.
Variable index_search : list Vec -> list Vec -> Z -> PyResult (list (Q * Z)).

(** C3. For every query string and every [top_k], [query] on an agent with no
    indexed chunk returns (it does not raise) the [RAGResult] with no relevant
    chunk, the fixed text "No indexed documents available.", confidence 0 and
    both times 0; the agent is left as it was. *)
Theorem query_empty_index :
  forall (self : RAG.ImprovedRAGAgent Vec) (text : string) (top_k : Z)
         (retrieval_time generation_time : Q),
    RAG.document_chunks self = [] ->
    RAG.query encode normalize_L2 index_search
      self text top_k retrieval_time generation_time
    = Ok (self,
          RAGResult.mk text [] "No indexed documents available." 0%Q [] 0%Q 0%Q).
Proof.
  intros self text top_k rt gt Hempty.
  unfold RAG.query. now rewrite Hempty.
Qed.

End EmptyIndex.

Lemma query_empty_index_witness :
  RAG.document_chunks (demo_agent true) = []
  /\ RAG.query demo_encode id demo_search (demo_agent true)
       "what is rocq" 5 (1 # 4)%Q (1 # 8)%Q
     = Ok (demo_agent true,
           RAGResult.mk "what is rocq" [] "No indexed documents available."
             0%Q [] 0%Q 0%Q).
Proof.
  split; [reflexivity |].
  apply (query_empty_index Z demo_encode id demo_search); reflexivity.
Defined.

(** ** Keyword similarity *)

Lemma truediv_nonzero (a b : Z) :
  b <> 0 -> PyList.truediv a b = Ok (Qred (inject_Z a / inject_Z b)).
Proof.
  intros Hb. unfold PyList.truediv.
  destruct (Z.eqb_spec b 0) as [E | _]; [contradiction | reflexivity].
Qed.

Lemma keyword_similarity_value (query : string) (chunk : DocumentChunk.t) :
  RAG._calculate_keyword_similarity query chunk
  = Ok (jaccard (RAG.word_set (Text.split (RAG._preprocess_text query)))
                (RAG.word_set (Text.split (DocumentChunk.content chunk)))).
Proof.
  unfold RAG._calculate_keyword_similarity, jaccard.
  set (qw := RAG.word_set (Text.split (RAG._preprocess_text query))).
  set (cw := RAG.word_set (Text.split (DocumentChunk.content chunk))).
  destruct (decide (qw = ∅)) as [E | NE]; [reflexivity |].
  assert (Hpos : size (qw ∪ cw) <> 0%nat).
  { intros H0. apply size_empty_iff in H0. apply NE.
    apply leibniz_equiv. set_solver. }
  destruct (Z.ltb_spec 0 (Z.of_nat (size (qw ∪ cw)))) as [_ | Hle]; [| lia].
  apply truediv_nonzero. lia.
Qed.

(** C10. The keyword similarity is total: for every query and chunk it
    returns a number and raises nothing, in particular no division by zero.
    When the preprocessed query has no word it returns 0.0, and when the union
    of the two word sets is empty it returns 0.0. *)
Theorem keyword_similarity_total :
  forall (query : string) (chunk : DocumentChunk.t),
    (exists score, RAG._calculate_keyword_similarity query chunk = Ok score)
    /\ (Text.split (RAG._preprocess_text query) = [] ->
        RAG._calculate_keyword_similarity query chunk = Ok 0%Q)
    /\ (size (RAG.word_set (Text.split (RAG._preprocess_text query))
              ∪ RAG.word_set (Text.split (DocumentChunk.content chunk))) = 0%nat ->
        RAG._calculate_keyword_similarity query chunk = Ok 0%Q).
Proof.
  intros query chunk. rewrite keyword_similarity_value.
  split; [eexists; reflexivity |].
  unfold jaccard. split.
  - intros Hnone. rewrite Hnone. reflexivity.
  - intros Hunion. apply size_empty_iff in Hunion.
    destruct (decide _) as [_ | NE]; [reflexivity |].
    exfalso. apply NE. apply leibniz_equiv. set_solver.
Qed.

Lemma keyword_similarity_total_witness :
  Text.split (RAG._preprocess_text "   ") = []
  /\ size (RAG.word_set (Text.split (RAG._preprocess_text "   "))
           ∪ RAG.word_set (Text.split (DocumentChunk.content (chunk_of "")))) = 0%nat
  /\ RAG._calculate_keyword_similarity "   " (chunk_of "") = Ok 0%Q
  /\ RAG._calculate_keyword_similarity "   " (chunk_of "some words") = Ok 0%Q.
Proof.
  split; [reflexivity |]. split; [reflexivity |]. split.
  - apply (proj2 (proj2 (keyword_similarity_total "   " (chunk_of "")))).
    reflexivity.
  - apply (proj1 (proj2 (keyword_similarity_total "   " (chunk_of "some words")))).
    reflexivity.
Defined.

(** ** Chunking *)

Lemma len_nonneg {A} (l : list A) : 0 <= PyList.len l.
Proof. unfold PyList.len. lia. Qed.

Lemma range_zero_step (start stop : Z) :
  PyList.range start stop 0 = Raise (ValueError "range() arg 3 must not be zero").
Proof. reflexivity. Qed.

Lemma range_negative_step (stop step : Z) :
  0 <= stop -> step < 0 -> PyList.range 0 stop step = Ok [].
Proof.
  intros Hstop Hstep. unfold PyList.range, PyList.range_count.
  destruct (Z.eqb_spec step 0) as [E | _]; [lia |].
  destruct (Z.ltb_spec 0 step) as [H | _]; [lia |].
  destruct (Z.ltb_spec stop 0) as [H | _]; [lia |].
  reflexivity.
Qed.

(** The length of a slice with bounds inside the list. *)
Lemma slice_length {A} (l : list A) (a b : Z) :
  0 <= a <= b -> b <= PyList.len l ->
  PyList.len (PyList.slice l a b) = b - a.
Proof.
  intros Hab Hb. unfold PyList.slice, PyList.clamp.
  destruct (Z.ltb_spec a 0) as [H | _]; [lia |].
  destruct (Z.ltb_spec b 0) as [H | _]; [lia |].
  unfold PyList.len in *.
  rewrite length_firstn, length_skipn. lia.
Qed.

(** A slice that runs past the end stops at the end. *)
Lemma slice_to_end {A} (l : list A) (a b : Z) :
  0 <= a <= PyList.len l -> PyList.len l <= b ->
  PyList.slice l a b = skipn (Z.to_nat a) l
  /\ PyList.len (PyList.slice l a b) = PyList.len l - a.
Proof.
  intros Ha Hb. unfold PyList.slice, PyList.clamp.
  destruct (Z.ltb_spec a 0) as [H | _]; [lia |].
  destruct (Z.ltb_spec b 0) as [H | _]; [pose proof (len_nonneg l); lia |].
  unfold PyList.len in *.
  replace (Z.min a (Z.of_nat (length l))) with a by lia.
  replace (Z.min b (Z.of_nat (length l))) with (Z.of_nat (length l)) by lia.
  assert (E : firstn (Z.to_nat (Z.of_nat (length l) - a)) (skipn (Z.to_nat a) l)
              = skipn (Z.to_nat a) l).
  { apply firstn_all2. rewrite length_skipn. lia. }
  rewrite E. split; [reflexivity |]. rewrite length_skipn. lia.
Qed.

(** C4, as the code has it. A document of exactly 1200 words, chunked with
    [chunk_size = 500] and [chunk_overlap = 100] (step 400), gives exactly 3
    chunks, numbered 0, 1, 2, built from the words 0-499, 400-899 and
    800-1199; their word counts are 500, 500 and 400. *)
Theorem chunk_text_1200_words :
  forall (text source_url : string),
    PyList.len (Text.split text) = 1200 ->
    let words := Text.split text in
    RAG._chunk_text 500 100 text source_url
    = Ok [chunk_at words 500 source_url 0 0;
          chunk_at words 500 source_url 1 400;
          chunk_at words 500 source_url 2 800]
    /\ PyList.slice words 800 1300 = skipn 800 words
    /\ map word_count [chunk_at words 500 source_url 0 0;
                       chunk_at words 500 source_url 1 400;
                       chunk_at words 500 source_url 2 800]
       = [Some (VInt 500); Some (VInt 500); Some (VInt 400)].
Proof.
  intros text source_url Hlen words. fold words in Hlen.
  assert (H0 : PyList.len (PyList.slice words 0 500) = 500)
    by (rewrite slice_length; lia).
  assert (H1 : PyList.len (PyList.slice words 400 900) = 500)
    by (rewrite slice_length; lia).
  destruct (slice_to_end words 800 1300) as [H2 H3]; [lia | lia |].
  split; [| split].
  - unfold RAG._chunk_text. fold words. rewrite Hlen. reflexivity.
  - exact H2.
  - unfold word_count, chunk_at. cbn [map DocumentChunk.metadata].
    change (400 + 500) with 900. change (0 + 500) with 500.
    change (800 + 500) with 1300.
    rewrite H0, H1, H3, Hlen.
    rewrite !lookup_singleton_eq. reflexivity.
Qed.

Lemma chunk_text_1200_words_witness :
  PyList.len (Text.split (doc_of_words 1200)) = 1200
  /\ (exists c0 c1 c2,
        RAG._chunk_text 500 100 (doc_of_words 1200) "http://example.org"
        = Ok [c0; c1; c2]
        /\ map word_count [c0; c1; c2]
           = [Some (VInt 500); Some (VInt 500); Some (VInt 400)]).
Proof.
  assert (H : PyList.len (Text.split (doc_of_words 1200)) = 1200)
    by (vm_compute; reflexivity).
  split; [exact H |].
  pose proof (chunk_text_1200_words (doc_of_words 1200) "http://example.org" H)
    as (Hchunks & _ & Hcounts).
  eexists _, _, _. split; [exact Hchunks | exact Hcounts].
Defined.

(** C4, as the specification words it, fails: the third chunk of a 1200-word document
    holds the 400 words 800-1199, not 300. *)
Lemma chunk_text_1200_words_not_300 :
  ~ (forall text source_url : string,
       PyList.len (Text.split text) = 1200 ->
       exists c0 c1 c2,
         RAG._chunk_text 500 100 text source_url = Ok [c0; c1; c2]
         /\ map word_count [c0; c1; c2]
            = [Some (VInt 500); Some (VInt 500); Some (VInt 300)]).
Proof.
  intros Hspec.
  destruct (Hspec (doc_of_words 1200) "http://example.org")
    as (c0 & c1 & c2 & Hchunks & Hcounts); [vm_compute; reflexivity |].
  vm_compute in Hchunks. injection Hchunks as <- <- <-.
  vm_compute in Hcounts. discriminate Hcounts.
Qed.

(** ** Configuration of the chunker *)

Lemma chunk_text_zero_step (chunk_size chunk_overlap : Z) (text source_url : string) :
  chunk_size - chunk_overlap = 0 ->
  RAG._chunk_text chunk_size chunk_overlap text source_url
  = Raise (ValueError "range() arg 3 must not be zero").
Proof.
  intros Hstep. unfold RAG._chunk_text. rewrite Hstep. reflexivity.
Qed.

Lemma chunk_text_negative_step (chunk_size chunk_overlap : Z) (text source_url : string) :
  chunk_size - chunk_overlap < 0 ->
  RAG._chunk_text chunk_size chunk_overlap text source_url = Ok [].
Proof.
  intros Hstep. unfold RAG._chunk_text.
  rewrite range_negative_step; [reflexivity | apply len_nonneg | exact Hstep].
Qed.

Lemma index_loop_zero_step {Vec} (self : RAG.ImprovedRAGAgent Vec)
    (documents : list ScrapedContent.t) (new_chunks : list DocumentChunk.t) :
  RAG.chunk_size self - RAG.chunk_overlap self = 0 ->
  existsb RAG.worth_indexing documents = true ->
  RAG.index_loop self documents new_chunks
  = Raise (ValueError "range() arg 3 must not be zero").
Proof.
  intros Hstep. revert new_chunks.
  induction documents as [| doc rest IH]; intros new_chunks Hsome; [discriminate |].
  cbn [RAG.index_loop existsb] in *.
  destruct (RAG.worth_indexing doc).
  - rewrite chunk_text_zero_step by exact Hstep. reflexivity.
  - apply IH. exact Hsome.
Qed.

Section Configuration.

Variable EMBEDDINGS_AVAILABLE : bool.
Variable Vec : Type.
Variable encode : list string -> PyResult (list Vec).
Variable normalize_L2 : Vec -> Vec.
Variable step_error : RAG.Step -> list Vec -> option PyExn.


End Configuration.



(** ** Alignment of chunks and embeddings *)

Section Alignment.

Variable EMBEDDINGS_AVAILABLE : bool.
Variable Vec : Type.
Variable encode : list string -> PyResult (list Vec).
Variable normalize_L2 : Vec -> Vec.
Variable step_error : RAG.Step -> list Vec -> option PyExn.

(** A call whose chunking raises leaves the agent as it was. *)
Lemma index_documents_chunking_raises (self : RAG.ImprovedRAGAgent Vec) documents e :
  RAG.index_loop self documents [] = Raise e ->
  RAG.index_documents encode normalize_L2 step_error self documents
  = (self, Raise e).
Proof. intros Hloop. unfold RAG.index_documents. now rewrite Hloop. Qed.

(** A call whose encoding raises has already extended the chunks: it leaves
    them extended, and the matrix and the index as they were. *)
Lemma index_documents_encode_raises (self : RAG.ImprovedRAGAgent Vec) documents
    new_chunks e :
  RAG.use_embeddings self = true ->
  RAG.model self = true ->
  RAG.index_loop self documents [] = Ok new_chunks ->
  new_chunks <> [] ->
  encode (map DocumentChunk.content new_chunks) = Raise e ->
  RAG.index_documents encode normalize_L2 step_error self documents
  = (RAG.mkAgent (RAG.chunk_size self) (RAG.chunk_overlap self)
       (RAG.document_chunks self ++ new_chunks) true true
       (RAG.index self) (RAG.embeddings self),
     Raise e).
Proof.
  intros Huse Hmodel Hloop Hsome Hencode. unfold RAG.index_documents.
  rewrite Hloop, Huse, Hmodel, Hencode. cbn [andb Py.bind].
  destruct new_chunks; [congruence | reflexivity].
Qed.

(** The encoder gives one row per text when it returns. *)
Hypothesis encode_rows :
  forall texts rows, encode texts = Ok rows -> length rows = length texts.

(** A call that returns keeps the counts equal. *)
Lemma index_documents_aligned (self self' : RAG.ImprovedRAGAgent Vec) documents :
  aligned self ->
  RAG.index_documents encode normalize_L2 step_error self documents = (self', Ok tt) ->
  aligned self'.
Proof.
  intros (Huse & Hmodel & Hemb & Hidx). unfold RAG.index_documents.
  destruct (RAG.index_loop self documents []) as [new_chunks | e];
    [| discriminate].
  rewrite Huse, Hmodel. cbn [andb].
  destruct (Z.eqb_spec (PyList.len new_chunks) 0) as [Hnone | Hsome]; cbn [negb].
  - intros [= <-]. unfold aligned.
    cbn [RAG.use_embeddings RAG.model RAG.embeddings RAG.index
         RAG.document_chunks rows_of].
    assert (new_chunks = []) as ->
      by (destruct new_chunks; [reflexivity | discriminate]).
    rewrite app_nil_r. auto.
  - destruct (encode (map DocumentChunk.content new_chunks))
      as [new_embeddings | e] eqn:Hencode; cbn [Py.bind]; [| discriminate].
    apply encode_rows in Hencode. rewrite length_map in Hencode.
    destruct (RAG.vstack step_error (RAG.embeddings self) new_embeddings)
      as [embeddings' | e] eqn:Hstack; [| discriminate].
    assert (Hrows : length embeddings'
                    = length (RAG.document_chunks self ++ new_chunks)).
    { rewrite length_app, <- Hemb, <- Hencode. unfold RAG.vstack in Hstack.
      destruct (RAG.embeddings self) as [rows |]; cbn [rows_of].
      - destruct (step_error RAG.Vstack (rows ++ new_embeddings));
          [discriminate |].
        injection Hstack as <-. now rewrite length_app.
      - now injection Hstack as <-. }
    destruct (step_error RAG.IndexFlatIP embeddings'); [discriminate |].
    destruct (step_error RAG.IndexAdd embeddings'); [discriminate |].
    intros [= <-]. unfold aligned.
    cbn [RAG.use_embeddings RAG.model RAG.embeddings RAG.index
         RAG.document_chunks rows_of].
    rewrite length_map. auto.
Qed.

(** Neither the model nor numpy nor faiss raises. *)
Hypothesis encode_returns : forall texts, exists rows, encode texts = Ok rows.
Hypothesis no_step_error : forall step rows, step_error step rows = None.

(** The path on which the counts stay equal: every call returns, or raises
    in the chunking, before anything is stored. *)
Lemma index_all_aligned (batches : list (list ScrapedContent.t)) :
  forall self, aligned self ->
    aligned (RAG.index_all encode normalize_L2 step_error self batches).
Proof.
  induction batches as [| documents rest IH]; intros self Hself; [exact Hself |].
  cbn [RAG.index_all]. apply IH.
  destruct (RAG.index_documents encode normalize_L2 step_error self documents)
    as [self' [[] | e]] eqn:Hcall; cbn [fst].
  - eapply index_documents_aligned; eassumption.
  - assert (self' = self) as ->; [| exact Hself].
    unfold RAG.index_documents in Hcall.
    destruct (RAG.index_loop self documents []) as [new_chunks | e'];
      [| now injection Hcall as <-].
    destruct (RAG.use_embeddings self && RAG.model self
              && negb (PyList.len new_chunks =? 0)); [| discriminate].
    destruct (encode_returns (map DocumentChunk.content new_chunks))
      as [new_embeddings Hencode].
    rewrite Hencode in Hcall. cbn [Py.bind] in Hcall. unfold RAG.vstack in Hcall.
    destruct (RAG.embeddings self); rewrite !no_step_error in Hcall;
      discriminate.
Qed.

End Alignment.

(** C1, on the code. An embedding agent, freshly constructed, indexes three
    batches with a model that runs out of memory on the second one. The
    second call raises after [self.document_chunks] is extended and before
    [self.embeddings] is: the caller keeps the agent, and after the third
    call the agent stores four chunks and two rows, in the matrix and in the
    index alike. The row at position 1 is the embedding of the chunk at
    position 3. *)
Theorem index_alignment_lost_on_encode_error :
  RAG.__init__ true Z 512 64 true = Ok (demo_agent true)
  /\ (let first :=
        fst (RAG.index_documents small_encode id no_refusal (demo_agent true)
               [page 60]) in
      let second := RAG.index_documents small_encode id no_refusal first [page 700] in
      snd second = Raise (Exception "CUDA out of memory")
      /\ length (RAG.document_chunks first) = 1%nat
      /\ rows_of (RAG.embeddings first) = 1%nat
      /\ length (RAG.document_chunks (fst second)) = 3%nat
      /\ rows_of (RAG.embeddings (fst second)) = 1%nat)
  /\ (let self := RAG.index_all small_encode id no_refusal (demo_agent true)
                    [[page 60]; [page 700]; [page 150]] in
      RAG.use_embeddings self = true
      /\ length (RAG.document_chunks self) = 4%nat
      /\ rows_of (RAG.embeddings self) = 2%nat
      /\ rows_of (RAG.index self) = 2%nat
      /\ (exists chunk,
            RAG.document_chunks self !! 3%nat = Some chunk
            /\ option_map (fun rows => rows !! 1%nat) (RAG.embeddings self)
               = Some (Some (Text.len (DocumentChunk.content chunk))))).
Proof.
  split; [reflexivity |]. split.
  - vm_compute. repeat split; reflexivity.
  - cbv zeta. split; [vm_compute; reflexivity |].
    split; [vm_compute; reflexivity |]. split; [vm_compute; reflexivity |].
    split; [vm_compute; reflexivity |].
    eexists. split; vm_compute; reflexivity.
Qed.

(** The sibling path: with a model that answers every batch, the same three
    calls return and leave four chunks and four rows. *)
Example index_alignment_kept :
  let self := RAG.index_all demo_encode id no_refusal (demo_agent true)
                [[page 60]; [page 700]; [page 150]] in
  length (RAG.document_chunks self) = 4%nat
  /\ rows_of (RAG.embeddings self) = 4%nat
  /\ rows_of (RAG.index self) = 4%nat.
Proof. vm_compute. repeat split; reflexivity. Qed.

(** The caller: [query_with_rag] catches the exception of the encoding and
    returns an error dictionary, and the system keeps its agent. *)
Example query_with_rag_encode_error :
  System.query_with_rag small_encode id demo_search no_refusal true true
    serves_long_page no_extract demo_title long_main 0%Q demo_scheme 5
    (Exception "flexible type") small_system "agi" true 8 0%Q 0%Q 0%Q 0%Q
    (fun _ => 0%Q) (fun _ => (0%Q, 0%Q))
  = Async.Done (System.Error "System error: CUDA out of memory").
Proof. vm_compute. reflexivity. Qed.

(** ** The scraper *)

Section ScraperFacts.

Variable SCRAPING_AVAILABLE : bool.
Variable bs4_imported : bool.
Variable session_get : string -> nat -> Scraper.Fetched.
Variable trafilatura_extract : string -> PyResult (option string).
Variable soup_title : string -> option (option string).
Variable main_content_text : string -> option string.
Variable datetime_now : Q.

Local Abbreviation try_attempt :=
  (Scraper.try_attempt SCRAPING_AVAILABLE bs4_imported session_get trafilatura_extract
     soup_title main_content_text datetime_now).
Local Abbreviation attempt_loop :=
  (Scraper.attempt_loop SCRAPING_AVAILABLE bs4_imported session_get trafilatura_extract
     soup_title main_content_text datetime_now).
Local Abbreviation scrape_url :=
  (Scraper.scrape_url SCRAPING_AVAILABLE bs4_imported session_get trafilatura_extract
     soup_title main_content_text datetime_now).

Lemma extract_with_soup_well_formed (url html : string) record :
  Scraper.extract_with_soup SCRAPING_AVAILABLE bs4_imported soup_title main_content_text
    datetime_now url html = Scraper.Returned record ->
  well_formed record.
Proof.
  unfold Scraper.extract_with_soup.
  destruct (SCRAPING_AVAILABLE || bs4_imported); [| discriminate].
  destruct (Scraper.title_of soup_title html) as [title | e]; [| discriminate].
  intros [= <-]. unfold well_formed.
  cbn [ScrapedContent.text_length ScrapedContent.content ScrapedContent.success].
  split; [reflexivity |]. split; [eauto | discriminate].
Qed.

Lemma try_attempt_well_formed (url : string) (attempt : nat) record :
  try_attempt url attempt = Scraper.Returned record -> well_formed record.
Proof.
  unfold Scraper.try_attempt.
  destruct (session_get url attempt) as [status text | e]; [| discriminate].
  destruct (status =? 200); [| discriminate].
  destruct text as [html | e]; [| discriminate].
  destruct SCRAPING_AVAILABLE eqn:Havail.
  - destruct (trafilatura_extract html) as [[[| c content'] |] | e];
      try discriminate;
      try (intros H; eapply extract_with_soup_well_formed;
           rewrite Havail; exact H).
    destruct (Scraper.title_of soup_title html) as [title | e]; [| discriminate].
    intros [= <-]. unfold well_formed.
    cbn [ScrapedContent.text_length ScrapedContent.content ScrapedContent.success].
    split; [reflexivity |]. split; [eauto | discriminate].
  - intros H. eapply extract_with_soup_well_formed. rewrite Havail. exact H.
Qed.

Lemma attempt_loop_well_formed (self : Scraper.WebScraperAgent) (url : string)
    (attempts : list Z) :
  forall error_msg trace,
    well_formed (fst (attempt_loop self url attempts error_msg trace)).
Proof.
  induction attempts as [| attempt rest IH]; intros error_msg trace.
  - unfold well_formed. cbn. split; [reflexivity |].
    split; [discriminate | auto].
  - cbn [Scraper.attempt_loop].
    destruct (try_attempt url (Z.to_nat attempt)) as [record | status | e] eqn:Htry.
    + cbn [fst]. eapply try_attempt_well_formed. exact Htry.
    + apply IH.
    + apply IH.
Qed.

(** C9. Every record that [scrape_url] produces has [text_length] equal to the
    length of its [content]: a successful one holds a cleaned text and its
    length, a failed one holds the empty text and 0. *)
Theorem scrape_url_text_length :
  forall (self : Scraper.WebScraperAgent) (url : string) (now now' : Q),
    let record := fst (fst (scrape_url self url now now')) in
    ScrapedContent.text_length record = Text.len (ScrapedContent.content record)
    /\ (ScrapedContent.success record = true ->
        exists text, ScrapedContent.content record = Scraper._clean_text text)
    /\ (ScrapedContent.success record = false ->
        ScrapedContent.content record = ""
        /\ ScrapedContent.text_length record = 0).
Proof.
  intros self url now now' record. subst record.
  unfold Scraper.scrape_url. cbn [fst].
  apply attempt_loop_well_formed.
Qed.

(** A URL that answers every attempt with the same status other than 200:
    the loop makes one request per attempt, one after the other, and the
    failure record carries the status. *)
Lemma attempt_loop_http_error (self : Scraper.WebScraperAgent) (url : string)
    (status : Z) (text : PyResult string) (attempts : list Z) :
  (forall n, session_get url n = Scraper.Response status text) ->
  status <> 200 ->
  forall error_msg trace,
    attempt_loop self url attempts error_msg trace
    = (ScrapedContent.mk url "" "" 0 datetime_now false
         (Some (match attempts with
                | [] => error_msg
                | _ => "HTTP " ++ pretty status
                end)) ∅,
       (trace ++ repeat (Scraper.Get url) (length attempts))%list).
Proof.
  intros Hget Hstatus.
  assert (Htry : forall n, try_attempt url n = Scraper.HttpError status).
  { intros n. unfold Scraper.try_attempt. rewrite Hget.
    destruct (Z.eqb_spec status 200); [contradiction | reflexivity]. }
  induction attempts as [| attempt rest IH]; intros error_msg trace.
  - cbn. now rewrite app_nil_r.
  - cbn [Scraper.attempt_loop]. rewrite Htry, IH.
    cbn [length repeat]. rewrite <- app_assoc. cbn [app].
    destruct rest; reflexivity.
Qed.

(** The events of a loop in which every attempt raises: a request per attempt
    and, after each but the last of [max_retries], a sleep of [2 ** attempt]
    seconds. *)
Lemma attempt_loop_exceptions (self : Scraper.WebScraperAgent) (url : string)
    (e : PyExn) (attempts : list Z) :
  (forall n, session_get url n = Scraper.Failed e) ->
  forall error_msg trace,
    snd (attempt_loop self url attempts error_msg trace)
    = (trace ++ flat_map
         (fun attempt =>
            Scraper.Get url
              :: (if attempt <? Scraper.max_retries self - 1
                  then [Scraper.Sleep (inject_Z (2 ^ attempt))] else []))
         attempts)%list.
Proof.
  intros Hget.
  assert (Htry : forall n, try_attempt url n = Scraper.Raised e).
  { intros n. unfold Scraper.try_attempt. now rewrite Hget. }
  induction attempts as [| attempt rest IH]; intros error_msg trace.
  - cbn. now rewrite app_nil_r.
  - cbn [Scraper.attempt_loop flat_map]. rewrite Htry, IH.
    rewrite <- !app_assoc. reflexivity.
Qed.

End ScraperFacts.

Lemma scrape_url_text_length_witness :
  let failed :=
    fst (fst (Scraper.scrape_url true true always_503 no_extract demo_title demo_main
                0%Q demo_scraper "http://example.org" 5%Q 5%Q)) in
  let scraped :=
    fst (fst (Scraper.scrape_url true true serves_page no_extract demo_title demo_main
                0%Q demo_scraper "http://example.org" 5%Q 5%Q)) in
  (ScrapedContent.success failed = false
   /\ ScrapedContent.content failed = ""
   /\ ScrapedContent.text_length failed = 0)
  /\ (ScrapedContent.success scraped = true
      /\ ScrapedContent.content scraped = "Hello, World!"
      /\ ScrapedContent.text_length scraped = 13
      /\ exists text, ScrapedContent.content scraped = Scraper._clean_text text).
Proof.
  intros failed scraped.
  pose proof (scrape_url_text_length true true always_503 no_extract demo_title
                demo_main 0%Q demo_scraper "http://example.org" 5%Q 5%Q)
    as (_ & _ & Hfailed).
  pose proof (scrape_url_text_length true true serves_page no_extract demo_title
                demo_main 0%Q demo_scraper "http://example.org" 5%Q 5%Q)
    as (_ & Hscraped & _).
  split.
  - split; [reflexivity |]. apply Hfailed. reflexivity.
  - split; [reflexivity |]. split; [reflexivity |]. split; [reflexivity |].
    apply Hscraped. reflexivity.
Defined.

(** C5, on the code. A URL that answers HTTP 503 to every attempt, scraped
    with the default [max_retries = 3]: the three attempts are made and the
    failure record is returned ([success = false], the last error "HTTP 503",
    empty content, [text_length = 0]), but no sleep separates the attempts:
    the trace holds the three requests and nothing else. *)
Theorem scrape_url_http_503_no_backoff :
  Scraper.scrape_url true true always_503 no_extract demo_title demo_main 7%Q
    demo_scraper "http://example.org/busy" 5%Q 6%Q
  = (ScrapedContent.mk "http://example.org/busy" "" "" 0 7%Q false
       (Some "HTTP 503") ∅,
     [Scraper.Get "http://example.org/busy";
      Scraper.Get "http://example.org/busy";
      Scraper.Get "http://example.org/busy"],
     Scraper.mkScraper 3 30 1%Q 6%Q).
Proof. vm_compute. reflexivity. Qed.

(** The imports. With [bs4] imported and [trafilatura] missing the fallback
    extracts the page; with [bs4] missing every attempt ends in the
    [NameError] of the fallback. *)
Example scrape_url_bs4_only :
  fst (fst (Scraper.scrape_url false true serves_page no_extract demo_title
              demo_main 7%Q demo_scraper "http://example.org" 5%Q 6%Q))
  = ScrapedContent.mk "http://example.org" "T" "Hello, World!" 13 7%Q true None
      {[ "method" := VStr "beautifulsoup" ]}.
Proof. vm_compute. reflexivity. Qed.

Example scrape_url_without_bs4 :
  fst (fst (Scraper.scrape_url false false serves_page no_extract demo_title
              demo_main 7%Q demo_scraper "http://example.org" 5%Q 6%Q))
  = ScrapedContent.mk "http://example.org" "" "" 0 7%Q false
      (Some "name 'BeautifulSoup' is not defined") ∅.
Proof. vm_compute. reflexivity. Qed.

(** The sibling path: when every attempt raises, the same call sleeps
    [2 ** 0] and [2 ** 1] seconds between the three attempts. *)
Example scrape_url_timeout_backoff :
  Scraper.scrape_url true true always_timeout no_extract demo_title demo_main 7%Q
    demo_scraper "http://example.org/slow" 5%Q 6%Q
  = (ScrapedContent.mk "http://example.org/slow" "" "" 0 7%Q false
       (Some "Timeout") ∅,
     [Scraper.Get "http://example.org/slow"; Scraper.Sleep 1%Q;
      Scraper.Get "http://example.org/slow"; Scraper.Sleep 2%Q;
      Scraper.Get "http://example.org/slow"],
     Scraper.mkScraper 3 30 1%Q 6%Q).
Proof. vm_compute. reflexivity. Qed.

(** ** Sorting *)

Section SortFacts.

Context {A : Type} (gt : A -> A -> bool).

Lemma insert_desc_perm (x : A) (l : list A) : PyList.insert_desc gt x l ≡ₚ x :: l.
Proof.
  induction l as [| y l IH]; cbn [PyList.insert_desc]; [reflexivity |].
  destruct (gt y x); [| reflexivity].
  rewrite IH. apply Permutation_swap.
Qed.

Lemma sort_desc_perm (l : list A) : PyList.sort_desc gt l ≡ₚ l.
Proof.
  induction l as [| x l IH]; cbn [PyList.sort_desc]; [reflexivity |].
  rewrite insert_desc_perm. now rewrite IH.
Qed.

Lemma sort_desc_length (l : list A) : length (PyList.sort_desc gt l) = length l.
Proof. apply Permutation_length, sort_desc_perm. Qed.

(** The order the sort leaves: [ge x y] when [x] may stand before [y]. *)
Variable ge : A -> A -> Prop.
Hypothesis ge_trans : forall x y z, ge x y -> ge y z -> ge x z.
Hypothesis gt_ge : forall x y, gt x y = true -> ge x y.
Hypothesis not_gt_ge : forall x y, gt x y = false -> ge y x.

Lemma insert_desc_sorted (x : A) (l : list A) :
  StronglySorted ge l -> StronglySorted ge (PyList.insert_desc gt x l).
Proof.
  induction 1 as [| y l Hsorted IH Hall]; cbn [PyList.insert_desc].
  - repeat constructor.
  - destruct (gt y x) eqn:Hyx.
    + constructor; [exact IH |].
      rewrite insert_desc_perm. constructor; [now apply gt_ge | exact Hall].
    + constructor; [now constructor |].
      constructor; [now apply not_gt_ge |].
      eapply Forall_impl; [exact Hall |].
      intros z Hz. eapply ge_trans; [apply not_gt_ge; exact Hyx | exact Hz].
Qed.

Lemma sort_desc_sorted (l : list A) : StronglySorted ge (PyList.sort_desc gt l).
Proof.
  induction l as [| x l IH]; cbn [PyList.sort_desc]; [constructor |].
  now apply insert_desc_sorted.
Qed.

End SortFacts.

(** [l[:stop]] is an initial segment of [l]. *)
Lemma prefix_take {A} (l : list A) (stop : Z) :
  exists k, PyList.prefix l stop = take k l.
Proof.
  unfold PyList.prefix, PyList.slice. eexists.
  replace (Z.to_nat (PyList.clamp (PyList.len l) 0)) with 0%nat; [reflexivity |].
  unfold PyList.clamp. rewrite Z.ltb_irrefl.
  pose proof (len_nonneg l). rewrite Z.min_l by lia. reflexivity.
Qed.

Lemma prefix_nonneg {A} (l : list A) (stop : Z) :
  0 <= stop -> PyList.prefix l stop = take (Z.to_nat stop) l.
Proof.
  intros Hstop. unfold PyList.prefix, PyList.slice, PyList.clamp.
  pose proof (len_nonneg l) as Hlen. rewrite Z.ltb_irrefl.
  destruct (Z.ltb_spec stop 0) as [H | _]; [lia |].
  rewrite (Z.min_l 0) by lia. change (Z.to_nat 0) with 0%nat. rewrite drop_0.
  rewrite Z.sub_0_r. unfold PyList.len in *.
  destruct (Z.le_ge_cases stop (Z.of_nat (length l))) as [Hle | Hge].
  - now rewrite Z.min_l by lia.
  - rewrite Z.min_r by lia. rewrite Nat2Z.id.
    rewrite !take_ge by lia. reflexivity.
Qed.

(** ** The aggregator *)

Local Open Scope list_scope.

Lemma url_set_cons (r : SearchResult.t) (rs : list SearchResult.t) :
  url_set (r :: rs) = {[ SearchResult.url r ]} ∪ url_set rs.
Proof. reflexivity. Qed.

Lemma url_set_app (l1 l2 : list SearchResult.t) :
  url_set (l1 ++ l2) = url_set l1 ∪ url_set l2.
Proof.
  unfold url_set. rewrite map_app. apply leibniz_equiv, list_to_set_app.
Qed.

Lemma elem_of_url_set (u : string) (rs : list SearchResult.t) :
  u ∈ url_set rs <-> u ∈ map SearchResult.url rs.
Proof. unfold url_set. apply elem_of_list_to_set. Qed.

Lemma dedup_urls_app (l1 l2 : list SearchResult.t) :
  forall seen,
    dedup_urls seen (l1 ++ l2)
    = dedup_urls seen l1 ++ dedup_urls (url_set l1 ∪ seen) l2.
Proof.
  induction l1 as [| r l1 IH]; intros seen; cbn [dedup_urls app].
  - f_equal. unfold url_set. cbn. apply leibniz_equiv. set_solver.
  - rewrite url_set_cons. destruct (decide (SearchResult.url r ∈ seen)) as [Hin | Hout].
    + rewrite IH. do 2 f_equal. apply leibniz_equiv. set_solver.
    + rewrite IH. cbn [app]. do 3 f_equal. apply leibniz_equiv. set_solver.
Qed.

Lemma add_results_spec (results : list SearchResult.t) :
  forall m,
    Search.all_results (Search.add_results results m)
    = Search.all_results m ++ dedup_urls (Search.seen_urls m) results
    /\ Search.seen_urls (Search.add_results results m)
       = url_set results ∪ Search.seen_urls m
    /\ Search.successful_sources (Search.add_results results m)
       = Search.successful_sources m.
Proof.
  induction results as [| r rest IH]; intros m; cbn [Search.add_results dedup_urls].
  - rewrite app_nil_r. repeat split. unfold url_set. cbn.
    apply leibniz_equiv. set_solver.
  - rewrite url_set_cons.
    destruct (decide (SearchResult.url r ∈ Search.seen_urls m)) as [Hin | Hout].
    + destruct (IH m) as (-> & -> & ->). repeat split.
      apply leibniz_equiv. set_solver.
    + destruct (IH (Search.mkMerged (Search.all_results m ++ [r])
                      (Search.successful_sources m)
                      ({[ SearchResult.url r ]} ∪ Search.seen_urls m)))
        as (-> & -> & ->).
      cbn [Search.all_results Search.seen_urls Search.successful_sources].
      rewrite <- app_assoc. repeat split.
      apply leibniz_equiv. set_solver.
Qed.

Lemma merge_loop_spec (responses : list (PyResult SearchResponse.t)) :
  forall m,
    Search.all_results (Search.merge_loop responses m)
    = Search.all_results m
      ++ dedup_urls (Search.seen_urls m) (successful_results responses)
    /\ Search.seen_urls (Search.merge_loop responses m)
       = url_set (successful_results responses) ∪ Search.seen_urls m.
Proof.
  induction responses as [| [r | e] rest IH]; intros m;
    cbn [Search.merge_loop successful_results flat_map].
  - rewrite app_nil_r. split; [reflexivity |].
    unfold url_set. cbn. apply leibniz_equiv. set_solver.
  - destruct (SearchResponse.success r).
    + destruct (add_results_spec (SearchResponse.results r) m) as (Hall & Hseen & _).
      destruct (IH (Search.mkMerged
                      (Search.all_results (Search.add_results (SearchResponse.results r) m))
                      (Search.successful_sources
                         (Search.add_results (SearchResponse.results r) m)
                       ++ [SearchResponse.source r])
                      (Search.seen_urls (Search.add_results (SearchResponse.results r) m))))
        as (-> & ->).
      cbn [Search.all_results Search.seen_urls]. rewrite Hall, Hseen.
      fold (successful_results rest).
      rewrite dedup_urls_app, url_set_app, <- app_assoc. split; [reflexivity |].
      apply leibniz_equiv. set_solver.
    + apply IH.
  - apply IH.
Qed.

(** What [dedup_urls] keeps: one result per URL, the first that carries it. *)
Lemma dedup_urls_fresh (results : list SearchResult.t) :
  forall seen r, r ∈ dedup_urls seen results -> SearchResult.url r ∉ seen.
Proof.
  induction results as [| x rest IH]; intros seen r; cbn [dedup_urls].
  - intros H. inversion H.
  - destruct (decide (SearchResult.url x ∈ seen)) as [Hin | Hout].
    + apply IH.
    + intros [-> | Hr]%elem_of_cons; [exact Hout |].
      apply IH in Hr. set_solver.
Qed.

Lemma dedup_urls_NoDup (results : list SearchResult.t) :
  forall seen, NoDup (map SearchResult.url (dedup_urls seen results)).
Proof.
  induction results as [| x rest IH]; intros seen; cbn [dedup_urls map].
  - constructor.
  - destruct (decide (SearchResult.url x ∈ seen)); [apply IH |].
    cbn [map]. apply NoDup_cons. split; [| apply IH].
    rewrite list_elem_of_In, in_map_iff. intros (r & Hurl & Hr).
    apply list_elem_of_In, dedup_urls_fresh in Hr. set_solver.
Qed.


Lemma dedup_urls_nil (results : list SearchResult.t) :
  dedup_urls ∅ results = [] <-> results = [].
Proof.
  split; [| now intros ->].
  destruct results as [| x rest]; [reflexivity |]. cbn [dedup_urls].
  destruct (decide (SearchResult.url x ∈ (∅ : gset string))) as [Hin | _];
    [set_solver | discriminate].
Qed.

(** The merged results before ranking. *)
Lemma merged_all_results (responses : list (PyResult SearchResponse.t)) :
  Search.all_results (Search.merge_loop responses (Search.mkMerged [] [] ∅))
  = dedup_urls ∅ (successful_results responses).
Proof.
  destruct (merge_loop_spec responses (Search.mkMerged [] [] ∅)) as [-> _].
  reflexivity.
Qed.



(** The scenario of the specification: two backends returning the URLs a, b
    and b, c give the three results a, b, c. *)
Example merge_two_backends :
  let result url := SearchResult.mk "title" url "snippet" "backend" ∅ in
  let response urls :=
    Ok (SearchResponse.mk true (map result urls) "backend" 2 0%Q None) in
  let merged := Search.merge_responses [response ["a"; "b"]; response ["b"; "c"]]
                  10 0%Q in
  map SearchResult.url (SearchResponse.results merged) = ["a"; "b"; "c"]
  /\ SearchResponse.total_results merged = 3.
Proof. vm_compute. split; reflexivity. Qed.

Lemma successful_results_nonempty (responses : list (PyResult SearchResponse.t)) :
  successful_results responses <> []
  <-> (exists r, Ok r ∈ responses
                 /\ SearchResponse.success r = true
                 /\ SearchResponse.results r <> []).
Proof.
  induction responses as [| [r | e] rest IH]; cbn [successful_results flat_map];
    try fold (successful_results rest).
  - split; [congruence |]. intros (r & Hr & _). inversion Hr.
  - destruct (SearchResponse.success r) eqn:Hok.
    + destruct (SearchResponse.results r) as [| x xs] eqn:Hresults; cbn [app].
      * rewrite IH. split.
        -- intros (r' & Hin & H). exists r'. split; [| exact H].
           apply elem_of_cons. now right.
        -- intros (r' & [[= ->] | Hin]%elem_of_cons & Hok' & Hne);
             [congruence | eauto].
      * split; [| discriminate]. intros _. exists r.
        split; [apply elem_of_cons; now left |]. split; [exact Hok |].
        rewrite Hresults. discriminate.
    + cbn [app]. rewrite IH. split.
      * intros (r' & Hin & H). exists r'. split; [| exact H].
        apply elem_of_cons. now right.
      * intros (r' & [[= ->] | Hin]%elem_of_cons & Hok' & Hne);
          [congruence | eauto].
  - cbn [app]. rewrite IH. split.
    + intros (r' & Hin & H). exists r'. split; [| exact H].
      apply elem_of_cons. now right.
    + intros (r' & [[=] | Hin]%elem_of_cons & H). eauto.
Qed.

Lemma merge_loop_filter (responses : list (PyResult SearchResponse.t)) :
  forall m,
    Search.merge_loop responses m
    = Search.merge_loop (List.filter contributes responses) m.
Proof.
  induction responses as [| [r | e] rest IH]; intros m;
    cbn [Search.merge_loop List.filter contributes]; [reflexivity | | apply IH].
  destruct (SearchResponse.success r) eqn:Hok; cbn [Search.merge_loop];
    rewrite ?Hok; apply IH.
Qed.

Lemma search_with_semaphore_raise (self : Search.MultiSearchAgent) (query : string)
    (num_results : Z) (agent : Search.SearchAgent) :
  raises self query num_results agent = true ->
  exists message,
    Search.search_with_semaphore self query num_results agent
    = SearchResponse.mk false [] (Search.type_name agent) 0 0%Q (Some message).
Proof.
  unfold raises, Search.search_with_semaphore.
  destruct (Search.search agent query _) as [r | e]; [discriminate |].
  intros _. eexists. reflexivity.
Qed.

Lemma filter_contributes_skip (self : Search.MultiSearchAgent) (query : string)
    (num_results : Z) (agents : list Search.SearchAgent) :
  let respond agent := Ok (Search.search_with_semaphore self query num_results agent) in
  List.filter contributes (map respond agents)
  = List.filter contributes
      (map respond
         (List.filter (fun agent => negb (raises self query num_results agent)) agents)).
Proof.
  intros respond. induction agents as [| agent rest IH]; [reflexivity |].
  cbn [map List.filter].
  destruct (raises self query num_results agent) eqn:Hraises; cbn [negb].
  - destruct (search_with_semaphore_raise _ _ _ _ Hraises) as [message Hfail].
    unfold respond at 1. cbn [contributes]. rewrite Hfail.
    cbn [SearchResponse.success]. exact IH.
  - cbn [map List.filter]. destruct (contributes (respond agent)); now rewrite IH.
Qed.

(** C7. The merged response has [success = true] exactly when some backend
    response succeeded and brought at least one result. An agent whose
    [search] raises is turned into an empty [success = false] response, and
    the merged response is the merge of the responses of the other agents, 
    each still asked the same request. *)
Theorem merged_success_iff :
  forall (self : Search.MultiSearchAgent) (query : string)
         (responses : list (PyResult SearchResponse.t)) (num_results : Z)
         (response_time : Q),
    (SearchResponse.success
       (Search.merge_responses responses num_results response_time) = true
     <-> exists r, Ok r ∈ responses
                   /\ SearchResponse.success r = true
                   /\ SearchResponse.results r <> [])
    /\ (forall agent,
          raises self query num_results agent = true ->
          SearchResponse.success
            (Search.search_with_semaphore self query num_results agent) = false
          /\ SearchResponse.results
               (Search.search_with_semaphore self query num_results agent) = [])
    /\ Search.multi_search self query num_results response_time
       = Search.merge_responses
           (map (fun agent =>
                   Ok (Search.search_with_semaphore self query num_results agent))
              (List.filter (fun agent => negb (raises self query num_results agent))
                 (Search.search_agents self)))
           num_results response_time.
Proof.
  intros self query responses num_results response_time. split; [| split].
  - unfold Search.merge_responses. cbn [SearchResponse.success].
    rewrite merged_all_results. unfold PyList.len. rewrite sort_desc_length.
    rewrite <- successful_results_nonempty, <- dedup_urls_nil.
    rewrite Z.ltb_lt.
    destruct (dedup_urls ∅ (successful_results responses)) as [| x xs];
      cbn [length]; split; [lia | congruence | discriminate | lia].
  - intros agent Hraises.
    destruct (search_with_semaphore_raise _ _ _ _ Hraises) as [message ->].
    split; reflexivity.
  - unfold Search.multi_search, Search.merge_responses.
    rewrite (merge_loop_filter (map _ (Search.search_agents self))).
    rewrite (filter_contributes_skip self query num_results).
    rewrite <- merge_loop_filter. reflexivity.
Qed.

(** ** Words of a preprocessed text *)

Lemma isspace_lower_char (c : ascii) :
  Text.isspace (Text.lower_char c) = Text.isspace c.
Proof. destruct c as [[] [] [] [] [] [] [] []]; reflexivity. Qed.

Lemma lower_char_idem (c : ascii) :
  Text.lower_char (Text.lower_char c) = Text.lower_char c.
Proof. destruct c as [[] [] [] [] [] [] [] []]; reflexivity. Qed.

Lemma lower_idem (s : string) : Text.lower (Text.lower s) = Text.lower s.
Proof.
  induction s as [| c s IH]; cbn [Text.lower]; [reflexivity |].
  now rewrite lower_char_idem, IH.
Qed.

Lemma lower_snoc (s : string) (c : ascii) :
  Text.lower (s ++ String c EmptyString)%string
  = (Text.lower s ++ String (Text.lower_char c) EmptyString)%string.
Proof.
  induction s as [| d s IH]; simpl; [reflexivity |].
  now rewrite IH.
Qed.

Lemma split_from_space (cur : string) (c : ascii) (s : string) :
  Text.isspace c = true ->
  Text.split_from cur (String c s) = pending cur ++ Text.split_from EmptyString s.
Proof.
  intros Hc. cbn [Text.split_from]. rewrite Hc. now destruct cur.
Qed.

Lemma split_from_letter (cur : string) (c : ascii) (s : string) :
  Text.isspace c = false ->
  Text.split_from cur (String c s)
  = Text.split_from (cur ++ String c EmptyString)%string s.
Proof. intros Hc. cbn [Text.split_from]. now rewrite Hc. Qed.

Lemma split_from_lower (s : string) :
  forall cur,
    Text.split_from (Text.lower cur) (Text.lower s)
    = map Text.lower (Text.split_from cur s).
Proof.
  induction s as [| c s IH]; intros cur; cbn [Text.lower].
  - destruct cur; reflexivity.
  - destruct (Text.isspace c) eqn:Hc.
    + rewrite !split_from_space by (rewrite ?isspace_lower_char; exact Hc).
      rewrite map_app, <- (IH EmptyString). now destruct cur.
    + rewrite !split_from_letter by (rewrite ?isspace_lower_char; exact Hc).
      rewrite <- IH, lower_snoc. reflexivity.
Qed.

Lemma split_lower (s : string) :
  Text.split (Text.lower s) = map Text.lower (Text.split s).
Proof. apply (split_from_lower s EmptyString). Qed.

Lemma split_from_sub_spaces (s : string) :
  forall cur, Text.split_from cur (Text.sub_spaces s) = Text.split_from cur s.
Proof.
  induction s as [| c s IH]; intros cur; [reflexivity |].
  cbn [Text.sub_spaces]. destruct (Text.isspace c) eqn:Hc.
  - destruct s as [| c' s'].
    + now rewrite !split_from_space by (exact Hc || reflexivity).
    + destruct (Text.isspace c') eqn:Hc'.
      * rewrite IH. rewrite (split_from_space cur c) by exact Hc.
        rewrite !(split_from_space _ c') by exact Hc'.
        now destruct cur.
      * rewrite (split_from_space cur " ") by reflexivity.
        rewrite (split_from_space cur c) by exact Hc.
        now rewrite IH.
  - rewrite !split_from_letter by exact Hc. apply IH.
Qed.

Lemma split_lstrip (s : string) : Text.split (Text.lstrip s) = Text.split s.
Proof.
  unfold Text.split. induction s as [| c s IH]; [reflexivity |].
  cbn [Text.lstrip]. destruct (Text.isspace c) eqn:Hc; [| reflexivity].
  rewrite IH. now rewrite (split_from_space EmptyString c) by exact Hc.
Qed.

Lemma split_from_rstrip (s : string) :
  forall cur, Text.split_from cur (Text.rstrip s) = Text.split_from cur s.
Proof.
  induction s as [| c s IH]; intros cur; [reflexivity |].
  cbn [Text.rstrip]. destruct (Text.rstrip s) as [| d r] eqn:Hr.
  - destruct (Text.isspace c) eqn:Hc.
    + rewrite split_from_space by exact Hc. rewrite <- IH.
      cbn [Text.split_from]. rewrite app_nil_r. now destruct cur.
    + rewrite !split_from_letter by exact Hc. now rewrite <- IH.
  - destruct (Text.isspace c) eqn:Hc.
    + rewrite !(split_from_space cur c) by exact Hc. now rewrite IH.
    + rewrite !(split_from_letter cur c) by exact Hc. now rewrite IH.
Qed.

Lemma split_strip (s : string) : Text.split (Text.strip s) = Text.split s.
Proof.
  unfold Text.strip, Text.split at 1. rewrite split_from_rstrip.
  apply split_lstrip.
Qed.

(** The words of a preprocessed text are the lower-cased words of the text. *)
Lemma split_preprocess (s : string) :
  Text.split (RAG._preprocess_text s) = map Text.lower (Text.split s).
Proof.
  unfold RAG._preprocess_text. rewrite split_strip.
  unfold Text.split at 1. rewrite split_from_sub_spaces. apply split_lower.
Qed.

(** Preprocessing a preprocessed text gives the same words again. *)
Lemma split_preprocess_idem (s : string) :
  Text.split (RAG._preprocess_text (RAG._preprocess_text s))
  = Text.split (RAG._preprocess_text s).
Proof.
  rewrite !split_preprocess, map_map.
  apply map_ext. intros w. apply lower_idem.
Qed.

(** ** Keyword-only retrieval *)

Lemma preprocessed_words (chunk : DocumentChunk.t) :
  preprocessed chunk ->
  RAG.word_set (Text.split (DocumentChunk.content chunk))
  = normalized_words (DocumentChunk.content chunk).
Proof.
  intros [text ->]. unfold normalized_words. now rewrite split_preprocess_idem.
Qed.

Lemma keyword_similarity_score (query : string) (chunk : DocumentChunk.t) :
  preprocessed chunk ->
  RAG._calculate_keyword_similarity query chunk = Ok (chunk_score query chunk).
Proof.
  intros Hchunk. rewrite keyword_similarity_value.
  unfold chunk_score. now rewrite (preprocessed_words chunk Hchunk).
Qed.

(** The chunks that the indexer stores are preprocessed. *)
Lemma chunk_loop_preprocessed (words : list string) (chunk_size : Z)
    (source_url : string) (starts : list Z) :
  forall chunks,
    Forall preprocessed chunks ->
    Forall preprocessed (RAG.chunk_loop words chunk_size source_url starts chunks).
Proof.
  induction starts as [| i rest IH]; intros chunks Hchunks; [exact Hchunks |].
  cbn [RAG.chunk_loop]. apply IH. apply Forall_app. split; [exact Hchunks |].
  constructor; [| constructor]. eexists. reflexivity.
Qed.

Lemma chunk_text_preprocessed (chunk_size chunk_overlap : Z) (text source_url : string)
    (chunks : list DocumentChunk.t) :
  RAG._chunk_text chunk_size chunk_overlap text source_url = Ok chunks ->
  Forall preprocessed chunks.
Proof.
  unfold RAG._chunk_text.
  destruct (PyList.range 0 _ _) as [starts | e]; [| discriminate].
  intros [= <-]. apply chunk_loop_preprocessed. constructor.
Qed.

Lemma index_loop_preprocessed {Vec} (self : RAG.ImprovedRAGAgent Vec)
    (documents : list ScrapedContent.t) :
  forall new_chunks result,
    Forall preprocessed new_chunks ->
    RAG.index_loop self documents new_chunks = Ok result ->
    Forall preprocessed result.
Proof.
  induction documents as [| doc rest IH]; intros new_chunks result Hnew;
    cbn [RAG.index_loop].
  - now intros [= <-].
  - destruct (RAG.worth_indexing doc); [| now apply IH].
    destruct (RAG._chunk_text _ _ _ _) as [chunks | e] eqn:Hchunks; [| discriminate].
    cbn [Py.bind]. apply IH. apply Forall_app. split; [exact Hnew |].
    eapply chunk_text_preprocessed. exact Hchunks.
Qed.

Section KeywordIndexing.

Variable Vec : Type.
Variable encode : list string -> PyResult (list Vec).
Variable normalize_L2 : Vec -> Vec.
Variable step_error : RAG.Step -> list Vec -> option PyExn.

Lemma index_documents_keyword_only (self : RAG.ImprovedRAGAgent Vec) documents :
  keyword_only self ->
  keyword_only (fst (RAG.index_documents encode normalize_L2 step_error self documents)).
Proof.
  intros [Huse Hchunks]. unfold RAG.index_documents.
  destruct (RAG.index_loop self documents []) as [new_chunks | e] eqn:Hloop;
    [| now split].
  rewrite Huse. cbn [andb fst].
  split; [reflexivity |]. cbn [RAG.document_chunks].
  apply Forall_app. split; [exact Hchunks |].
  eapply index_loop_preprocessed; [| exact Hloop]. constructor.
Qed.

Lemma index_all_keyword_only (batches : list (list ScrapedContent.t)) :
  forall self, keyword_only self ->
    keyword_only (RAG.index_all encode normalize_L2 step_error self batches).
Proof.
  induction batches as [| documents rest IH]; intros self Hself; [exact Hself |].
  cbn [RAG.index_all]. apply IH. now apply index_documents_keyword_only.
Qed.

End KeywordIndexing.

Lemma keyword_loop_spec (query : string) (chunks : list DocumentChunk.t) :
  Forall preprocessed chunks ->
  RAG.keyword_loop query chunks
  = Ok (map (fun chunk => if positive query chunk then scored query chunk else chunk)
          chunks,
        map (fun chunk => (chunk_score query chunk, scored query chunk))
          (List.filter (positive query) chunks)).
Proof.
  induction 1 as [| chunk rest Hchunk Hrest IH]; [reflexivity |].
  cbn [RAG.keyword_loop map List.filter].
  rewrite (keyword_similarity_score query chunk Hchunk), IH. cbn [Py.bind fst snd].
  fold (positive query chunk). destruct (positive query chunk); reflexivity.
Qed.

Section SortMap.

Context {A B : Type} (f : A -> B) (gtA : A -> A -> bool) (gtB : B -> B -> bool).
Hypothesis gt_map : forall x y, gtB (f x) (f y) = gtA x y.

Lemma insert_desc_map (x : A) (l : list A) :
  PyList.insert_desc gtB (f x) (map f l) = map f (PyList.insert_desc gtA x l).
Proof.
  induction l as [| y l IH]; [reflexivity |].
  cbn [map PyList.insert_desc]. rewrite gt_map.
  destruct (gtA y x); cbn [map]; [now rewrite IH | reflexivity].
Qed.

Lemma sort_desc_map (l : list A) :
  PyList.sort_desc gtB (map f l) = map f (PyList.sort_desc gtA l).
Proof.
  induction l as [| x l IH]; [reflexivity |].
  cbn [map PyList.sort_desc]. now rewrite IH, insert_desc_map.
Qed.

End SortMap.

Section SortedFacts.

Context {A : Type} (R : A -> A -> Prop).

Lemma StronglySorted_take (k : nat) (l : list A) :
  StronglySorted R l -> StronglySorted R (take k l).
Proof.
  intros Hl. revert k. induction Hl as [| x l Hsorted IH Hall]; intros [| k];
    cbn [take firstn]; try constructor.
  - apply IH.
  - apply Forall_forall. intros y Hy.
    rewrite Forall_forall in Hall. apply Hall.
    eapply elem_of_sublist; [exact Hy | apply sublist_take].
Qed.

Lemma StronglySorted_map {B : Type} (f : B -> A) (l : list B) :
  StronglySorted (fun x y => R (f x) (f y)) l -> StronglySorted R (map f l).
Proof.
  induction 1 as [| x l Hsorted IH Hall]; cbn [map]; constructor; [exact IH |].
  apply Forall_forall. intros y [z [<- Hz]]%list_elem_of_In%in_map_iff.
  rewrite Forall_forall in Hall. apply Hall. now apply list_elem_of_In.
Qed.

End SortedFacts.

Lemma positive_score (query : string) (chunk : DocumentChunk.t) :
  positive query chunk = true -> (0 < chunk_score query chunk)%Q.
Proof.
  unfold positive, PyList.Qgtb. intros H%negb_true_iff.
  apply Qnot_le_lt. intros Hle%Qle_bool_iff. congruence.
Qed.

Lemma get_score_scored (query : string) (chunk : DocumentChunk.t) :
  RAG.get_score (scored query chunk) = chunk_score query chunk.
Proof.
  unfold RAG.get_score, scored, RAG.set_score. cbn [DocumentChunk.metadata].
  now rewrite lookup_insert_eq.
Qed.

Lemma ranking_sorted (query : string) (chunks : list DocumentChunk.t) :
  StronglySorted (fun a b => (chunk_score query b <= chunk_score query a)%Q)
    (ranking query chunks).
Proof.
  apply sort_desc_sorted.
  - intros x y z Hxy Hyz. eapply Qle_trans; eassumption.
  - intros x y Hgt. unfold PyList.Qgtb in Hgt. apply negb_true_iff in Hgt.
    apply Qlt_le_weak, Qnot_le_lt. intros Hle%Qle_bool_iff. congruence.
  - intros x y Hgt. unfold PyList.Qgtb in Hgt. apply negb_false_iff in Hgt.
    now apply Qle_bool_iff.
Qed.

Lemma ranking_positive (query : string) (chunks : list DocumentChunk.t) :
  Forall (fun chunk => positive query chunk = true) (ranking query chunks).
Proof.
  unfold ranking. rewrite sort_desc_perm.
  apply Forall_forall. intros chunk Hin%list_elem_of_In%filter_In. tauto.
Qed.

Section KeywordRetrieval.

Variable EMBEDDINGS_AVAILABLE : bool.
Variable Vec : Type.
Variable encode : list string -> PyResult (list Vec).
Variable normalize_L2 : Vec -> Vec.
Variable index_search : list Vec -> list Vec -> Z -> PyResult (list (Q * Z)).
Variable step_error : RAG.Step -> list Vec -> option PyExn.

Lemma query_keyword_only (self : RAG.ImprovedRAGAgent Vec) (query : string)
    (top_k : Z) (retrieval_time generation_time : Q) :
  keyword_only self ->
  0 <= top_k ->
  exists self' result,
    RAG.query encode normalize_L2 index_search self query top_k
      retrieval_time generation_time = Ok (self', result)
    /\ RAGResult.relevant_chunks result
       = map (scored query)
           (take (Z.to_nat top_k) (ranking query (RAG.document_chunks self))).
Proof.
  intros [Huse Hchunks] Htop. unfold RAG.query, ranking.
  destruct (RAG.document_chunks self) as [| chunk rest] eqn:Hstored.
  - eexists _, _. split; [reflexivity |]. cbn. now rewrite take_nil.
  - rewrite Huse, (keyword_loop_spec query (chunk :: rest) Hchunks).
    cbn [Py.bind fst snd]. eexists _, _. split; [reflexivity |].
    cbn [RAGResult.relevant_chunks].
    rewrite (sort_desc_map
               (fun c => (chunk_score query c, scored query c))
               (fun y x => PyList.Qgtb (chunk_score query y) (chunk_score query x)))
      by reflexivity.
    rewrite prefix_nonneg by exact Htop.
    rewrite firstn_map, map_map. reflexivity.
Qed.

(** C6. On every chunk collection built by the indexer of a keyword-only
    agent, and for every query, [query] returns (for a [top_k] that is not
    negative) the first [top_k] of the chunks whose score is strictly
    positive, sorted by descending score, each carrying its score; the score
    of a chunk is the Jaccard index of the lower-cased, whitespace-normalized
    word sets of the query and of the chunk. The query
    "artificial intelligence" against a chunk whose words are artificial,
    general, intelligence, is scores exactly 1/2. *)
Theorem keyword_only_retrieval :
  forall (chunk_size chunk_overlap : Z) (use_embeddings : bool)
         (fresh : RAG.ImprovedRAGAgent Vec)
         (batches : list (list ScrapedContent.t))
         (query : string) (top_k : Z) (retrieval_time generation_time : Q),
    RAG.__init__ EMBEDDINGS_AVAILABLE Vec chunk_size chunk_overlap use_embeddings
    = Ok fresh ->
    RAG.use_embeddings fresh = false ->
    0 <= top_k ->
    let self := RAG.index_all encode normalize_L2 step_error fresh batches in
    (exists self' result,
        RAG.query encode normalize_L2 index_search self query top_k
          retrieval_time generation_time = Ok (self', result)
        /\ RAGResult.relevant_chunks result
           = map (scored query)
               (take (Z.to_nat top_k) (ranking query (RAG.document_chunks self)))
        /\ PyList.len (RAGResult.relevant_chunks result) <= top_k
        /\ Forall (fun chunk =>
                     (0 < chunk_score query chunk)%Q
                     /\ RAG.get_score chunk = chunk_score query chunk)
             (RAGResult.relevant_chunks result)
        /\ StronglySorted
             (fun a b => (chunk_score query b <= chunk_score query a)%Q)
             (RAGResult.relevant_chunks result))
    /\ (forall chunk,
          RAG.word_set (Text.split (DocumentChunk.content chunk))
          = {[ "artificial"; "general"; "intelligence"; "is" ]} ->
          RAG._calculate_keyword_similarity "artificial intelligence" chunk
          = Ok (1 # 2)%Q).
Proof.
  intros chunk_size chunk_overlap use_embeddings fresh batches query top_k
    retrieval_time generation_time Hinit Huse Htop self.
  assert (Hself : keyword_only self).
  { apply index_all_keyword_only. split; [exact Huse |].
    unfold RAG.__init__ in Hinit. injection Hinit as <-. constructor. }
  split.
  - destruct (query_keyword_only self query top_k retrieval_time generation_time
                Hself Htop) as (self' & result & Hquery & Hrelevant).
    exists self', result. split; [exact Hquery |]. split; [exact Hrelevant |].
    rewrite Hrelevant. split; [| split].
    + unfold PyList.len. rewrite length_map, length_take. lia.
    + apply Forall_forall.
      intros chunk' [chunk [<- Hin]]%list_elem_of_In%in_map_iff.
      change (chunk_score query (scored query chunk))
        with (chunk_score query chunk).
      split; [| apply get_score_scored].
      apply positive_score.
      pose proof (ranking_positive query (RAG.document_chunks self)) as Hpos.
      rewrite Forall_forall in Hpos. apply Hpos.
      eapply elem_of_sublist; [apply list_elem_of_In, Hin | apply sublist_take].
    + apply StronglySorted_map, StronglySorted_take.
      apply (ranking_sorted query (RAG.document_chunks self)).
  - intros chunk Hwords. rewrite keyword_similarity_value, Hwords.
    vm_compute. reflexivity.
Qed.

End KeywordRetrieval.

Lemma keyword_only_retrieval_witness :
  RAG.__init__ false Z 512 64 true = Ok (demo_agent false)
  /\ RAG.use_embeddings (demo_agent false) = false
  /\ 0 <= 5
  /\ (exists self' result,
        RAG.query demo_encode id demo_search
          (RAG.index_all demo_encode id no_refusal (demo_agent false)
             [[other_page; ai_page]])
          "Artificial  intelligence" 5 (1 # 4)%Q (1 # 8)%Q
        = Ok (self', result)
        /\ map (fun chunk => (DocumentChunk.source_url chunk, RAG.get_score chunk))
             (RAGResult.relevant_chunks result)
           = [("http://example.org/agi", (1 # 2)%Q)]).
Proof.
  split; [reflexivity |]. split; [reflexivity |]. split; [lia |].
  assert (Htop : 0 <= 5) by lia.
  pose proof (keyword_only_retrieval false Z demo_encode id demo_search no_refusal
                512 64 true (demo_agent false) [[other_page; ai_page]]
                "Artificial  intelligence" 5 (1 # 4)%Q (1 # 8)%Q
                eq_refl eq_refl Htop)
    as [(self' & result & Hquery & Hrelevant & _) _].
  exists self', result. split; [exact Hquery |].
  rewrite Hrelevant. vm_compute. reflexivity.
Defined.


Lemma merged_success_iff_witness :
  raises demo_multi "rocq" 10 broken_backend = true
  /\ SearchResponse.success
       (Search.search_with_semaphore demo_multi "rocq" 10 broken_backend) = false
  /\ SearchResponse.results
       (Search.search_with_semaphore demo_multi "rocq" 10 broken_backend) = []
  /\ SearchResponse.success (Search.multi_search demo_multi "rocq" 10 0%Q) = true
  /\ Search.multi_search demo_multi "rocq" 10 0%Q
     = Search.merge_responses [Ok (answer ["a"; "b"]); Ok (answer ["b"; "c"])] 10 0%Q.
Proof.
  destruct (merged_success_iff demo_multi "rocq"
              [Ok (answer ["a"; "b"]); Ok (answer ["b"; "c"])] 10 0%Q)
    as (Hiff & Hraise & Hskip).
  assert (Hbroken : raises demo_multi "rocq" 10 broken_backend = true)
    by reflexivity.
  destruct (Hraise broken_backend Hbroken) as [Hfalse Hempty].
  split; [exact Hbroken |]. split; [exact Hfalse |]. split; [exact Hempty |].
  split; [| exact Hskip].
  rewrite Hskip. apply Hiff. exists (answer ["a"; "b"]).
  split; [apply elem_of_cons; now left |]. split; [reflexivity | discriminate].
Defined.

(** * Further properties of the code *)

(** ** Texts and words *)

Lemma append_cons (c : ascii) (s t : string) :
  (String c s ++ t)%string = String c (s ++ t)%string.
Proof. reflexivity. Qed.

Lemma append_nil_r (s : string) : (s ++ EmptyString)%string = s.
Proof.
  induction s as [| c s IH]; [reflexivity |]. now rewrite append_cons, IH.
Qed.

Lemma append_snoc_cons (s : string) (c : ascii) (t : string) :
  ((s ++ String c EmptyString) ++ t)%string = (s ++ String c t)%string.
Proof.
  induction s as [| d s IH]; [reflexivity |]. now rewrite !append_cons, IH.
Qed.

Lemma all_chars_append (P : ascii -> bool) (s t : string) :
  all_chars P (s ++ t)%string = all_chars P s && all_chars P t.
Proof.
  induction s as [| c s IH]; [reflexivity |].
  rewrite append_cons. cbn [all_chars]. now rewrite IH, andb_assoc.
Qed.

(** Reading a run without whitespace only grows the pending word. *)
Lemma split_from_run (w : string) :
  forall cur rest,
    all_chars (fun c => negb (Text.isspace c)) w = true ->
    Text.split_from cur (w ++ rest)%string
    = Text.split_from (cur ++ w)%string rest.
Proof.
  induction w as [| c w IH]; intros cur rest Hw.
  - now rewrite append_nil_r.
  - cbn [all_chars] in Hw. apply andb_true_iff in Hw as [Hc Hw].
    apply negb_true_iff in Hc.
    rewrite append_cons, split_from_letter by exact Hc.
    rewrite IH by exact Hw. now rewrite append_snoc_cons.
Qed.

Lemma split_join (ws : list string) :
  Forall is_word ws -> Text.split (Text.join " " ws) = ws.
Proof.
  unfold Text.split.
  induction 1 as [| w ws [Hne Hw] Hws IH]; [reflexivity |].
  cbn [Text.join]. destruct ws as [| w' ws'].
  - rewrite <- (append_nil_r w) at 1. rewrite split_from_run by exact Hw.
    destruct w; [contradiction | reflexivity].
  - rewrite split_from_run by exact Hw. rewrite append_cons.
    rewrite split_from_space by reflexivity.
    change (EmptyString ++ ?t)%string with t. rewrite IH.
    destruct w; [contradiction | reflexivity].
Qed.

Lemma split_from_words (s : string) :
  forall cur,
    all_chars (fun c => negb (Text.isspace c)) cur = true ->
    Forall is_word (Text.split_from cur s).
Proof.
  induction s as [| c s IH]; intros cur Hcur.
  - destruct cur; cbn; constructor; [| constructor]. split; [discriminate | exact Hcur].
  - destruct (Text.isspace c) eqn:Hc.
    + rewrite split_from_space by exact Hc. apply Forall_app. split.
      * destruct cur; cbn; constructor; [| constructor].
        split; [discriminate | exact Hcur].
      * now apply IH.
    + rewrite split_from_letter by exact Hc. apply IH.
      rewrite all_chars_append, Hcur. cbn [all_chars andb]. now rewrite Hc.
Qed.

Lemma split_words (s : string) : Forall is_word (Text.split s).
Proof. now apply split_from_words. Qed.

(** ** The windows of the chunker *)

Lemma map_lookup {A B} (f : A -> B) (l : list A) (k : nat) :
  map f l !! k = f <$> (l !! k).
Proof. change (map f l) with (f <$> l). apply list_lookup_fmap. Qed.

Lemma len_app {A} (l1 l2 : list A) :
  PyList.len (l1 ++ l2) = PyList.len l1 + PyList.len l2.
Proof. unfold PyList.len. rewrite length_app. lia. Qed.

Lemma chunk_loop_from (words : list string) (chunk_size : Z) (source_url : string)
    (starts : list Z) :
  forall chunks,
    RAG.chunk_loop words chunk_size source_url starts chunks
    = chunks ++ chunks_from words chunk_size source_url (PyList.len chunks) starts.
Proof.
  induction starts as [| i rest IH]; intros chunks; cbn [RAG.chunk_loop chunks_from].
  - now rewrite app_nil_r.
  - rewrite IH, len_app, <- app_assoc. reflexivity.
Qed.

Lemma chunks_from_length (words : list string) (chunk_size : Z) (source_url : string)
    (starts : list Z) :
  forall first,
    length (chunks_from words chunk_size source_url first starts) = length starts.
Proof.
  induction starts as [| i rest IH]; intros first; cbn [chunks_from length];
    [reflexivity | now rewrite IH].
Qed.

Lemma chunks_from_lookup (words : list string) (chunk_size : Z) (source_url : string)
    (starts : list Z) :
  forall first k,
    chunks_from words chunk_size source_url first starts !! k
    = chunk_at words chunk_size source_url (first + Z.of_nat k) <$> (starts !! k).
Proof.
  induction starts as [| i rest IH]; intros first k; cbn [chunks_from].
  - now rewrite !lookup_nil.
  - destruct k as [| k]; cbn [lookup list_lookup].
    + cbn. now rewrite Z.add_0_r.
    + change (rest !! k) with (lookup k rest). rewrite IH.
      replace (first + 1 + Z.of_nat k) with (first + Z.of_nat (S k)) by lia.
      reflexivity.
Qed.

(** The window starts for a positive step: [0, step, 2 * step, ...] below the
    number of words. *)
Lemma range_positive_step (n step : Z) :
  0 <= n -> 0 < step ->
  exists count : nat,
    PyList.range 0 n step = Ok (map (fun k => 0 + Z.of_nat k * step) (seq 0 count))
    /\ Z.of_nat count = (if n =? 0 then 0 else (n - 1) / step + 1)
    /\ (forall k : nat, (k < count)%nat <-> Z.of_nat k * step < n).
Proof.
  intros Hn Hstep. unfold PyList.range, PyList.range_count.
  destruct (Z.eqb_spec step 0) as [-> | _]; [lia |].
  destruct (Z.ltb_spec 0 step) as [_ | H]; [| lia].
  rewrite Z.sub_0_r. eexists. split; [reflexivity |].
  destruct (Z.ltb_spec 0 n) as [Hpos | Hzero].
  - destruct (Z.eqb_spec n 0) as [-> | _]; [lia |].
    assert (Hq : 0 <= (n - 1) / step) by (apply Z.div_pos; lia).
    split; [lia |]. intros k.
    pose proof (Z.mul_div_le (n - 1) step Hstep) as Hlow.
    pose proof (Z.mul_succ_div_gt (n - 1) step Hstep) as Hhigh.
    split; intros Hk.
    + assert (Z.of_nat k <= (n - 1) / step) by lia. nia.
    + assert (Z.of_nat k < (n - 1) / step + 1); [| lia]. nia.
  - assert (n = 0) as -> by lia. cbn. split; [reflexivity |].
    intros k. split; [lia | nia].
Qed.

(** The result of [_chunk_text] for a positive step, chunk by chunk. *)
Lemma chunk_text_shape (chunk_size chunk_overlap : Z) (text source_url : string) :
  0 < chunk_size - chunk_overlap ->
  let words := Text.split text in
  let step := chunk_size - chunk_overlap in
  exists chunks,
    RAG._chunk_text chunk_size chunk_overlap text source_url = Ok chunks
    /\ PyList.len chunks
       = (if PyList.len words =? 0 then 0 else (PyList.len words - 1) / step + 1)
    /\ (forall k : nat,
          chunks !! k
          = if Z.of_nat k * step <? PyList.len words
            then Some (chunk_at words chunk_size source_url (Z.of_nat k)
                         (Z.of_nat k * step))
            else None).
Proof.
  intros Hstep words step.
  destruct (range_positive_step (PyList.len words) step (len_nonneg words) Hstep)
    as (count & Hrange & Hcount & Hbelow).
  unfold RAG._chunk_text. fold words. fold step. rewrite Hrange. cbn [Py.bind].
  eexists. split; [reflexivity |]. rewrite chunk_loop_from. cbn [app].
  split.
  - unfold PyList.len at 1. rewrite chunks_from_length, length_map, length_seq.
    exact Hcount.
  - intros k. rewrite chunks_from_lookup, map_lookup.
    change (PyList.len []) with 0.
    destruct (Z.ltb_spec (Z.of_nat k * step) (PyList.len words)) as [Hin | Hout].
    + rewrite lookup_seq_lt by now apply Hbelow. cbn. do 2 f_equal; lia.
    + rewrite lookup_seq_ge; [reflexivity |].
      destruct (Nat.le_gt_cases count k) as [Hle | Hlt]; [exact Hle |].
      apply Hbelow in Hlt. lia.
Qed.

Lemma slice_lookup {A} (l : list A) (a b : Z) (m : nat) :
  0 <= a -> 0 <= b ->
  PyList.slice l a b !! m
  = if Z.of_nat m <? b - a then l !! (Z.to_nat a + m)%nat else None.
Proof.
  intros Ha Hb. unfold PyList.slice, PyList.clamp.
  destruct (Z.ltb_spec a 0) as [H | _]; [lia |].
  destruct (Z.ltb_spec b 0) as [H | _]; [lia |].
  pose proof (len_nonneg l) as Hn. unfold PyList.len in *.
  rewrite lookup_take, lookup_drop.
  destruct (Z.ltb_spec (Z.of_nat m) (b - a)) as [Hin | Hout].
  - destruct (decide (m < Z.to_nat (Z.min b (Z.of_nat (length l))
                                    - Z.min a (Z.of_nat (length l))))%nat)
      as [Hlt | Hge].
    + f_equal. lia.
    + symmetry. rewrite lookup_ge_None_2 by lia. reflexivity.
  - destruct (decide _) as [Hlt | _]; [lia | reflexivity].
Qed.

Lemma slice_length_le {A} (l : list A) (a b : Z) :
  0 <= a -> a <= b -> PyList.len (PyList.slice l a b) <= b - a.
Proof.
  intros Ha Hb. unfold PyList.slice, PyList.clamp.
  destruct (Z.ltb_spec a 0) as [H | _]; [lia |].
  destruct (Z.ltb_spec b 0) as [H | _]; [lia |].
  unfold PyList.len. rewrite length_take. lia.
Qed.

Lemma slice_words (words : list string) (a b : Z) :
  Forall is_word words -> Forall is_word (PyList.slice words a b).
Proof.
  intros Hwords. unfold PyList.slice. now apply Forall_take, Forall_drop.
Qed.

(** The words of the content of a chunk are the lower-cased words of its
    window. *)
Lemma chunk_at_words (words : list string) (chunk_size : Z) (source_url : string)
    (number i : Z) :
  Forall is_word words ->
  Text.split (DocumentChunk.content (chunk_at words chunk_size source_url number i))
  = map Text.lower (PyList.slice words i (i + chunk_size)).
Proof.
  intros Hwords. unfold chunk_at. cbn [DocumentChunk.content].
  rewrite split_preprocess, split_join; [reflexivity |].
  now apply slice_words.
Qed.

(** X1. For a positive advance step, [_chunk_text] returns
    [ceil(n / step)] chunks for a text of [n] words; the chunk at position
    [k] is numbered [k], carries the source URL, and holds the preprocessed
    words [k * step .. k * step + chunk_size). *)
Theorem chunk_text_windows :
  forall (chunk_size chunk_overlap : Z) (text source_url : string),
    0 < chunk_size - chunk_overlap ->
    let words := Text.split text in
    let step := chunk_size - chunk_overlap in
    exists chunks,
      RAG._chunk_text chunk_size chunk_overlap text source_url = Ok chunks
      /\ PyList.len chunks
         = (if PyList.len words =? 0 then 0 else (PyList.len words - 1) / step + 1)
      /\ (forall (k : nat) chunk,
            chunks !! k = Some chunk ->
            DocumentChunk.chunk_index chunk = Z.of_nat k
            /\ DocumentChunk.source_url chunk = source_url
            /\ DocumentChunk.content chunk
               = RAG._preprocess_text
                   (Text.join " "
                      (PyList.slice words (Z.of_nat k * step)
                         (Z.of_nat k * step + chunk_size)))).
Proof.
  intros chunk_size chunk_overlap text source_url Hstep words step.
  destruct (chunk_text_shape chunk_size chunk_overlap text source_url Hstep)
    as (chunks & Hchunks & Hcount & Hlookup).
  exists chunks. split; [exact Hchunks |]. split; [exact Hcount |].
  intros k chunk Hk. rewrite Hlookup in Hk. fold step words in Hk.
  destruct (Z.of_nat k * step <? PyList.len words); [| discriminate].
  injection Hk as <-. repeat split.
Qed.

Lemma chunk_text_windows_witness :
  0 < 3 - 1
  /\ exists chunks,
       RAG._chunk_text 3 1 "A b  C d e" "http://example.org" = Ok chunks
       /\ PyList.len chunks = 3
       /\ map DocumentChunk.content chunks = ["a b c"; "c d e"; "e"]
       /\ map DocumentChunk.chunk_index chunks = [0; 1; 2].
Proof.
  split; [lia |].
  assert (Hstep : 0 < 3 - 1) by lia.
  destruct (chunk_text_windows 3 1 "A b  C d e" "http://example.org" Hstep)
    as (chunks & Hchunks & Hcount & _).
  exists chunks. split; [exact Hchunks |]. split; [exact Hcount |].
  vm_compute in Hchunks. injection Hchunks as <-. split; reflexivity.
Defined.

(** X2. With [0 <= chunk_overlap < chunk_size] no word is lost: the word at
    position [j] of the text is found, lower-cased, in the chunk number
    [j / step], at position [j - (j / step) * step] of its content. *)
Theorem chunk_text_covers :
  forall (chunk_size chunk_overlap : Z) (text source_url : string)
         (j : nat) (word : string),
    0 <= chunk_overlap < chunk_size ->
    Text.split text !! j = Some word ->
    let step := chunk_size - chunk_overlap in
    let k := Z.to_nat (Z.of_nat j / step) in
    exists chunks chunk,
      RAG._chunk_text chunk_size chunk_overlap text source_url = Ok chunks
      /\ chunks !! k = Some chunk
      /\ Text.split (DocumentChunk.content chunk)
           !! Z.to_nat (Z.of_nat j - Z.of_nat k * step)
         = Some (Text.lower word).
Proof.
  intros chunk_size chunk_overlap text source_url j word Hoverlap Hword step k.
  assert (Hstep : 0 < chunk_size - chunk_overlap) by lia.
  destruct (chunk_text_shape chunk_size chunk_overlap text source_url Hstep)
    as (chunks & Hchunks & _ & Hlookup).
  fold step in Hlookup.
  assert (Hj : Z.of_nat j < PyList.len (Text.split text)).
  { apply lookup_lt_Some in Hword. unfold PyList.len. lia. }
  assert (Hq : 0 <= Z.of_nat j / step) by (apply Z.div_pos; lia).
  pose proof (Z.mul_div_le (Z.of_nat j) step Hstep) as Hlow.
  pose proof (Z.mul_succ_div_gt (Z.of_nat j) step Hstep) as Hhigh.
  assert (Hk : Z.of_nat k = Z.of_nat j / step) by (subst k; lia).
  exists chunks. eexists. split; [exact Hchunks |]. split.
  - rewrite Hlookup.
    destruct (Z.ltb_spec (Z.of_nat k * step) (PyList.len (Text.split text)))
      as [_ | Hout]; [reflexivity | nia].
  - rewrite chunk_at_words by apply split_words.
    rewrite map_lookup, slice_lookup by nia.
    destruct (Z.ltb_spec (Z.of_nat (Z.to_nat (Z.of_nat j - Z.of_nat k * step)))
                (Z.of_nat k * step + chunk_size - Z.of_nat k * step))
      as [_ | Hout]; [| nia].
    replace (Z.to_nat (Z.of_nat k * step)
             + Z.to_nat (Z.of_nat j - Z.of_nat k * step))%nat with j by nia.
    now rewrite Hword.
Qed.

Lemma chunk_text_covers_witness :
  0 <= 1 < 3
  /\ Text.split "A b  C d e" !! 3%nat = Some "d"
  /\ exists chunks chunk,
       RAG._chunk_text 3 1 "A b  C d e" "http://example.org" = Ok chunks
       /\ chunks !! 1%nat = Some chunk
       /\ Text.split (DocumentChunk.content chunk) !! 1%nat = Some "d".
Proof.
  assert (Hoverlap : 0 <= 1 < 3) by lia.
  assert (Hword : Text.split "A b  C d e" !! 3%nat = Some "d") by reflexivity.
  split; [exact Hoverlap |]. split; [exact Hword |].
  exact (chunk_text_covers 3 1 "A b  C d e" "http://example.org" 3 "d"
           Hoverlap Hword).
Defined.

(** X3. The [word_count] that [_chunk_text] records in a chunk is the number
    of words of the content of that chunk, and it is at most [chunk_size]
    when that is not negative. *)
Theorem chunk_word_count_consistent :
  forall (chunk_size chunk_overlap : Z) (text source_url : string)
         (chunks : list DocumentChunk.t) (chunk : DocumentChunk.t),
    RAG._chunk_text chunk_size chunk_overlap text source_url = Ok chunks ->
    chunk ∈ chunks ->
    word_count chunk
    = Some (VInt (PyList.len (Text.split (DocumentChunk.content chunk))))
    /\ (0 <= chunk_size ->
        PyList.len (Text.split (DocumentChunk.content chunk)) <= chunk_size).
Proof.
  intros chunk_size chunk_overlap text source_url chunks chunk Hchunks Hin.
  destruct (Z.lt_trichotomy (chunk_size - chunk_overlap) 0) as [Hneg | [Hzero | Hpos]].
  - rewrite chunk_text_negative_step in Hchunks by exact Hneg.
    injection Hchunks as <-. inversion Hin.
  - rewrite chunk_text_zero_step in Hchunks by exact Hzero. discriminate.
  - destruct (chunk_text_shape chunk_size chunk_overlap text source_url Hpos)
      as (chunks' & Hchunks' & _ & Hlookup).
    rewrite Hchunks in Hchunks'. injection Hchunks' as <-.
    apply list_elem_of_lookup in Hin as [k Hk]. rewrite Hlookup in Hk.
    destruct (Z.of_nat k * (chunk_size - chunk_overlap) <? _); [| discriminate].
    injection Hk as <-.
    rewrite chunk_at_words by apply split_words.
    unfold word_count, chunk_at. cbn [DocumentChunk.metadata].
    rewrite lookup_singleton_eq. unfold PyList.len at 2 3.
    rewrite length_map. fold (PyList.len (PyList.slice (Text.split text)
      (Z.of_nat k * (chunk_size - chunk_overlap))
      (Z.of_nat k * (chunk_size - chunk_overlap) + chunk_size))).
    split; [reflexivity |]. intros Hsize.
    pose proof (slice_length_le (Text.split text)
                  (Z.of_nat k * (chunk_size - chunk_overlap))
                  (Z.of_nat k * (chunk_size - chunk_overlap) + chunk_size)).
    nia.
Qed.

Lemma chunk_word_count_consistent_witness :
  exists chunks chunk,
    RAG._chunk_text 3 1 "A b  C d e" "http://example.org" = Ok chunks
    /\ chunk ∈ chunks
    /\ word_count chunk = Some (VInt 3)
    /\ PyList.len (Text.split (DocumentChunk.content chunk)) = 3.
Proof.
  eexists _, (chunk_at (Text.split "A b  C d e") 3 "http://example.org" 0 0).
  assert (Hchunks : RAG._chunk_text 3 1 "A b  C d e" "http://example.org"
                    = Ok (chunks_from (Text.split "A b  C d e") 3
                            "http://example.org" 0 [0; 2; 4]))
    by reflexivity.
  assert (Hin : chunk_at (Text.split "A b  C d e") 3 "http://example.org" 0 0
                ∈ chunks_from (Text.split "A b  C d e") 3 "http://example.org" 0
                    [0; 2; 4])
    by (apply elem_of_cons; now left).
  destruct (chunk_word_count_consistent 3 1 "A b  C d e" "http://example.org"
              _ _ Hchunks Hin) as [Hcount _].
  split; [exact Hchunks |]. split; [exact Hin |].
  split; [exact Hcount | reflexivity].
Defined.

(** ** Indexing appends *)

Lemma index_loop_appends {Vec} (self : RAG.ImprovedRAGAgent Vec)
    (documents : list ScrapedContent.t) :
  forall new_chunks result,
    RAG.index_loop self documents new_chunks = Ok result ->
    exists more, result = new_chunks ++ more.
Proof.
  induction documents as [| doc rest IH]; intros new_chunks result;
    cbn [RAG.index_loop].
  - intros [= <-]. exists []. now rewrite app_nil_r.
  - destruct (RAG.worth_indexing doc); [| apply IH].
    destruct (RAG._chunk_text _ _ _ _) as [chunks | e]; [| discriminate].
    cbn [Py.bind]. intros [more ->]%IH. exists (chunks ++ more).
    now rewrite app_assoc.
Qed.

Lemma index_loop_nothing {Vec} (self : RAG.ImprovedRAGAgent Vec)
    (documents : list ScrapedContent.t) (new_chunks : list DocumentChunk.t) :
  existsb RAG.worth_indexing documents = false ->
  RAG.index_loop self documents new_chunks = Ok new_chunks.
Proof.
  induction documents as [| doc rest IH]; cbn [RAG.index_loop existsb];
    [reflexivity |].
  intros [Hdoc Hrest]%orb_false_iff. rewrite Hdoc. now apply IH.
Qed.

Section Appending.

Variable Vec : Type.
Variable encode : list string -> PyResult (list Vec).
Variable normalize_L2 : Vec -> Vec.
Variable step_error : RAG.Step -> list Vec -> option PyExn.

(** X4. [index_documents] only appends: when it returns, the chunks stored
    before are an initial segment of the chunks stored after, the rows of the
    embedding matrix stored before are an initial segment of the rows stored
    after, and the configuration is the same. A batch with no document worth
    indexing (failed, empty, or at most 100 characters once stripped) leaves
    the agent exactly as it was, whatever the advance step. *)
Theorem index_documents_appends :
  forall (self self' : RAG.ImprovedRAGAgent Vec) (documents : list ScrapedContent.t),
    (RAG.index_documents encode normalize_L2 step_error self documents = (self', Ok tt) ->
     (exists new_chunks,
         RAG.document_chunks self' = RAG.document_chunks self ++ new_chunks)
     /\ (forall rows, RAG.embeddings self = Some rows ->
                      exists more, RAG.embeddings self' = Some (rows ++ more))
     /\ RAG.chunk_size self' = RAG.chunk_size self
     /\ RAG.chunk_overlap self' = RAG.chunk_overlap self
     /\ RAG.use_embeddings self' = RAG.use_embeddings self
     /\ RAG.model self' = RAG.model self)
    /\ (existsb RAG.worth_indexing documents = false ->
        RAG.index_documents encode normalize_L2 step_error self documents
        = (self, Ok tt)).
Proof.
  intros self self' documents. split.
  - unfold RAG.index_documents.
    destruct (RAG.index_loop self documents []) as [new_chunks | e]; [| discriminate].
    destruct (RAG.use_embeddings self && RAG.model self
              && negb (PyList.len new_chunks =? 0)).
    + destruct (encode (map DocumentChunk.content new_chunks))
        as [new_embeddings | e]; cbn [Py.bind]; [| discriminate].
      destruct (RAG.vstack step_error (RAG.embeddings self) new_embeddings)
        as [embeddings' | e] eqn:Hstack; [| discriminate].
      destruct (step_error RAG.IndexFlatIP embeddings'); [discriminate |].
      destruct (step_error RAG.IndexAdd embeddings'); [discriminate |].
      intros [= <-]. cbn. split; [now exists new_chunks |].
      split; [| repeat split].
      intros rows Hrows. rewrite Hrows in Hstack. unfold RAG.vstack in Hstack.
      destruct (step_error RAG.Vstack (rows ++ new_embeddings)); [discriminate |].
      injection Hstack as <-. now exists new_embeddings.
    + intros [= <-]. cbn. split; [now exists new_chunks |].
      split; [| repeat split].
      intros rows ->. exists []. now rewrite app_nil_r.
  - intros Hnone. unfold RAG.index_documents.
    rewrite index_loop_nothing by exact Hnone.
    change (PyList.len [] =? 0) with true. rewrite !andb_false_r, app_nil_r.
    now destruct self.
Qed.

End Appending.

Lemma index_documents_appends_witness :
  existsb RAG.worth_indexing [page 10] = false
  /\ RAG.index_documents demo_encode id no_refusal stuck_agent [page 10]
     = (stuck_agent, Ok tt)
  /\ (exists self' new_chunks,
        RAG.index_documents demo_encode id no_refusal (demo_agent true) [page 700]
        = (self', Ok tt)
        /\ RAG.document_chunks self'
           = RAG.document_chunks (demo_agent true) ++ new_chunks
        /\ length new_chunks = 2%nat).
Proof.
  assert (Hnone : existsb RAG.worth_indexing [page 10] = false)
    by (vm_compute; reflexivity).
  split; [exact Hnone |]. split.
  - apply (proj2 (index_documents_appends Z demo_encode id no_refusal stuck_agent
                    stuck_agent [page 10])).
    exact Hnone.
  - destruct (RAG.index_documents demo_encode id no_refusal (demo_agent true) [page 700])
      as [self' [[] | e]] eqn:Hcall; [| vm_compute in Hcall; discriminate].
    destruct (proj1 (index_documents_appends Z demo_encode id no_refusal
                       (demo_agent true) self' [page 700]) Hcall)
      as ([new_chunks Hnew] & _).
    exists self', new_chunks. split; [reflexivity |]. split; [exact Hnew |].
    vm_compute in Hcall. injection Hcall as <-.
    cbn [RAG.document_chunks demo_agent app] in Hnew. subst new_chunks.
    reflexivity.
Defined.

(** ** Bounds of the keyword similarity *)

Lemma fraction_bounds (i u : Z) :
  0 <= i <= u -> 0 < u ->
  (0 <= Qred (inject_Z i / inject_Z u) <= 1)%Q
  /\ ((0 < Qred (inject_Z i / inject_Z u))%Q <-> 0 < i).
Proof.
  intros Hi Hu. destruct u as [| p | p]; try lia.
  rewrite !Qred_correct, <- !Qmake_Qdiv.
  unfold Qle, Qlt. cbn [Qnum Qden]. lia.
Qed.

Lemma jaccard_bounds (query_words chunk_words : gset string) :
  (0 <= jaccard query_words chunk_words <= 1)%Q
  /\ ((0 < jaccard query_words chunk_words)%Q
      <-> exists w, w ∈ query_words /\ w ∈ chunk_words).
Proof.
  unfold jaccard. destruct (decide (query_words = ∅)) as [-> | Hne].
  - split; [split; discriminate |]. split; [discriminate |].
    intros (w & Hw & _). set_solver.
  - assert (Hle : (size (query_words ∩ chunk_words)
                   <= size (query_words ∪ chunk_words))%nat)
      by (apply subseteq_size; set_solver).
    assert (Hpos : (0 < size (query_words ∪ chunk_words))%nat).
    { destruct (size (query_words ∪ chunk_words)) eqn:Hsize; [| lia].
      apply size_empty_iff in Hsize. exfalso. apply Hne.
      apply leibniz_equiv. set_solver. }
    destruct (fraction_bounds (Z.of_nat (size (query_words ∩ chunk_words)))
                (Z.of_nat (size (query_words ∪ chunk_words)))) as [Hbounds Hiff];
      [lia | lia |].
    split; [exact Hbounds |]. rewrite Hiff. split.
    + intros Hsome.
      destruct (set_choose_L (query_words ∩ chunk_words)) as [w Hw].
      { intros Hempty. rewrite Hempty, size_empty in Hsome. lia. }
      exists w. set_solver.
    + intros (w & Hq & Hc).
      assert (size (query_words ∩ chunk_words) <> 0%nat); [| lia].
      intros Hzero%size_empty_iff. set_solver.
Qed.

(** X5. The keyword similarity of a query and a chunk is a number between 0
    and 1, and it is positive exactly when the preprocessed query and the
    chunk content share a word. *)
Theorem keyword_similarity_bounds :
  forall (query : string) (chunk : DocumentChunk.t),
    exists score,
      RAG._calculate_keyword_similarity query chunk = Ok score
      /\ (0 <= score <= 1)%Q
      /\ ((0 < score)%Q
          <-> exists w,
                w ∈ Text.split (RAG._preprocess_text query)
                /\ w ∈ Text.split (DocumentChunk.content chunk)).
Proof.
  intros query chunk. rewrite keyword_similarity_value. eexists.
  split; [reflexivity |].
  destruct (jaccard_bounds
              (RAG.word_set (Text.split (RAG._preprocess_text query)))
              (RAG.word_set (Text.split (DocumentChunk.content chunk))))
    as [Hbounds Hiff].
  split; [exact Hbounds |]. rewrite Hiff. unfold RAG.word_set.
  split; intros (w & Hq & Hc); exists w; set_solver.
Qed.

(** ** What a query leaves in the store *)

Lemma nth_error_lookup {A} (l : list A) (n : nat) : nth_error l n = l !! n.
Proof.
  revert n. induction l as [| x l IH]; intros [| n]; cbn; try reflexivity.
  apply IH.
Qed.

Lemma getitem_lookup {A} (l : list A) (idx : Z) (x : A) :
  PyList.getitem l idx = Ok x ->
  l !! Z.to_nat (if idx <? 0 then idx + PyList.len l else idx) = Some x.
Proof.
  unfold PyList.getitem.
  destruct ((0 <=? _) && (_ <? PyList.len l)); [| discriminate].
  rewrite nth_error_lookup.
  destruct (l !! _) as [y |]; [| discriminate]. now intros [= ->].
Qed.

Lemma map_insert_same {A B} (f : A -> B) (l : list A) (i : nat) (x y : A) :
  l !! i = Some x -> f y = f x -> map f (<[i:=y]> l) = map f l.
Proof.
  intros Hx Hf. change (f <$> <[i:=y]> l = f <$> l).
  rewrite list_fmap_insert, Hf. apply list_insert_id.
  now rewrite list_lookup_fmap, Hx.
Qed.

Lemma keyword_loop_raw (query : string) (chunks : list DocumentChunk.t) :
  RAG.keyword_loop query chunks
  = Ok (map (fun chunk =>
               if PyList.Qgtb (raw_score query chunk) 0
               then RAG.set_score chunk (raw_score query chunk) else chunk) chunks,
        map (fun chunk => (raw_score query chunk,
                           RAG.set_score chunk (raw_score query chunk)))
          (List.filter (fun chunk => PyList.Qgtb (raw_score query chunk) 0) chunks)).
Proof.
  induction chunks as [| chunk rest IH]; [reflexivity |].
  cbn [RAG.keyword_loop map List.filter].
  rewrite keyword_similarity_value, IH. cbn [Py.bind fst snd].
  fold (normalized_words query). fold (raw_score query chunk).
  destruct (PyList.Qgtb (raw_score query chunk) 0); reflexivity.
Qed.

Lemma keyword_loop_store (query : string) (chunks : list DocumentChunk.t) :
  exists store scored_chunks,
    RAG.keyword_loop query chunks = Ok (store, scored_chunks)
    /\ map chunk_text store = map chunk_text chunks
    /\ Forall (fun entry => snd entry ∈ store
                            /\ (0 < RAG.get_score (snd entry) <= 1)%Q
                            /\ RAG.get_score (snd entry) = fst entry)
         scored_chunks.
Proof.
  rewrite keyword_loop_raw. eexists _, _. split; [reflexivity |]. split.
  - rewrite map_map. apply map_ext. intros chunk.
    now destruct (PyList.Qgtb (raw_score query chunk) 0).
  - apply Forall_forall.
    intros entry [chunk [<- [Hin Hgt]%filter_In]]%list_elem_of_In%in_map_iff.
    cbn [fst snd].
    assert (Hscore : RAG.get_score (RAG.set_score chunk (raw_score query chunk))
                     = raw_score query chunk).
    { unfold RAG.get_score, RAG.set_score. cbn [DocumentChunk.metadata].
      now rewrite lookup_insert_eq. }
    rewrite Hscore. split; [| split; [| reflexivity]].
    + apply list_elem_of_In, in_map_iff. exists chunk. rewrite Hgt. now split.
    + split; [| apply jaccard_bounds].
      unfold PyList.Qgtb in Hgt. apply negb_true_iff in Hgt.
      apply Qnot_le_lt. intros Hle%Qle_bool_iff. congruence.
Qed.

Lemma embedding_loop_store (query : string) (hits : list (Q * Z)) :
  forall store candidates result,
    RAG.embedding_loop query hits store candidates = Ok result ->
    map chunk_text (fst result) = map chunk_text store.
Proof.
  induction hits as [| [score idx] rest IH]; intros store candidates result;
    cbn [RAG.embedding_loop].
  - now intros [= <-].
  - destruct (PyList.getitem store idx) as [chunk |] eqn:Hitem; [| discriminate].
    cbn [Py.bind]. rewrite keyword_similarity_value. cbn [Py.bind].
    intros Hrest%IH. rewrite Hrest.
    eapply map_insert_same; [apply getitem_lookup; exact Hitem | reflexivity].
Qed.

Lemma same_texts_member (store store' : list DocumentChunk.t) (chunk' : DocumentChunk.t) :
  map chunk_text store' = map chunk_text store ->
  chunk' ∈ store' ->
  exists chunk, chunk ∈ store /\ chunk_text chunk = chunk_text chunk'.
Proof.
  intros Hsame [i Hi]%list_elem_of_lookup.
  assert (Hi' : map chunk_text store !! i = Some (chunk_text chunk'))
    by now rewrite <- Hsame, map_lookup, Hi.
  rewrite map_lookup in Hi'. destruct (store !! i) as [chunk |] eqn:Hchunk;
    [| discriminate].
  exists chunk. split; [eapply list_elem_of_lookup_2; exact Hchunk |].
  cbn in Hi'. congruence.
Qed.

Section QueryStore.

Variable Vec : Type.
Variable encode : list string -> PyResult (list Vec).
Variable normalize_L2 : Vec -> Vec.
Variable index_search : list Vec -> list Vec -> Z -> PyResult (list (Q * Z)).

Lemma query_store (self self' : RAG.ImprovedRAGAgent Vec) (query : string)
    (top_k : Z) (retrieval_time generation_time : Q) (result : RAGResult.t) :
  RAG.query encode normalize_L2 index_search self query top_k
    retrieval_time generation_time = Ok (self', result) ->
  map chunk_text (RAG.document_chunks self')
  = map chunk_text (RAG.document_chunks self)
  /\ Forall (fun chunk => chunk ∈ RAG.document_chunks self')
       (RAGResult.relevant_chunks result).
Proof.
  unfold RAG.query.
  destruct (RAG.document_chunks self) as [| first others] eqn:Hstored.
  { intros [= <- <-]. rewrite Hstored. split; [reflexivity | constructor]. }
  set (keyword :=
         Py.bind (RAG.keyword_loop query (first :: others)) _).
  assert (Hkeyword :
            forall found, keyword = Ok found ->
              map chunk_text (fst found) = map chunk_text (first :: others)
              /\ Forall (fun chunk => chunk ∈ fst found) (snd found)).
  { subst keyword. intros found.
    destruct (keyword_loop_store query (first :: others))
      as (store & scored_chunks & -> & Hsame & Hscored).
    cbn [Py.bind fst snd]. intros [= <-]. cbn [fst snd].
    split; [exact Hsame |].
    destruct (prefix_take
                (PyList.sort_desc (fun y x => PyList.Qgtb (fst y) (fst x))
                   scored_chunks) top_k) as [k ->].
    apply Forall_forall.
    intros chunk [entry [<- Hentry]]%list_elem_of_In%in_map_iff.
    rewrite Forall_forall in Hscored. apply Hscored.
    rewrite <- (sort_desc_perm (fun y x => PyList.Qgtb (fst y) (fst x))
                  scored_chunks).
    eapply elem_of_sublist; [apply list_elem_of_In, Hentry | apply sublist_take]. }
  assert (Hdone :
            forall store relevant,
              map chunk_text store = map chunk_text (first :: others)
              /\ Forall (fun chunk => chunk ∈ store) relevant ->
              forall answer : string * Q,
                Ok (RAG.mkAgent (RAG.chunk_size self) (RAG.chunk_overlap self)
                      store (RAG.use_embeddings self) (RAG.model self)
                      (RAG.index self) (RAG.embeddings self),
                    RAGResult.mk query relevant (fst answer) (snd answer)
                      (RAG.source_list relevant) retrieval_time generation_time)
                = Ok (self', result) ->
                map chunk_text (RAG.document_chunks self')
                = map chunk_text (first :: others)
                /\ Forall (fun chunk => chunk ∈ RAG.document_chunks self')
                     (RAGResult.relevant_chunks result)).
  { intros store relevant [Hsame Hin] answer [= <- <-]. now split. }
  destruct (RAG.use_embeddings self); [destruct (RAG.index self) as [rows |] |].
  - destruct (encode [RAG._preprocess_text query]) as [encoded | e];
      [| discriminate].
    cbn [Py.bind].
    destruct (index_search rows _ _) as [hits | e]; [| discriminate].
    cbn [Py.bind].
    destruct (RAG.embedding_loop query hits (first :: others) []) as [r | e]
      eqn:Hloop; [| discriminate].
    cbn [Py.bind fst snd]. apply Hdone.
    split; [eapply embedding_loop_store; exact Hloop |].
    apply Forall_forall. intros chunk (entry & _ & Hentry)%list_elem_of_omap.
    eapply list_elem_of_lookup_2. exact Hentry.
  - fold keyword. destruct keyword as [[store relevant] | e] eqn:Hfound;
      [| discriminate].
    cbn [Py.bind fst snd]. apply Hdone. now apply (Hkeyword (store, relevant)).
  - fold keyword. destruct keyword as [[store relevant] | e] eqn:Hfound;
      [| discriminate].
    cbn [Py.bind fst snd]. apply Hdone. now apply (Hkeyword (store, relevant)).
Qed.

(** X6. A query that returns changes nothing of the stored chunks but their
    metadata: content, source URL and number of every chunk, and the number
    of chunks, are as before, in keyword mode and in embedding mode. The
    relevant chunks it returns are chunks of the store, and every source it
    reports is the URL of a stored chunk. *)
Theorem query_keeps_texts :
  forall (self self' : RAG.ImprovedRAGAgent Vec) (query : string) (top_k : Z)
         (retrieval_time generation_time : Q) (result : RAGResult.t),
    RAG.query encode normalize_L2 index_search self query top_k
      retrieval_time generation_time = Ok (self', result) ->
    map chunk_text (RAG.document_chunks self')
    = map chunk_text (RAG.document_chunks self)
    /\ Forall (fun chunk => chunk ∈ RAG.document_chunks self')
         (RAGResult.relevant_chunks result)
    /\ (forall url, url ∈ RAGResult.sources result ->
                    exists chunk, chunk ∈ RAG.document_chunks self
                                  /\ DocumentChunk.source_url chunk = url).
Proof.
  intros self self' query top_k retrieval_time generation_time result Hquery.
  destruct (query_store self self' query top_k retrieval_time generation_time
              result Hquery) as [Hsame Hin].
  split; [exact Hsame |]. split; [exact Hin |].
  intros url Hurl.
  assert (Hsources : RAGResult.sources result
                     = RAG.source_list (RAGResult.relevant_chunks result)).
  { revert Hquery. unfold RAG.query.
    destruct (RAG.document_chunks self); [now intros [= _ <-] |].
    match goal with
    | |- Py.bind ?found _ = _ -> _ => destruct found as [[store relevant] | e]
    end; [| discriminate].
    cbn [Py.bind]. now intros [= _ <-]. }
  rewrite Hsources in Hurl. unfold RAG.source_list in Hurl.
  apply elem_of_elements, elem_of_list_to_set in Hurl.
  apply list_elem_of_In, in_map_iff in Hurl as (chunk' & <- & Hchunk').
  rewrite Forall_forall in Hin.
  destruct (same_texts_member _ _ chunk' Hsame (Hin _ (proj2 (list_elem_of_In _ _) Hchunk')))
    as (chunk & Hchunk & Htext).
  exists chunk. split; [exact Hchunk |]. now injection Htext.
Qed.

End QueryStore.

Lemma query_keeps_texts_witness :
  let self := RAG.index_all demo_encode id no_refusal (demo_agent false)
                [[other_page; ai_page]] in
  exists self' result,
    RAG.query demo_encode id demo_search self "Artificial intelligence" 5
      (1 # 4)%Q (1 # 8)%Q = Ok (self', result)
    /\ map chunk_text (RAG.document_chunks self')
       = map chunk_text (RAG.document_chunks self)
    /\ RAGResult.sources result = ["http://example.org/agi"].
Proof.
  intros self.
  destruct (RAG.query demo_encode id demo_search self "Artificial intelligence" 5
              (1 # 4)%Q (1 # 8)%Q) as [[self' result] | e] eqn:Hquery;
    [| vm_compute in Hquery; discriminate].
  destruct (query_keeps_texts Z demo_encode id demo_search self self'
              "Artificial intelligence" 5 (1 # 4)%Q (1 # 8)%Q result Hquery)
    as (Hsame & _ & _).
  exists self', result. split; [reflexivity |]. split; [exact Hsame |].
  vm_compute in Hquery. injection Hquery as _ <-. reflexivity.
Defined.

(** ** Confidence in keyword mode *)

Lemma sum_bounds (xs : list Q) :
  Forall (fun x => (0 < x <= 1)%Q) xs ->
  (0 <= fold_right Qplus 0 xs <= inject_Z (PyList.len xs))%Q
  /\ (xs <> [] -> (0 < fold_right Qplus 0 xs)%Q).
Proof.
  induction 1 as [| x xs [Hpos Hone] Hxs [[Hlow Hhigh] _]]; cbn [fold_right].
  - split; [split; discriminate | congruence].
  - assert (Hlen : (inject_Z (PyList.len (x :: xs))
                    == 1 + inject_Z (PyList.len xs))%Q).
    { unfold PyList.len. cbn [length]. rewrite Nat2Z.inj_succ, <- Z.add_1_l.
      rewrite inject_Z_plus. reflexivity. }
    assert (Hsum : (0 < x + fold_right Qplus 0 xs)%Q).
    { apply (Qlt_le_trans _ (x + 0)%Q); [now rewrite Qplus_0_r |].
      apply Qplus_le_compat; [apply Qle_refl | exact Hlow]. }
    split; [split; [now apply Qlt_le_weak |] | intros _; exact Hsum].
    rewrite Hlen. now apply Qplus_le_compat.
Qed.

Lemma mean_bounds (xs : list Q) :
  xs <> [] -> Forall (fun x => (0 < x <= 1)%Q) xs -> (0 < RAG.mean xs <= 1)%Q.
Proof.
  intros Hne Hxs. destruct (sum_bounds xs Hxs) as [[_ Hhigh] Hpos].
  specialize (Hpos Hne). unfold RAG.mean. rewrite Qred_correct.
  assert (Hlen : (0 < inject_Z (PyList.len xs))%Q).
  { change 0%Q with (inject_Z 0). rewrite <- Zlt_Qlt. unfold PyList.len.
    destruct xs; [congruence | cbn [length]; lia]. }
  split.
  - apply Qlt_shift_div_l; [exact Hlen |]. now rewrite Qmult_0_l.
  - apply Qle_shift_div_r; [exact Hlen |]. now rewrite Qmult_1_l.
Qed.

Section KeywordConfidence.

Variable Vec : Type.
Variable encode : list string -> PyResult (list Vec).
Variable normalize_L2 : Vec -> Vec.
Variable index_search : list Vec -> list Vec -> Z -> PyResult (list (Q * Z)).

(** X7. With embeddings off, [query] never raises, for any stored chunks and
    any [top_k], negative ones included. Every chunk it returns carries a
    score in (0, 1], and the confidence of the result is 0 when no chunk is
    returned and lies in (0, 1] otherwise. *)
Theorem keyword_mode_confidence :
  forall (self : RAG.ImprovedRAGAgent Vec) (query : string) (top_k : Z)
         (retrieval_time generation_time : Q),
    RAG.use_embeddings self = false ->
    exists self' result,
      RAG.query encode normalize_L2 index_search self query top_k
        retrieval_time generation_time = Ok (self', result)
      /\ Forall (fun chunk => (0 < RAG.get_score chunk <= 1)%Q)
           (RAGResult.relevant_chunks result)
      /\ (RAGResult.relevant_chunks result = [] ->
          RAGResult.confidence_score result = 0%Q)
      /\ (RAGResult.relevant_chunks result <> [] ->
          (0 < RAGResult.confidence_score result <= 1)%Q).
Proof.
  intros self query top_k retrieval_time generation_time Huse.
  unfold RAG.query.
  destruct (RAG.document_chunks self) as [| first others].
  { eexists _, _. split; [reflexivity |]. cbn.
    split; [constructor |]. split; [reflexivity | congruence]. }
  rewrite Huse.
  destruct (keyword_loop_store query (first :: others))
    as (store & scored_chunks & -> & _ & Hscored).
  cbn [Py.bind fst snd].
  set (relevant := map snd (PyList.prefix _ top_k)).
  assert (Hrelevant : Forall (fun chunk => (0 < RAG.get_score chunk <= 1)%Q)
                        relevant).
  { subst relevant.
    destruct (prefix_take
                (PyList.sort_desc (fun y x => PyList.Qgtb (fst y) (fst x))
                   scored_chunks) top_k) as [k ->].
    apply Forall_forall.
    intros chunk [entry [<- Hentry]]%list_elem_of_In%in_map_iff.
    rewrite Forall_forall in Hscored. apply Hscored.
    rewrite <- (sort_desc_perm (fun y x => PyList.Qgtb (fst y) (fst x))
                  scored_chunks).
    eapply elem_of_sublist; [apply list_elem_of_In, Hentry | apply sublist_take]. }
  eexists _, _. split; [reflexivity |].
  cbn [RAGResult.relevant_chunks RAGResult.confidence_score].
  split; [exact Hrelevant |]. unfold RAG.generate.
  destruct relevant as [| chunk rest] eqn:Hlist.
  - split; [reflexivity | congruence].
  - cbn [snd]. split; [discriminate |]. intros _.
    apply mean_bounds; [discriminate |].
    apply Forall_forall. intros x [c [<- Hc]]%list_elem_of_In%in_map_iff.
    rewrite Forall_forall in Hrelevant. now apply Hrelevant, list_elem_of_In.
Qed.

End KeywordConfidence.

Lemma keyword_mode_confidence_witness :
  let self := RAG.index_all demo_encode id no_refusal (demo_agent false)
                [[other_page; ai_page]] in
  RAG.use_embeddings self = false
  /\ exists self' result,
       RAG.query demo_encode id demo_search self "Artificial intelligence" (-1)
         (1 # 4)%Q (1 # 8)%Q = Ok (self', result)
       /\ RAGResult.relevant_chunks result = []
       /\ RAGResult.confidence_score result = 0%Q.
Proof.
  intros self. split; [reflexivity |].
  destruct (keyword_mode_confidence Z demo_encode id demo_search self
              "Artificial intelligence" (-1) (1 # 4)%Q (1 # 8)%Q eq_refl)
    as (self' & result & Hquery & _ & Hnone & _).
  exists self', result. split; [exact Hquery |].
  assert (Hempty : RAGResult.relevant_chunks result = []).
  { vm_compute in Hquery. injection Hquery as _ <-. reflexivity. }
  split; [exact Hempty | exact (Hnone Hempty)].
Defined.

(** ** Normal form of preprocessed and cleaned texts *)

Lemma lstrip_starts_clean (s : string) : starts_clean (Text.lstrip s) = true.
Proof.
  induction s as [| c s IH]; [reflexivity |]. cbn [Text.lstrip].
  destruct (Text.isspace c) eqn:Hc; [exact IH |]. cbn. now rewrite Hc.
Qed.

Lemma lstrip_id (s : string) : starts_clean s = true -> Text.lstrip s = s.
Proof.
  destruct s as [| c s]; [reflexivity |]. cbn.
  now intros ->%negb_true_iff.
Qed.

Lemma rstrip_starts_clean (s : string) :
  starts_clean s = true -> starts_clean (Text.rstrip s) = true.
Proof.
  destruct s as [| c s]; [reflexivity |]. cbn [starts_clean Text.rstrip].
  intros Hc. destruct (Text.rstrip s); [| exact Hc].
  apply negb_true_iff in Hc. rewrite Hc. cbn. now rewrite Hc.
Qed.

Lemma rstrip_idem (s : string) : Text.rstrip (Text.rstrip s) = Text.rstrip s.
Proof.
  induction s as [| c s IH]; [reflexivity |]. cbn [Text.rstrip].
  destruct (Text.rstrip s) as [| d r] eqn:Hr.
  - destruct (Text.isspace c) eqn:Hc; [reflexivity |]. cbn. now rewrite Hc.
  - cbn [Text.rstrip]. cbn [Text.rstrip] in IH. now rewrite IH.
Qed.

Lemma strip_idem (s : string) : Text.strip (Text.strip s) = Text.strip s.
Proof.
  unfold Text.strip.
  rewrite (lstrip_id (Text.rstrip (Text.lstrip s)))
    by apply rstrip_starts_clean, lstrip_starts_clean.
  apply rstrip_idem.
Qed.

Section AllChars.

Variable P : ascii -> bool.

Lemma all_chars_lstrip (s : string) :
  all_chars P s = true -> all_chars P (Text.lstrip s) = true.
Proof.
  induction s as [| c s IH]; [reflexivity |]. cbn [Text.lstrip all_chars].
  intros [Hc Hs]%andb_true_iff.
  destruct (Text.isspace c); [now apply IH |]. cbn [all_chars].
  now rewrite Hc, Hs.
Qed.

Lemma all_chars_rstrip (s : string) :
  all_chars P s = true -> all_chars P (Text.rstrip s) = true.
Proof.
  induction s as [| c s IH]; [reflexivity |]. cbn [Text.rstrip all_chars].
  intros [Hc Hs]%andb_true_iff. specialize (IH Hs).
  destruct (Text.rstrip s) as [| d r].
  - destruct (Text.isspace c); [reflexivity |]. cbn [all_chars]. now rewrite Hc.
  - cbn [all_chars] in *. now rewrite Hc, IH.
Qed.

Lemma all_chars_strip (s : string) :
  all_chars P s = true -> all_chars P (Text.strip s) = true.
Proof. intros Hs. now apply all_chars_rstrip, all_chars_lstrip. Qed.

Lemma all_chars_sub_spaces (s : string) :
  P " " = true -> all_chars P s = true -> all_chars P (Text.sub_spaces s) = true.
Proof.
  intros Hblank. induction s as [| c s IH]; [reflexivity |].
  cbn [Text.sub_spaces all_chars]. intros [Hc Hs]%andb_true_iff.
  specialize (IH Hs). destruct (Text.isspace c).
  - destruct s as [| c' s']; [cbn; now rewrite Hblank |].
    destruct (Text.isspace c'); [exact IH |]. cbn [all_chars].
    now rewrite Hblank, IH.
  - cbn [all_chars]. now rewrite Hc, IH.
Qed.

Lemma all_chars_squeeze_blanks (s : string) :
  all_chars P s = true -> all_chars P (Scraper.squeeze_blanks s) = true.
Proof.
  induction s as [| c s IH]; [reflexivity |].
  cbn [Scraper.squeeze_blanks all_chars]. intros [Hc Hs]%andb_true_iff.
  specialize (IH Hs). destruct (Ascii.eqb c " ").
  - destruct s as [| c' s']; [cbn; now rewrite Hc |].
    destruct (Ascii.eqb c' " "); [exact IH |]. cbn [all_chars].
    now rewrite Hc, IH.
  - cbn [all_chars]. now rewrite Hc, IH.
Qed.

End AllChars.

Lemma all_chars_lower (s : string) : all_chars is_lowered (Text.lower s) = true.
Proof.
  induction s as [| c s IH]; [reflexivity |]. cbn [Text.lower all_chars].
  rewrite IH, andb_true_r. unfold is_lowered.
  rewrite lower_char_idem. apply Ascii.eqb_refl.
Qed.

Lemma all_chars_plain_space (s : string) :
  all_chars plain_space_only (Text.sub_spaces s) = true.
Proof.
  induction s as [| c s IH]; [reflexivity |]. cbn [Text.sub_spaces].
  destruct (Text.isspace c) eqn:Hc.
  - destruct s as [| c' s']; [reflexivity |].
    destruct (Text.isspace c'); [exact IH |]. cbn [all_chars].
    now rewrite IH.
  - cbn [all_chars]. rewrite IH, andb_true_r.
    unfold plain_space_only. now rewrite Hc.
Qed.

Lemma all_chars_keep_allowed (s : string) :
  all_chars is_allowed (Scraper.keep_allowed s) = true.
Proof.
  induction s as [| c s IH]; [reflexivity |]. cbn [Scraper.keep_allowed].
  fold (is_allowed c). destruct (is_allowed c) eqn:Hc; [| exact IH].
  cbn [all_chars]. now rewrite Hc, IH.
Qed.

Lemma clean_text_stripped (text : string) :
  Text.strip (Scraper._clean_text text) = Scraper._clean_text text.
Proof. unfold Scraper._clean_text. apply strip_idem. Qed.

(** X8. The text that [_preprocess_text] returns has the lower-cased words of
    its argument as its words, begins and ends with no whitespace, holds no
    character that [str.lower] would change, and no whitespace other than the
    plain space. *)
Theorem preprocess_text_normal_form :
  forall text : string,
    Text.split (RAG._preprocess_text text) = map Text.lower (Text.split text)
    /\ Text.strip (RAG._preprocess_text text) = RAG._preprocess_text text
    /\ all_chars is_lowered (RAG._preprocess_text text) = true
    /\ all_chars plain_space_only (RAG._preprocess_text text) = true.
Proof.
  intros text. split; [apply split_preprocess |].
  unfold RAG._preprocess_text. split; [apply strip_idem |]. split.
  - apply all_chars_strip, all_chars_sub_spaces; [reflexivity |].
    apply all_chars_lower.
  - apply all_chars_strip, all_chars_plain_space.
Qed.

(** X9. The text that [_clean_text] returns begins and ends with no
    whitespace, and every character of it is a word character, whitespace, or
    one of the punctuation marks of the allow-list. *)
Theorem clean_text_normal_form :
  forall text : string,
    Text.strip (Scraper._clean_text text) = Scraper._clean_text text
    /\ all_chars is_allowed (Scraper._clean_text text) = true.
Proof.
  intros text. unfold Scraper._clean_text. split; [apply strip_idem |].
  apply all_chars_strip, all_chars_squeeze_blanks, all_chars_keep_allowed.
Qed.

(** ** Records and traces of the scraper *)

Lemma requests_app (t1 t2 : list Scraper.Event) :
  requests (t1 ++ t2) = (requests t1 + requests t2)%nat.
Proof. unfold requests. now rewrite List.filter_app, length_app. Qed.

Lemma sleeps_app (t1 t2 : list Scraper.Event) :
  sleeps (t1 ++ t2) = sleeps t1 ++ sleeps t2.
Proof. unfold sleeps. apply flat_map_app. Qed.

(** [range(n)] *)
Lemma range_unit (n : Z) :
  PyList.range 0 n 1 = Ok (map Z.of_nat (seq 0 (Z.to_nat n))).
Proof.
  unfold PyList.range, PyList.range_count. cbn [Z.eqb Z.ltb Z.compare].
  rewrite Z.sub_0_r, Z.div_1_r.
  replace (Z.to_nat (if 0 <? n then n - 1 + 1 else 0)) with (Z.to_nat n)
    by (destruct (Z.ltb_spec 0 n); lia).
  f_equal. apply map_ext. intros k. lia.
Qed.

Section ScraperRecords.

Variable SCRAPING_AVAILABLE : bool.
Variable bs4_imported : bool.
Variable session_get : string -> nat -> Scraper.Fetched.
Variable trafilatura_extract : string -> PyResult (option string).
Variable soup_title : string -> option (option string).
Variable main_content_text : string -> option string.
Variable datetime_now : Q.

Local Abbreviation try_attempt :=
  (Scraper.try_attempt SCRAPING_AVAILABLE bs4_imported session_get trafilatura_extract
     soup_title main_content_text datetime_now).
Local Abbreviation attempt_loop :=
  (Scraper.attempt_loop SCRAPING_AVAILABLE bs4_imported session_get trafilatura_extract
     soup_title main_content_text datetime_now).
Local Abbreviation scrape_url :=
  (Scraper.scrape_url SCRAPING_AVAILABLE bs4_imported session_get trafilatura_extract
     soup_title main_content_text datetime_now).

Lemma extract_with_soup_returned (url html : string) record :
  Scraper.extract_with_soup SCRAPING_AVAILABLE bs4_imported soup_title main_content_text
    datetime_now url html = Scraper.Returned record ->
  ScrapedContent.success record = true /\ labelled url record.
Proof.
  unfold Scraper.extract_with_soup.
  destruct (SCRAPING_AVAILABLE || bs4_imported); [| discriminate].
  destruct (Scraper.title_of soup_title html) as [title | e]; [| discriminate].
  intros [= <-]. unfold labelled, method_of.
  cbn [ScrapedContent.url ScrapedContent.success ScrapedContent.error_message
       ScrapedContent.metadata ScrapedContent.title].
  rewrite lookup_singleton_eq. repeat split; auto; discriminate.
Qed.

Lemma try_attempt_returned (url : string) (attempt : nat) record :
  try_attempt url attempt = Scraper.Returned record ->
  ScrapedContent.success record = true /\ labelled url record.
Proof.
  unfold Scraper.try_attempt.
  destruct (session_get url attempt) as [status text | e]; [| discriminate].
  destruct (status =? 200); [| discriminate].
  destruct text as [html | e]; [| discriminate].
  destruct SCRAPING_AVAILABLE eqn:Havail.
  - destruct (trafilatura_extract html) as [[[| c content'] |] | e];
      try discriminate;
      try (intros H; eapply extract_with_soup_returned;
           rewrite Havail; exact H).
    destruct (Scraper.title_of soup_title html) as [title | e]; [| discriminate].
    intros [= <-]. unfold labelled, method_of.
    cbn [ScrapedContent.url ScrapedContent.success ScrapedContent.error_message
         ScrapedContent.metadata ScrapedContent.title].
    rewrite lookup_singleton_eq. repeat split; auto; discriminate.
  - intros H. eapply extract_with_soup_returned. rewrite Havail. exact H.
Qed.

Lemma attempt_loop_outcome (self : Scraper.WebScraperAgent) (url : string)
    (attempts : list Z) :
  forall error_msg trace,
    let done := attempt_loop self url attempts error_msg trace in
    labelled url (fst done)
    /\ (requests (snd done) <= requests trace + length attempts)%nat
    /\ (ScrapedContent.success (fst done) = false ->
        requests (snd done) = (requests trace + length attempts)%nat)
    /\ (ScrapedContent.success (fst done) = true ->
        (requests trace + 1 <= requests (snd done))%nat)
    /\ (attempts = [] ->
        ScrapedContent.success (fst done) = false
        /\ ScrapedContent.error_message (fst done) = Some error_msg).
Proof.
  induction attempts as [| attempt rest IH]; intros error_msg trace done;
    subst done.
  - cbn [Scraper.attempt_loop fst snd length]. unfold labelled, method_of.
    cbn [ScrapedContent.url ScrapedContent.success ScrapedContent.error_message
         ScrapedContent.metadata ScrapedContent.title].
    rewrite lookup_empty.
    repeat split; auto; try discriminate; lia.
  - cbn [Scraper.attempt_loop length].
    destruct (try_attempt url (Z.to_nat attempt)) as [record | status | e] eqn:Htry.
    + destruct (try_attempt_returned _ _ _ Htry) as [Hok Hlabel].
      cbn [fst snd]. rewrite requests_app. cbn.
      split; [exact Hlabel |]. split; [lia |]. split; [congruence |].
      split; [intros _; lia | discriminate].
    + specialize (IH ("HTTP " ++ pretty status)%string (trace ++ [Scraper.Get url])).
      cbn zeta in IH. rewrite requests_app in IH. cbn in IH.
      destruct IH as (Hlabel & Hle & Hfail & Hok & _).
      split; [exact Hlabel |]. split; [lia |].
      split; [intros H; rewrite (Hfail H); lia |].
      split; [intros H; specialize (Hok H); lia | discriminate].
    + match goal with
      | |- context [attempt_loop self url rest ?msg ?tr] =>
          specialize (IH msg tr)
      end.
      cbn zeta in IH. rewrite !requests_app in IH.
      assert (Hnone : requests (if attempt <? Scraper.max_retries self - 1
                                then [Scraper.Sleep (inject_Z (2 ^ attempt))]
                                else []) = 0%nat)
        by (destruct (attempt <? Scraper.max_retries self - 1); reflexivity).
      rewrite Hnone in IH. change (requests [Scraper.Get url]) with 1%nat in IH.
      destruct IH as (Hlabel & Hle & Hfail & Hok & _).
      split; [exact Hlabel |]. split; [lia |].
      split; [intros H; rewrite (Hfail H); lia |].
      split; [intros H; specialize (Hok H); lia | discriminate].
Qed.

Lemma rate_limit_requests (self : Scraper.WebScraperAgent) (now now' : Q) :
  requests (fst (Scraper._rate_limit self now now')) = 0%nat.
Proof.
  unfold Scraper._rate_limit. cbn [fst].
  now destruct (PyList.Qltb _ _).
Qed.


(** X11. [scrape_url] sends at most [max_retries] requests (none when that is
    zero or negative): exactly that many when it returns a failed record, at
    least one when it returns a successful one. With [max_retries <= 0] it
    fails without any request, and its error message is the empty text. *)
Theorem scrape_url_request_count :
  forall (self : Scraper.WebScraperAgent) (url : string) (now now' : Q),
    let outcome := fst (scrape_url self url now now') in
    (requests (snd outcome) <= Z.to_nat (Scraper.max_retries self))%nat
    /\ (ScrapedContent.success (fst outcome) = false ->
        requests (snd outcome) = Z.to_nat (Scraper.max_retries self))
    /\ (ScrapedContent.success (fst outcome) = true ->
        (1 <= requests (snd outcome))%nat)
    /\ (Scraper.max_retries self <= 0 ->
        ScrapedContent.success (fst outcome) = false
        /\ ScrapedContent.error_message (fst outcome) = Some "").
Proof.
  intros self url now now' outcome. subst outcome.
  unfold Scraper.scrape_url. cbn [fst snd]. rewrite range_unit.
  pose proof (attempt_loop_outcome self url
                (map Z.of_nat (seq 0 (Z.to_nat (Scraper.max_retries self))))
                "" (fst (Scraper._rate_limit self now now')))
    as (_ & Hle & Hfail & Hok & Hnone).
  rewrite rate_limit_requests, length_map, length_seq in *.
  split; [exact Hle |]. split; [exact Hfail |]. split; [exact Hok |].
  intros Hzero. apply Hnone.
  replace (Z.to_nat (Scraper.max_retries self)) with 0%nat by lia. reflexivity.
Qed.

End ScraperRecords.


Lemma scrape_url_request_count_witness :
  let lazy := Scraper.__init__ 0 30 1%Q in
  let none :=
    fst (Scraper.scrape_url true true serves_page no_extract demo_title demo_main
           0%Q lazy "http://example.org" 5%Q 5%Q) in
  let failed :=
    fst (Scraper.scrape_url true true always_503 no_extract demo_title demo_main
           0%Q demo_scraper "http://example.org" 5%Q 5%Q) in
  Scraper.max_retries lazy <= 0
  /\ ScrapedContent.success (fst none) = false
  /\ ScrapedContent.error_message (fst none) = Some ""
  /\ requests (snd none) = 0%nat
  /\ ScrapedContent.success (fst failed) = false
  /\ requests (snd failed) = 3%nat.
Proof.
  intros lazy none failed.
  pose proof (scrape_url_request_count true true serves_page no_extract demo_title
                demo_main 0%Q lazy "http://example.org" 5%Q 5%Q)
    as (_ & Hcount & _ & Hlazy).
  pose proof (scrape_url_request_count true true always_503 no_extract demo_title
                demo_main 0%Q demo_scraper "http://example.org" 5%Q 5%Q)
    as (_ & Hfailed & _).
  assert (Hzero : Scraper.max_retries lazy <= 0) by (cbn; lia).
  destruct (Hlazy Hzero) as [Hfail Hmessage].
  split; [exact Hzero |]. split; [exact Hfail |]. split; [exact Hmessage |].
  split; [exact (Hcount Hfail) |]. split; [reflexivity |].
  exact (Hfailed eq_refl).
Defined.

(** ** Backoff *)



Lemma requests_repeat_get (url : string) (n : nat) :
  requests (repeat (Scraper.Get url) n) = n
  /\ sleeps (repeat (Scraper.Get url) n) = [].
Proof.
  induction n as [| n [IHr IHs]]; [now split |]. cbn [repeat]. split.
  - change (requests (Scraper.Get url :: repeat (Scraper.Get url) n))
      with (S (requests (repeat (Scraper.Get url) n))).
    now rewrite IHr.
  - exact IHs.
Qed.


Section Backoff.

Variable SCRAPING_AVAILABLE : bool.
Variable bs4_imported : bool.
Variable session_get : string -> nat -> Scraper.Fetched.
Variable trafilatura_extract : string -> PyResult (option string).
Variable soup_title : string -> option (option string).
Variable main_content_text : string -> option string.
Variable datetime_now : Q.

Local Abbreviation attempt_loop :=
  (Scraper.attempt_loop SCRAPING_AVAILABLE bs4_imported session_get trafilatura_extract
     soup_title main_content_text datetime_now).
Local Abbreviation scrape_url :=
  (Scraper.scrape_url SCRAPING_AVAILABLE bs4_imported session_get trafilatura_extract
     soup_title main_content_text datetime_now).



(** X13. When every attempt is answered with one status other than 200 and
    [max_retries] is at least 1, [scrape_url] makes [max_retries] requests
    with no backoff sleep between them, and returns a failed record whose
    message is "HTTP " followed by the status. *)
Theorem scrape_url_http_errors :
  forall (self : Scraper.WebScraperAgent) (url : string) (now now' : Q)
         (status : Z) (text : PyResult string),
    (forall n, session_get url n = Scraper.Response status text) ->
    status <> 200 ->
    1 <= Scraper.max_retries self ->
    let outcome := fst (scrape_url self url now now') in
    let limited := fst (Scraper._rate_limit self now now') in
    ScrapedContent.success (fst outcome) = false
    /\ ScrapedContent.error_message (fst outcome)
       = Some ("HTTP " ++ pretty status)%string
    /\ requests (snd outcome) = Z.to_nat (Scraper.max_retries self)
    /\ sleeps (snd outcome) = sleeps limited.
Proof.
  intros self url now now' status text Hget Hstatus Hretries outcome limited.
  subst outcome limited.
  unfold Scraper.scrape_url. cbn [fst snd]. rewrite range_unit.
  rewrite (attempt_loop_http_error SCRAPING_AVAILABLE bs4_imported session_get
             trafilatura_extract soup_title main_content_text datetime_now
             self url status text _ Hget Hstatus).
  cbn [fst snd ScrapedContent.success ScrapedContent.error_message].
  rewrite length_map, length_seq.
  set (n := Z.to_nat (Scraper.max_retries self)).
  split; [reflexivity |]. split.
  { assert (n <> 0)%nat as Hn by (subst n; lia).
    destruct n as [| n']; [congruence | reflexivity]. }
  rewrite requests_app, sleeps_app, rate_limit_requests.
  destruct (requests_repeat_get url n) as [-> ->].
  split; [reflexivity | now rewrite app_nil_r].
Qed.

End Backoff.


Lemma scrape_url_http_errors_witness :
  (forall n, always_503 "http://example.org/busy" n
             = Scraper.Response 503 (Ok "Service Unavailable"))
  /\ 503 <> 200
  /\ 1 <= Scraper.max_retries demo_scraper
  /\ (let outcome :=
        fst (Scraper.scrape_url true true always_503 no_extract demo_title demo_main
               7%Q demo_scraper "http://example.org/busy" 5%Q 6%Q) in
      requests (snd outcome) = 3%nat /\ sleeps (snd outcome) = []).
Proof.
  assert (Hget : forall n, always_503 "http://example.org/busy" n
                           = Scraper.Response 503 (Ok "Service Unavailable"))
    by (intros n; reflexivity).
  assert (Hstatus : 503 <> 200) by lia.
  assert (Hretries : 1 <= Scraper.max_retries demo_scraper) by (cbn; lia).
  split; [exact Hget |]. split; [exact Hstatus |]. split; [exact Hretries |].
  destruct (scrape_url_http_errors true true always_503 no_extract demo_title
              demo_main 7%Q demo_scraper "http://example.org/busy" 5%Q 6%Q
              503 (Ok "Service Unavailable") Hget Hstatus Hretries)
    as (_ & _ & Hrequests & Hsleeps).
  split; [exact Hrequests | exact Hsleeps].
Defined.

(** ** Counts, ranking and sources of the merged response *)

Lemma dedup_urls_complete (results : list SearchResult.t) :
  forall seen, url_set (dedup_urls seen results) ∪ seen = url_set results ∪ seen.
Proof.
  induction results as [| r rest IH]; intros seen; cbn [dedup_urls];
    [reflexivity |].
  rewrite !url_set_cons.
  destruct (decide (SearchResult.url r ∈ seen)) as [Hin | Hout].
  - rewrite IH. apply leibniz_equiv. set_solver.
  - rewrite url_set_cons.
    pose proof (IH ({[SearchResult.url r]} ∪ seen)) as Hrest.
    set (kept := url_set (dedup_urls ({[SearchResult.url r]} ∪ seen) rest)) in *.
    transitivity (kept ∪ ({[SearchResult.url r]} ∪ seen));
      [apply leibniz_equiv; set_solver |].
    rewrite Hrest. apply leibniz_equiv. set_solver.
Qed.

Lemma dedup_urls_length (results : list SearchResult.t) :
  length (dedup_urls ∅ results) = size (url_set results).
Proof.
  pose proof (dedup_urls_complete results ∅) as Hsame.
  rewrite !(right_id_L ∅ (∪)) in Hsame. rewrite <- Hsame.
  unfold url_set. rewrite size_list_to_set by apply dedup_urls_NoDup.
  now rewrite length_map.
Qed.

Lemma add_results_sources_spec (responses : list (PyResult SearchResponse.t)) :
  forall m,
    Search.successful_sources (Search.merge_loop responses m)
    = Search.successful_sources m ++ contributing_sources responses.
Proof.
  induction responses as [| [r | e] rest IH]; intros m;
    cbn [Search.merge_loop contributing_sources flat_map].
  - now rewrite app_nil_r.
  - fold (contributing_sources rest). destruct (SearchResponse.success r).
    + rewrite IH. cbn [Search.successful_sources].
      destruct (add_results_spec (SearchResponse.results r) m) as (_ & _ & ->).
      now rewrite <- app_assoc.
    + apply IH.
  - apply IH.
Qed.

Lemma pair_gtb_true (a b : Z * Z) :
  Search.pair_gtb a b = true
  <-> fst b < fst a \/ (fst a = fst b /\ snd b < snd a).
Proof.
  unfold Search.pair_gtb.
  rewrite orb_true_iff, andb_true_iff, !Z.ltb_lt, Z.eqb_eq. reflexivity.
Qed.

Lemma ranking_sorted_before (results : list SearchResult.t) :
  StronglySorted ranks_before
    (PyList.sort_desc
       (fun y x => Search.pair_gtb (Search.rank_key y) (Search.rank_key x))
       results).
Proof.
  apply sort_desc_sorted; unfold ranks_before.
  - intros x y z. lia.
  - intros x y Hgt%pair_gtb_true. lia.
  - intros x y Hgt.
    destruct (Search.pair_gtb (Search.rank_key x) (Search.rank_key y)) eqn:H;
      [discriminate |].
    assert (Hnot : ~ (fst (Search.rank_key y) < fst (Search.rank_key x)
                      \/ (fst (Search.rank_key x) = fst (Search.rank_key y)
                          /\ snd (Search.rank_key y) < snd (Search.rank_key x))))
      by (rewrite <- pair_gtb_true; congruence).
    lia.
Qed.

(** X14. In the merged response, [total_results] is the number of distinct
    URLs among the results of the successful responses; for a
    [num_results] that is not negative the response holds the
    [min(num_results, total_results)] best of them, and when it holds them
    all their URLs are exactly the URLs the successful backends returned. *)
Theorem merged_counts :
  forall (responses : list (PyResult SearchResponse.t)) (num_results : Z)
         (response_time : Q),
    0 <= num_results ->
    let merged := Search.merge_responses responses num_results response_time in
    SearchResponse.total_results merged
    = Z.of_nat (size (url_set (successful_results responses)))
    /\ PyList.len (SearchResponse.results merged)
       = Z.min num_results (SearchResponse.total_results merged)
    /\ (SearchResponse.total_results merged <= num_results ->
        url_set (SearchResponse.results merged)
        = url_set (successful_results responses)).
Proof.
  intros responses num_results response_time Hnum merged. subst merged.
  unfold Search.merge_responses.
  cbn [SearchResponse.total_results SearchResponse.results].
  rewrite merged_all_results, prefix_nonneg by exact Hnum.
  set (ranked := PyList.sort_desc _ _).
  assert (Hperm : ranked ≡ₚ dedup_urls ∅ (successful_results responses))
    by apply sort_desc_perm.
  assert (Hlen : PyList.len ranked
                 = Z.of_nat (size (url_set (successful_results responses)))).
  { unfold PyList.len. now rewrite Hperm, dedup_urls_length. }
  split; [exact Hlen |]. split.
  - unfold PyList.len in *. rewrite length_take. lia.
  - intros Hall. rewrite take_ge by (unfold PyList.len in Hall; lia).
    pose proof (dedup_urls_complete (successful_results responses) ∅) as Hsame.
    rewrite !(right_id_L ∅ (∪)) in Hsame. rewrite <- Hsame.
    unfold url_set. apply leibniz_equiv. intros u.
    rewrite !elem_of_list_to_set.
    now rewrite (Permutation_map SearchResult.url Hperm).
Qed.

Lemma merged_counts_witness :
  let responses := [Ok (answer ["a"; "b"]); Ok (answer ["b"; "c"])] in
  0 <= 2
  /\ SearchResponse.total_results (Search.merge_responses responses 2 0%Q) = 3
  /\ PyList.len (SearchResponse.results (Search.merge_responses responses 2 0%Q))
     = 2.
Proof.
  intros responses. assert (Hnum : 0 <= 2) by lia.
  destruct (merged_counts responses 2 0%Q Hnum) as (Htotal & Hlen & _).
  split; [exact Hnum |]. split; [exact Htotal |]. rewrite Hlen. reflexivity.
Defined.

(** X15. The results of the merged response are ranked: each one has a
    snippet at least as long as those after it, and among results with
    snippets of one length one from wikipedia never comes after one that is
    not. The [source] of the response joins with "+" the sources of the
    successful responses, in the order of the responses, whether or not they
    brought a result. *)
Theorem merged_ranking :
  forall (responses : list (PyResult SearchResponse.t)) (num_results : Z)
         (response_time : Q),
    let merged := Search.merge_responses responses num_results response_time in
    StronglySorted ranks_before (SearchResponse.results merged)
    /\ SearchResponse.source merged
       = Text.join "+" (contributing_sources responses).
Proof.
  intros responses num_results response_time merged. subst merged.
  unfold Search.merge_responses.
  cbn [SearchResponse.results SearchResponse.source]. split.
  - destruct (prefix_take
                (PyList.sort_desc
                   (fun y x => Search.pair_gtb (Search.rank_key y) (Search.rank_key x))
                   (Search.all_results
                      (Search.merge_loop responses (Search.mkMerged [] [] ∅))))
                num_results) as [k ->].
    apply StronglySorted_take, ranking_sorted_before.
  - now rewrite add_results_sources_spec.
Qed.

(** ** Scraping many URLs *)

Section ScrapeManyFacts.

Variable SCRAPING_AVAILABLE : bool.
Variable bs4_imported : bool.
Variable session_get : string -> nat -> Scraper.Fetched.
Variable trafilatura_extract : string -> PyResult (option string).
Variable soup_title : string -> option (option string).
Variable main_content_text : string -> option string.
Variable datetime_now : Q.

(** X16. With a positive [max_concurrent], [scrape_multiple_urls] returns one
    record per URL, in the order of the URLs: the record at position [i] is
    the one of the [i]-th URL, and each record has its [text_length] right.
    With [max_concurrent = 0] and at least one URL the call never returns,
    and a negative [max_concurrent] raises [ValueError]. *)
Theorem scrape_multiple_urls_order :
  forall (self : Scraper.WebScraperAgent) (urls : list string)
         (max_concurrent : Z) (last : nat -> Q) (clock : nat -> Q * Q),
    let outcome :=
      Scraper.scrape_multiple_urls SCRAPING_AVAILABLE bs4_imported session_get
        trafilatura_extract soup_title main_content_text datetime_now
        self urls max_concurrent last clock in
    (0 < max_concurrent ->
     exists records,
       outcome = Async.Done records
       /\ map ScrapedContent.url records = urls
       /\ Forall well_formed records)
    /\ (max_concurrent = 0 -> urls <> [] -> outcome = Async.Blocked)
    /\ (max_concurrent < 0 ->
        outcome = Async.Failed (ValueError "Semaphore initial value must be >= 0")).
Proof.
  intros self urls max_concurrent last clock outcome. subst outcome.
  unfold Scraper.scrape_multiple_urls, Async.gathered. split; [| split].
  - intros Hpos.
    destruct (Z.ltb_spec max_concurrent 0) as [H | _]; [lia |].
    destruct (Z.eqb_spec max_concurrent 0) as [H | _]; [lia |].
    cbn [andb]. eexists. split; [reflexivity |]. split.
    + apply list_eq. intros i. rewrite map_lookup, list_lookup_imap.
      destruct (urls !! i) as [url |]; [| reflexivity]. cbn. f_equal.
      unfold Scraper.scrape_url. cbn [fst].
      apply (attempt_loop_outcome SCRAPING_AVAILABLE bs4_imported session_get
               trafilatura_extract soup_title main_content_text datetime_now).
    + apply Forall_lookup. intros i record. rewrite list_lookup_imap.
      destruct (urls !! i) as [url |]; [| discriminate]. cbn. intros [= <-].
      unfold Scraper.scrape_url. cbn [fst].
      apply attempt_loop_well_formed.
  - intros -> Hurls. cbn. destruct urls; [congruence | reflexivity].
  - intros Hneg. destruct (Z.ltb_spec max_concurrent 0) as [_ | H]; [| lia].
    reflexivity.
Qed.

End ScrapeManyFacts.

Lemma scrape_multiple_urls_order_witness :
  0 < 5
  /\ exists records,
       Scraper.scrape_multiple_urls true true always_503 no_extract demo_title
         demo_main 0%Q demo_scraper ["http://a.example"; "http://b.example"] 5
         (fun _ => 0%Q) (fun _ => (5%Q, 6%Q))
       = Async.Done records
       /\ map ScrapedContent.url records = ["http://a.example"; "http://b.example"].
Proof.
  assert (Hpos : 0 < 5) by lia. split; [exact Hpos |].
  destruct (proj1 (scrape_multiple_urls_order true true always_503 no_extract
                     demo_title demo_main 0%Q demo_scraper
                     ["http://a.example"; "http://b.example"] 5
                     (fun _ => 0%Q) (fun _ => (5%Q, 6%Q))) Hpos)
    as (records & Hdone & Hurls & _).
  exists records. split; [exact Hdone | exact Hurls].
Defined.

(** ** A search that no backend answers *)

(** X17. When no agent contributes (there is none, or each one raises or
    answers [success = false]) the aggregator returns [success = false]
    with no result, [total_results = 0] and an empty [source]; under its
    semaphore it does so for every [max_concurrent] that is positive. *)
Theorem search_without_answers :
  forall (self : Search.MultiSearchAgent) (query : string) (num_results : Z)
         (response_time : Q),
    Forall (fun agent =>
              contributes (Ok (Search.search_with_semaphore self query
                                 num_results agent)) = false)
      (Search.search_agents self) ->
    Search.multi_search self query num_results response_time
    = SearchResponse.mk false [] "" 0 response_time None
    /\ (0 < Search.max_concurrent self ->
        Search.gathered_search self query num_results response_time
        = Async.Done (SearchResponse.mk false [] "" 0 response_time None)).
Proof.
  intros self query num_results response_time Hnone.
  assert (Hsearch : Search.multi_search self query num_results response_time
                    = SearchResponse.mk false [] "" 0 response_time None).
  { unfold Search.multi_search, Search.merge_responses.
    rewrite merge_loop_filter.
    assert (Hfilter :
              List.filter contributes
                (map (fun agent =>
                        Ok (Search.search_with_semaphore self query num_results agent))
                   (Search.search_agents self)) = []).
    { induction Hnone as [| agent rest Hagent _ IH]; [reflexivity |].
      cbn [map List.filter]. cbn [contributes] in Hagent. cbn [contributes].
      now rewrite Hagent. }
    rewrite Hfilter. cbn [Search.merge_loop Search.all_results
                          Search.successful_sources PyList.sort_desc].
    destruct (prefix_take (@nil SearchResult.t) num_results) as [k ->].
    now rewrite take_nil. }
  split; [exact Hsearch |]. intros Hpos.
  unfold Search.gathered_search, Async.gathered. rewrite Hsearch.
  destruct (Z.ltb_spec (Search.max_concurrent self) 0) as [H | _]; [lia |].
  destruct (Z.eqb_spec (Search.max_concurrent self) 0) as [H | _]; [lia |].
  reflexivity.
Qed.

Lemma search_without_answers_witness :
  let self := Search.mkMulti [broken_backend; broken_backend] 3 in
  Forall (fun agent =>
            contributes (Ok (Search.search_with_semaphore self "rocq" 10 agent))
            = false)
    (Search.search_agents self)
  /\ Search.gathered_search self "rocq" 10 (1 # 2)%Q
     = Async.Done (SearchResponse.mk false [] "" 0 (1 # 2)%Q None).
Proof.
  intros self.
  assert (Hnone : Forall (fun agent =>
                            contributes (Ok (Search.search_with_semaphore self
                                               "rocq" 10 agent)) = false)
                    (Search.search_agents self))
    by (repeat constructor).
  split; [exact Hnone |].
  apply (proj2 (search_without_answers self "rocq" 10 (1 # 2)%Q Hnone)).
  cbn. lia.
Defined.

(** ** The DuckDuckGo backend *)

Section DuckDuckGoFacts.

Variable BS4_AVAILABLE : bool.
Variable session_get : string -> Scraper.Fetched.
Variable quote_plus : string -> string.
Variable find_links : string -> PyResult (list (string * string)).
Variable find_snippets : string -> PyResult (list string).

Local Abbreviation _parse_duckduckgo_results :=
  (DuckDuckGo._parse_duckduckgo_results BS4_AVAILABLE find_links find_snippets).
Local Abbreviation search :=
  (DuckDuckGo.search BS4_AVAILABLE session_get quote_plus find_links find_snippets).

Lemma parse_loop_spec (query : string) (result_snippets : list string)
    (links : list (string * string)) :
  forall (i : nat) (results : list SearchResult.t),
    exists parsed,
      DuckDuckGo.parse_loop query result_snippets i links results
      = results ++ parsed
      /\ (length parsed <= length links)%nat
      /\ Forall (fun result =>
                   parsed_result query result
                   /\ exists j : nat,
                        links !! j
                        = Some (SearchResult.title result, SearchResult.url result)
                        /\ SearchResult.snippet result
                           = match result_snippets !! (i + j)%nat with
                             | Some text => text
                             | None => ""
                             end)
           parsed.
Proof.
  induction links as [| [title url] rest IH]; intros i results;
    cbn [DuckDuckGo.parse_loop].
  - exists []. rewrite app_nil_r. repeat split; [cbn; lia | constructor].
  - assert (Hshift :
              forall parsed,
                Forall (fun result =>
                          parsed_result query result
                          /\ exists j : nat,
                               rest !! j
                               = Some (SearchResult.title result,
                                       SearchResult.url result)
                               /\ SearchResult.snippet result
                                  = match result_snippets !! (S i + j)%nat with
                                    | Some text => text
                                    | None => ""
                                    end) parsed ->
                Forall (fun result =>
                          parsed_result query result
                          /\ exists j : nat,
                               ((title, url) :: rest) !! j
                               = Some (SearchResult.title result,
                                       SearchResult.url result)
                               /\ SearchResult.snippet result
                                  = match result_snippets !! (i + j)%nat with
                                    | Some text => text
                                    | None => ""
                                    end) parsed).
    { intros parsed Hparsed. eapply Forall_impl; [exact Hparsed |].
      intros result [Hok (j & Hj & Hsnippet)].
      split; [exact Hok |]. exists (S j). split; [exact Hj |].
      now rewrite Nat.add_succ_r. }
    destruct (negb (String.eqb title "") && negb (String.eqb url "")
              && negb (String.prefix "/" url)) eqn:Hkeep.
    + destruct (IH (S i) (results ++ [SearchResult.mk title url
                                       match result_snippets !! i with
                                       | Some text => text
                                       | None => ""
                                       end "duckduckgo" {["query" := VStr query]}]))
        as (parsed & -> & Hlen & Hall).
      eexists (_ :: parsed). rewrite <- app_assoc.
      split; [reflexivity |]. split; [cbn [length]; lia |].
      constructor; [| now apply Hshift].
      apply andb_true_iff in Hkeep as [[Htitle Hurl]%andb_true_iff Hprefix].
      apply negb_true_iff in Htitle, Hurl, Hprefix.
      apply String.eqb_neq in Htitle, Hurl.
      split.
      * unfold parsed_result.
        cbn [SearchResult.title SearchResult.url SearchResult.source
             SearchResult.metadata].
        rewrite lookup_singleton_eq. auto.
      * exists 0%nat. cbn [SearchResult.title SearchResult.url SearchResult.snippet].
        split; [reflexivity |]. now rewrite Nat.add_0_r.
    + destruct (IH (S i) results) as (parsed & -> & Hlen & Hall).
      exists parsed. split; [reflexivity |]. split; [cbn [length]; lia |].
      now apply Hshift.
Qed.

Lemma parse_results_spec (html query : string) :
  PyList.len (_parse_duckduckgo_results html query) <= 10
  /\ Forall (parsed_result query) (_parse_duckduckgo_results html query)
  /\ (forall result_links result_snippets,
        find_links html = Ok result_links ->
        find_snippets html = Ok result_snippets ->
        Forall (fun result =>
                  exists j : nat,
                    (j < 10)%nat
                    /\ result_links !! j
                       = Some (SearchResult.title result, SearchResult.url result)
                    /\ SearchResult.snippet result
                       = match result_snippets !! j with
                         | Some text => text
                         | None => ""
                         end)
          (_parse_duckduckgo_results html query)).
Proof.
  unfold DuckDuckGo._parse_duckduckgo_results.
  destruct BS4_AVAILABLE;
    [| split; [unfold PyList.len; cbn [length]; lia | split; [constructor | intros; constructor]]].
  destruct (find_links html) as [result_links | e];
    [| split; [unfold PyList.len; cbn [length]; lia | split; [constructor | intros; discriminate]]].
  destruct (find_snippets html) as [result_snippets | e];
    [| split; [unfold PyList.len; cbn [length]; lia | split; [constructor | intros; discriminate]]].
  assert (Hten : 0 <= 10) by lia.
  rewrite (prefix_nonneg result_links 10 Hten).
  destruct (parse_loop_spec query result_snippets
              (take (Z.to_nat 10) result_links) 0 [])
    as (parsed & -> & Hlen & Hall).
  cbn [app]. split; [| split].
  - unfold PyList.len. rewrite length_take in Hlen. lia.
  - eapply Forall_impl; [exact Hall |]. now intros result [Hok _].
  - intros links snippets [= <-] [= <-].
    eapply Forall_impl; [exact Hall |].
    intros result [_ (j & Hj & Hsnippet)]. exists j.
    rewrite lookup_take in Hj. cbn [Nat.add] in Hsnippet.
    destruct (decide (j < Z.to_nat 10)%nat) as [Hlt | _]; [| discriminate].
    split; [lia |]. now split.
Qed.

(** X18. The DuckDuckGo parser returns at most 10 results. Each of them has a
    title and a URL that are not empty, a URL that does not begin with "/",
    the source "duckduckgo" and the query in its metadata; it comes from one
    of the first 10 result anchors of the page, and its snippet is the
    snippet anchor at the position of that anchor in the page, or the empty
    text when the page has fewer snippets. *)
Theorem duckduckgo_parse_results :
  forall (html query : string),
    let results := _parse_duckduckgo_results html query in
    PyList.len results <= 10
    /\ Forall (parsed_result query) results
    /\ (forall result_links result_snippets,
          find_links html = Ok result_links ->
          find_snippets html = Ok result_snippets ->
          Forall (fun result =>
                    exists j : nat,
                      (j < 10)%nat
                      /\ result_links !! j
                         = Some (SearchResult.title result, SearchResult.url result)
                      /\ SearchResult.snippet result
                         = match result_snippets !! j with
                           | Some text => text
                           | None => ""
                           end)
            results).
Proof. intros html query results. apply parse_results_spec. Qed.

(** X19. The DuckDuckGo [search] never raises and always answers with the
    source "duckduckgo". A response with [success = false] has no result,
    [total_results = 0] and an error message. A response with
    [success = true] has no error message, [total_results] between 0 and 10
    counting every parsed result, only results the parser lets through, and,
    for a [num_results] that is not negative, [min(num_results,
    total_results)] of them. *)
Theorem duckduckgo_search_response :
  forall (query : string) (num_results : Z) (response_time : Q),
    let response := search query num_results response_time in
    SearchResponse.source response = "duckduckgo"
    /\ (SearchResponse.success response = false ->
        SearchResponse.results response = []
        /\ SearchResponse.total_results response = 0
        /\ SearchResponse.error_message response <> None)
    /\ (SearchResponse.success response = true ->
        SearchResponse.error_message response = None
        /\ 0 <= SearchResponse.total_results response <= 10
        /\ Forall (parsed_result query) (SearchResponse.results response)
        /\ (0 <= num_results ->
            PyList.len (SearchResponse.results response)
            = Z.min num_results (SearchResponse.total_results response))).
Proof.
  intros query num_results response_time response. subst response.
  unfold DuckDuckGo.search.
  destruct (session_get _) as [status [html | e] | e];
    try destruct (status =? 200);
    cbn [SearchResponse.source SearchResponse.success SearchResponse.results
         SearchResponse.total_results SearchResponse.error_message];
    (split; [reflexivity |]);
    try (split; [intros _; repeat split; discriminate | discriminate]).
  split; [discriminate |]. intros _.
  destruct (parse_results_spec html query) as (Hten & Hparsed & _).
  split; [reflexivity |]. split; [split; [apply len_nonneg | exact Hten] |].
  split.
  - destruct (prefix_take (_parse_duckduckgo_results html query) num_results)
      as [k ->].
    apply Forall_take. exact Hparsed.
  - intros Hnum. rewrite prefix_nonneg by exact Hnum.
    unfold PyList.len. rewrite length_take. lia.
Qed.

End DuckDuckGoFacts.

Lemma duckduckgo_parse_results_witness :
  let results :=
    DuckDuckGo._parse_duckduckgo_results true page_links page_snippets
      "<html>" "rocq" in
  page_links "<html>" = Ok [("Rocq", "https://rocq-prover.org");
                            ("", "https://example.org/untitled");
                            ("Relative", "/l/?uddg=x");
                            ("Stdpp", "https://example.org/stdpp")]
  /\ page_snippets "<html>" = Ok ["A proof assistant"; "No title"]
  /\ map (fun r => (SearchResult.url r, SearchResult.snippet r)) results
     = [("https://rocq-prover.org", "A proof assistant");
        ("https://example.org/stdpp", "")]
  /\ Forall (fun result =>
               exists j : nat,
                 (j < 10)%nat
                 /\ [("Rocq", "https://rocq-prover.org");
                     ("", "https://example.org/untitled");
                     ("Relative", "/l/?uddg=x");
                     ("Stdpp", "https://example.org/stdpp")] !! j
                    = Some (SearchResult.title result, SearchResult.url result)
                 /\ SearchResult.snippet result
                    = match ["A proof assistant"; "No title"] !! j with
                      | Some text => text
                      | None => ""
                      end)
       results.
Proof.
  intros results.
  split; [reflexivity |]. split; [reflexivity |]. split; [reflexivity |].
  apply (proj2 (proj2 (duckduckgo_parse_results true page_links page_snippets
                         "<html>" "rocq")));
    reflexivity.
Defined.

Lemma duckduckgo_search_response_witness :
  let response :=
    DuckDuckGo.search true serves_results id page_links page_snippets
      "rocq" 1 (1 # 2)%Q in
  SearchResponse.success response = true
  /\ 0 <= 1
  /\ SearchResponse.total_results response = 2
  /\ PyList.len (SearchResponse.results response) = 1.
Proof.
  intros response.
  destruct (duckduckgo_search_response true serves_results id page_links
              page_snippets "rocq" 1 (1 # 2)%Q) as (_ & _ & Hok).
  assert (Hsuccess : SearchResponse.success response = true) by reflexivity.
  assert (Hnum : 0 <= 1) by lia.
  destruct (Hok Hsuccess) as (_ & _ & _ & Hlen).
  split; [exact Hsuccess |]. split; [exact Hnum |]. split; [reflexivity |].
  etransitivity; [exact (Hlen Hnum) | reflexivity].
Defined.

(** ** The pipeline *)

Lemma len_pos_nonempty (s : string) : 100 < Text.len s -> String.eqb s "" = false.
Proof.
  intros Hlong. destruct s; [| reflexivity].
  unfold Text.len in Hlong. cbn in Hlong. lia.
Qed.

(** What the orchestrator passes on, the indexer does not skip. *)
Lemma usable_worth_indexing (record : ScrapedContent.t) :
  well_formed record ->
  System.usable record = RAG.worth_indexing record.
Proof.
  intros (_ & Hclean & Hfailed). unfold System.usable, RAG.worth_indexing.
  destruct (ScrapedContent.success record) eqn:Hok; [| reflexivity].
  destruct (Hclean eq_refl) as [text Htext]. cbn [andb].
  assert (Hstrip : Text.strip (ScrapedContent.content record)
                   = ScrapedContent.content record).
  { rewrite Htext. apply clean_text_stripped. }
  rewrite Hstrip.
  destruct (Z.ltb_spec 100 (Text.len (ScrapedContent.content record)))
    as [Hlong | _]; [| now rewrite andb_false_r].
  now rewrite len_pos_nonempty.
Qed.

Section PipelineFacts.

Variable Vec : Type.
Variable encode : list string -> PyResult (list Vec).
Variable normalize_L2 : Vec -> Vec.
Variable index_search : list Vec -> list Vec -> Z -> PyResult (list (Q * Z)).
Variable step_error : RAG.Step -> list Vec -> option PyExn.
Variable SCRAPING_AVAILABLE : bool.
Variable bs4_imported : bool.
Variable session_get : string -> nat -> Scraper.Fetched.
Variable trafilatura_extract : string -> PyResult (option string).
Variable soup_title : string -> option (option string).
Variable main_content_text : string -> option string.
Variable datetime_now : Q.
Variable url_scheme : string -> PyResult string.
Variable SCRAPER_MAX_CONCURRENT : Z.
Variable np_mean_error : PyExn.

Local Abbreviation query_with_rag :=
  (System.query_with_rag encode normalize_L2 index_search step_error
     SCRAPING_AVAILABLE bs4_imported
     session_get trafilatura_extract soup_title main_content_text datetime_now
     url_scheme SCRAPER_MAX_CONCURRENT np_mean_error).
Local Abbreviation scrape_multiple_urls :=
  (Scraper.scrape_multiple_urls SCRAPING_AVAILABLE bs4_imported session_get
     trafilatura_extract soup_title main_content_text datetime_now).

(** X20. The record that [scrape_url] returns passes the filter of the
    orchestrator ([success] and more than 100 characters of content) exactly
    when it passes the filter of the indexer (which also wants the content
    not empty and measures it stripped): nothing that the orchestrator hands
    to [index_documents] is skipped there. *)
Theorem scraped_filters_agree :
  forall (self : Scraper.WebScraperAgent) (url : string) (now now' : Q),
    let record :=
      fst (fst (Scraper.scrape_url SCRAPING_AVAILABLE bs4_imported session_get
                  trafilatura_extract soup_title main_content_text datetime_now
                  self url now now')) in
    System.usable record = RAG.worth_indexing record.
Proof.
  intros self url now now' record. subst record.
  apply usable_worth_indexing. unfold Scraper.scrape_url. cbn [fst].
  apply attempt_loop_well_formed.
Qed.

Lemma scraped_many_well_formed (self : Scraper.WebScraperAgent) (urls : list string)
    (max_concurrent : Z) (last : nat -> Q) (clock : nat -> Q * Q) records :
  scrape_multiple_urls self urls max_concurrent last clock = Async.Done records ->
  Forall well_formed records.
Proof.
  unfold Scraper.scrape_multiple_urls, Async.gathered.
  destruct (max_concurrent <? 0); [discriminate |].
  destruct ((max_concurrent =? 0) && _); [discriminate |].
  intros [= <-]. apply Forall_lookup. intros i record. rewrite list_lookup_imap.
  destruct (urls !! i) as [url |]; [| discriminate]. cbn. intros [= <-].
  unfold Scraper.scrape_url. cbn [fst]. apply attempt_loop_well_formed.
Qed.

Lemma valid_urls_nonempty (results : list SearchResult.t) (url : string)
    (urls : list string) :
  System.valid_urls url_scheme results = Ok (url :: urls) ->
  PyList.len results =? 0 = false.
Proof. destruct results; [discriminate | reflexivity]. Qed.

(** X21. What [query_with_rag] refuses before any work. A query that is empty
    once stripped gives the error "Empty query provided". With
    [search_first], a negative concurrency of the aggregator gives the
    system error of the semaphore, and [num_search_results = 0] gives
    "Search failed or returned no results" whatever the backends answer. *)
Theorem query_with_rag_refusals :
  forall (self : System.RobustWebSearchRAGSystem Vec) (query : string)
         (search_first : bool) (num_search_results : Z)
         (search_time retrieval_time generation_time total_time : Q)
         (last : nat -> Q) (clock : nat -> Q * Q),
    (Text.strip query = "" ->
     query_with_rag self query search_first num_search_results search_time
       retrieval_time generation_time total_time last clock
     = Async.Done (System.Error "Empty query provided"))
    /\ (Text.strip query <> "" ->
        Search.max_concurrent (System.multi_search self) < 0 ->
        query_with_rag self query true num_search_results search_time
          retrieval_time generation_time total_time last clock
        = Async.Done
            (System.Error "System error: Semaphore initial value must be >= 0"))
    /\ (Text.strip query <> "" ->
        0 < Search.max_concurrent (System.multi_search self) ->
        query_with_rag self query true 0 search_time
          retrieval_time generation_time total_time last clock
        = Async.Done (System.Error "Search failed or returned no results")).
Proof.
  intros self query search_first num_search_results search_time retrieval_time
    generation_time total_time last clock.
  unfold System.query_with_rag. split; [| split].
  - intros ->. reflexivity.
  - intros Hquery%String.eqb_neq Hneg. rewrite Hquery.
    unfold Search.gathered_search, Async.gathered.
    destruct (Z.ltb_spec (Search.max_concurrent (System.multi_search self)) 0)
      as [_ | H]; [reflexivity | lia].
  - intros Hquery%String.eqb_neq Hpos. rewrite Hquery.
    unfold Search.gathered_search, Async.gathered.
    destruct (Z.ltb_spec (Search.max_concurrent (System.multi_search self)) 0)
      as [H | _]; [lia |].
    destruct (Z.eqb_spec (Search.max_concurrent (System.multi_search self)) 0)
      as [H | _]; [lia |].
    cbn [andb]. unfold Search.multi_search, Search.merge_responses.
    cbn [SearchResponse.success SearchResponse.results].
    assert (Hzero : 0 <= 0) by lia.
    rewrite prefix_nonneg by exact Hzero. cbn [Z.to_nat take firstn].
    change (PyList.len [] =? 0) with true. now rewrite orb_true_r.
Qed.

(** X22. A zero advance step of the chunker shows in the pipeline as a system
    error at query time: when the search brings a valid URL and a scraped
    record passes the filter, [query_with_rag] returns the error
    "System error: range() arg 3 must not be zero". *)
Theorem query_with_rag_zero_step :
  forall (self : System.RobustWebSearchRAGSystem Vec) (query : string)
         (num_search_results : Z)
         (search_time retrieval_time generation_time total_time : Q)
         (last : nat -> Q) (clock : nat -> Q * Q)
         (search_response : SearchResponse.t) (url : string) (urls : list string)
         (scraped_contents : list ScrapedContent.t),
    Text.strip query <> "" ->
    Search.gathered_search (System.multi_search self) query num_search_results
      search_time = Async.Done search_response ->
    SearchResponse.success search_response = true ->
    System.valid_urls url_scheme (SearchResponse.results search_response)
    = Ok (url :: urls) ->
    scrape_multiple_urls (System.make_scraper (System.scraper_config self))
      (url :: urls) SCRAPER_MAX_CONCURRENT last clock
    = Async.Done scraped_contents ->
    existsb System.usable scraped_contents = true ->
    RAG.chunk_size (System.rag_agent self)
    - RAG.chunk_overlap (System.rag_agent self) = 0 ->
    query_with_rag self query true num_search_results search_time
      retrieval_time generation_time total_time last clock
    = Async.Done (System.Error "System error: range() arg 3 must not be zero").
Proof.
  intros self query num_search_results search_time retrieval_time generation_time
    total_time last clock search_response url urls scraped_contents
    Hquery%String.eqb_neq Hsearch Hok Hurls Hscraped Husable Hstep.
  unfold System.query_with_rag.
  rewrite Hquery, Hsearch, Hok, (valid_urls_nonempty _ _ _ Hurls), Hurls, Hscraped.
  cbn [negb orb].
  pose proof (scraped_many_well_formed _ _ _ _ _ _ Hscraped) as Hrecords.
  assert (Hworth : existsb RAG.worth_indexing
                     (List.filter System.usable scraped_contents) = true).
  { apply existsb_exists in Husable as (record & Hin & Hrecord).
    apply existsb_exists. exists record. split; [now apply filter_In |].
    rewrite <- usable_worth_indexing; [exact Hrecord |].
    rewrite Forall_forall in Hrecords. now apply Hrecords, list_elem_of_In. }
  destruct (List.filter System.usable scraped_contents) as [| first others] eqn:Hlist;
    [discriminate |].
  unfold RAG.index_documents.
  rewrite (index_loop_zero_step _ _ _ Hstep Hworth). reflexivity.
Qed.

(** X23. Without [search_first], a query on a system that has indexed nothing
    completes: it returns the result "No indexed documents available." with
    confidence 0, no scraped content, and statistics that count no chunk and
    no source. *)
Theorem query_with_rag_empty_index :
  forall (self : System.RobustWebSearchRAGSystem Vec) (query : string)
         (num_search_results : Z)
         (search_time retrieval_time generation_time total_time : Q)
         (last : nat -> Q) (clock : nat -> Q * Q),
    Text.strip query <> "" ->
    RAG.document_chunks (System.rag_agent self) = [] ->
    query_with_rag self query false num_search_results search_time
      retrieval_time generation_time total_time last clock
    = Async.Done
        (System.Success
           (RAGResult.mk query [] "No indexed documents available." 0%Q [] 0%Q 0%Q)
           [] total_time
           (System.mkStatistics 0 0
              (RAG.use_embeddings (System.rag_agent self)) 0%Q)).
Proof.
  intros self query num_search_results search_time retrieval_time generation_time
    total_time last clock Hquery%String.eqb_neq Hempty.
  unfold System.query_with_rag, System.answer, RAG.query, System._get_statistics.
  rewrite Hquery, Hempty. cbn [RAG.document_chunks]. rewrite !Hempty. reflexivity.
Qed.

Lemma gathered_blocked {A} (value : Z) (count : nat) (results : A) :
  Async.gathered value count results = Async.Blocked -> value = 0.
Proof.
  unfold Async.gathered. destruct (value <? 0); [discriminate |].
  destruct (Z.eqb_spec value 0) as [-> | _]; [reflexivity | discriminate].
Qed.

(** X24. [query_with_rag] lets no exception out: whatever the backends, the
    scraper and the index do, the call does not raise. It can only fail to
    return by waiting for ever, and this only with [search_first] and a
    concurrency of zero, of the aggregator or of the scraper. *)
Theorem query_with_rag_outcomes :
  forall (self : System.RobustWebSearchRAGSystem Vec) (query : string)
         (search_first : bool) (num_search_results : Z)
         (search_time retrieval_time generation_time total_time : Q)
         (last : nat -> Q) (clock : nat -> Q * Q),
    (forall e : PyExn,
        query_with_rag self query search_first num_search_results search_time
          retrieval_time generation_time total_time last clock
        <> Async.Failed e)
    /\ (query_with_rag self query search_first num_search_results search_time
          retrieval_time generation_time total_time last clock
        = Async.Blocked ->
        search_first = true
        /\ (Search.max_concurrent (System.multi_search self) = 0
            \/ SCRAPER_MAX_CONCURRENT = 0)).
Proof.
  intros self query search_first num_search_results search_time retrieval_time
    generation_time total_time last clock.
  unfold System.query_with_rag.
  destruct (String.eqb (Text.strip query) "");
    [split; [intros e |]; discriminate |].
  destruct search_first; [| split; [intros e |]; discriminate].
  destruct (Search.gathered_search (System.multi_search self) query
              num_search_results search_time) as [search_response | | e'] eqn:Hsearch.
  - destruct (negb (SearchResponse.success search_response) || _);
      [split; [intros e |]; discriminate |].
    destruct (System.valid_urls url_scheme (SearchResponse.results search_response))
      as [[| url urls] | e']; try (split; [intros e |]; discriminate).
    destruct (Scraper.scrape_multiple_urls SCRAPING_AVAILABLE bs4_imported session_get
                trafilatura_extract soup_title main_content_text datetime_now
                (System.make_scraper (System.scraper_config self)) (url :: urls)
                SCRAPER_MAX_CONCURRENT last clock)
      as [scraped_contents | | e'] eqn:Hscraped.
    + cbv zeta.
      destruct (snd (match List.filter System.usable scraped_contents with
                     | [] => (System.rag_agent self, Ok tt)
                     | _ :: _ =>
                         RAG.index_documents encode normalize_L2 step_error
                           (System.rag_agent self)
                           (List.filter System.usable scraped_contents)
                     end)); split; try intros e; discriminate.
    + split; [intros e; discriminate |]. intros _. split; [reflexivity |].
      right. exact (gathered_blocked _ _ _ Hscraped).
    + split; [intros e |]; discriminate.
  - split; [intros e; discriminate |]. intros _. split; [reflexivity |].
    left. exact (gathered_blocked _ _ _ Hsearch).
  - split; [intros e |]; discriminate.
Qed.

(** X25. Saving an index and loading it into a system restores the chunks
    and, when the loading agent has embeddings enabled and a matrix was
    saved, the embedding matrix; the search index of the loading agent is
    left as it was. Loaded into an agent that has no index, as a fresh one,
    every query therefore gives the result of keyword-only retrieval on the
    same chunks, embeddings enabled or not. *)
Theorem load_saved_index :
  forall (saved loading : System.RobustWebSearchRAGSystem Vec),
    let restored := System.rag_agent (System.load_index loading
                                        (System.save_index saved)) in
    RAG.document_chunks restored = RAG.document_chunks (System.rag_agent saved)
    /\ RAG.index restored = RAG.index (System.rag_agent loading)
    /\ (RAG.use_embeddings (System.rag_agent loading) = true ->
        RAG.embeddings (System.rag_agent saved) <> None ->
        RAG.embeddings restored = RAG.embeddings (System.rag_agent saved))
    /\ (RAG.index (System.rag_agent loading) = None ->
        forall (query : string) (top_k : Z) (retrieval_time generation_time : Q),
          result_of (RAG.query encode normalize_L2 index_search restored
                       query top_k retrieval_time generation_time)
          = result_of (RAG.query encode normalize_L2 index_search
                         (RAG.mkAgent (RAG.chunk_size restored)
                            (RAG.chunk_overlap restored)
                            (RAG.document_chunks (System.rag_agent saved))
                            false false None None)
                         query top_k retrieval_time generation_time)).
Proof.
  intros saved loading restored. subst restored.
  unfold System.load_index, System.save_index.
  cbn [System.rag_agent RAG.document_chunks RAG.index RAG.embeddings
       System.pickled_document_chunks System.pickled_embeddings
       RAG.chunk_size RAG.chunk_overlap].
  split; [reflexivity |]. split; [reflexivity |]. split.
  - intros ->. now destruct (RAG.embeddings (System.rag_agent saved)).
  - intros Hindex query top_k retrieval_time generation_time.
    unfold RAG.query.
    cbn [RAG.document_chunks RAG.use_embeddings RAG.index RAG.chunk_size
         RAG.chunk_overlap RAG.model RAG.embeddings].
    rewrite Hindex.
    destruct (RAG.document_chunks (System.rag_agent saved)) as [| first others];
      [reflexivity |].
    destruct (RAG.use_embeddings (System.rag_agent loading));
      destruct (RAG.keyword_loop query (first :: others)) as [r | e];
      reflexivity.
Qed.

End PipelineFacts.

Lemma query_with_rag_refusals_witness :
  Text.strip "  " = ""
  /\ System.query_with_rag demo_encode id demo_search no_refusal true true serves_long_page
       no_extract demo_title long_main 0%Q demo_scheme 5 (Exception "flexible type")
       (demo_system false) "  " true 8 0%Q 0%Q 0%Q 0%Q
       (fun _ => 0%Q) (fun _ => (0%Q, 0%Q))
     = Async.Done (System.Error "Empty query provided")
  /\ System.query_with_rag demo_encode id demo_search no_refusal true true serves_long_page
       no_extract demo_title long_main 0%Q demo_scheme 5 (Exception "flexible type")
       (demo_system false) "agi" true 0 0%Q 0%Q 0%Q 0%Q
       (fun _ => 0%Q) (fun _ => (0%Q, 0%Q))
     = Async.Done (System.Error "Search failed or returned no results").
Proof.
  assert (Hblank : Text.strip "  " = "") by reflexivity.
  assert (Hquery : Text.strip "agi" <> "") by (vm_compute; discriminate).
  assert (Hpositive : 0 < Search.max_concurrent (System.multi_search (demo_system false)))
    by (cbn; lia).
  split; [exact Hblank |]. split.
  - exact (proj1 (query_with_rag_refusals Z demo_encode id demo_search no_refusal true true
                    serves_long_page no_extract demo_title long_main 0%Q
                    demo_scheme 5 (Exception "flexible type") (demo_system false)
                    "  " true 8 0%Q 0%Q 0%Q 0%Q (fun _ => 0%Q)
                    (fun _ => (0%Q, 0%Q))) Hblank).
  - exact (proj2 (proj2 (query_with_rag_refusals Z demo_encode id demo_search no_refusal true true
                           serves_long_page no_extract demo_title long_main 0%Q
                           demo_scheme 5 (Exception "flexible type")
                           (demo_system false) "agi" true 0 0%Q 0%Q 0%Q 0%Q
                           (fun _ => 0%Q) (fun _ => (0%Q, 0%Q))))
             Hquery Hpositive).
Defined.

Lemma query_with_rag_zero_step_witness :
  System.query_with_rag demo_encode id demo_search no_refusal true true serves_long_page
    no_extract demo_title long_main 0%Q demo_scheme 5 (Exception "flexible type")
    stuck_system "agi" true 8 0%Q 0%Q 0%Q 0%Q (fun _ => 0%Q) (fun _ => (0%Q, 0%Q))
  = Async.Done (System.Error "System error: range() arg 3 must not be zero").
Proof.
  pose (search_response :=
          Search.multi_search (System.multi_search stuck_system) "agi" 8 0%Q).
  pose (scraped_contents :=
          [fst (fst (Scraper.scrape_url true true serves_long_page no_extract demo_title
                       long_main 0%Q
                       (System.make_scraper (System.scraper_config stuck_system))
                       "http://example.org/a" 0%Q 0%Q))]).
  apply (query_with_rag_zero_step Z demo_encode id demo_search no_refusal true true
           serves_long_page no_extract demo_title long_main 0%Q demo_scheme 5
           (Exception "flexible type") stuck_system "agi" 8 0%Q 0%Q 0%Q 0%Q
           (fun _ => 0%Q) (fun _ => (0%Q, 0%Q)) search_response
           "http://example.org/a" [] scraped_contents).
  - vm_compute. discriminate.
  - reflexivity.
  - vm_compute. reflexivity.
  - vm_compute. reflexivity.
  - vm_compute. reflexivity.
  - vm_compute. reflexivity.
  - reflexivity.
Defined.

Lemma query_with_rag_empty_index_witness :
  System.query_with_rag demo_encode id demo_search no_refusal true true serves_long_page
    no_extract demo_title long_main 0%Q demo_scheme 5 (Exception "flexible type")
    (demo_system true) "agi" false 8 0%Q 0%Q 0%Q (1 # 2)
    (fun _ => 0%Q) (fun _ => (0%Q, 0%Q))
  = Async.Done
      (System.Success
         (RAGResult.mk "agi" [] "No indexed documents available." 0%Q [] 0%Q 0%Q)
         [] (1 # 2) (System.mkStatistics 0 0 true 0%Q)).
Proof.
  apply (query_with_rag_empty_index Z demo_encode id demo_search no_refusal true true
           serves_long_page no_extract demo_title long_main 0%Q demo_scheme 5
           (Exception "flexible type") (demo_system true) "agi" 8 0%Q 0%Q 0%Q
           (1 # 2) (fun _ => 0%Q) (fun _ => (0%Q, 0%Q))).
  - vm_compute. discriminate.
  - reflexivity.
Defined.

Lemma load_saved_index_witness :
  RAG.index (System.rag_agent (demo_system true)) = None
  /\ RAG.document_chunks
       (System.rag_agent (System.load_index (demo_system true)
                            (System.save_index indexed_system)))
     = [chunk_of "artificial general intelligence"]
  /\ RAG.embeddings
       (System.rag_agent (System.load_index (demo_system true)
                            (System.save_index indexed_system)))
     = Some [31]
  /\ result_of
       (RAG.query demo_encode id demo_search
          (System.rag_agent (System.load_index (demo_system true)
                               (System.save_index indexed_system)))
          "General intelligence" 5 0%Q 0%Q)
     = result_of
         (RAG.query demo_encode id demo_search
            (RAG.mkAgent 512 64 [chunk_of "artificial general intelligence"]
               false false None None)
            "General intelligence" 5 0%Q 0%Q).
Proof.
  assert (Hindex : RAG.index (System.rag_agent (demo_system true)) = None)
    by reflexivity.
  assert (Hon : RAG.use_embeddings (System.rag_agent (demo_system true)) = true)
    by reflexivity.
  assert (Hrows : RAG.embeddings (System.rag_agent indexed_system) <> None)
    by discriminate.
  pose proof (load_saved_index Z demo_encode id demo_search indexed_system
                (demo_system true)) as (Hchunks & _ & Hembeddings & Hquery).
  split; [exact Hindex |]. split; [exact Hchunks |].
  split; [exact (Hembeddings Hon Hrows) |].
  exact (Hquery Hindex "General intelligence" 5 0%Q 0%Q).
Defined.

Lemma query_with_rag_outcomes_witness :
  System.query_with_rag demo_encode id demo_search no_refusal true true serves_long_page
    no_extract demo_title long_main 0%Q demo_scheme 5 (Exception "flexible type")
    idle_system "agi" true 8 0%Q 0%Q 0%Q 0%Q (fun _ => 0%Q) (fun _ => (0%Q, 0%Q))
  = Async.Blocked
  /\ Search.max_concurrent (System.multi_search idle_system) = 0.
Proof.
  assert (Hblocked :
            System.query_with_rag demo_encode id demo_search no_refusal true true serves_long_page
              no_extract demo_title long_main 0%Q demo_scheme 5
              (Exception "flexible type") idle_system "agi" true 8 0%Q 0%Q 0%Q 0%Q
              (fun _ => 0%Q) (fun _ => (0%Q, 0%Q))
            = Async.Blocked) by (vm_compute; reflexivity).
  split; [exact Hblocked |].
  destruct (proj2 (query_with_rag_outcomes Z demo_encode id demo_search no_refusal true true
                     serves_long_page no_extract demo_title long_main 0%Q
                     demo_scheme 5 (Exception "flexible type") idle_system "agi"
                     true 8 0%Q 0%Q 0%Q 0%Q (fun _ => 0%Q) (fun _ => (0%Q, 0%Q)))
              Hblocked) as [_ [Hzero | Hzero]]; [exact Hzero | discriminate].
Defined.

(** ** The statistics *)

Lemma chunk_text_counted (chunk_size chunk_overlap : Z) (text source_url : string)
    (chunks : list DocumentChunk.t) :
  0 <= chunk_size ->
  RAG._chunk_text chunk_size chunk_overlap text source_url = Ok chunks ->
  Forall (counted chunk_size) chunks.
Proof.
  intros Hsize Hchunks.
  destruct (Z.lt_trichotomy (chunk_size - chunk_overlap) 0) as [Hneg | [Hzero | Hpos]].
  - rewrite chunk_text_negative_step in Hchunks by exact Hneg.
    injection Hchunks as <-. constructor.
  - rewrite chunk_text_zero_step in Hchunks by exact Hzero. discriminate.
  - destruct (chunk_text_shape chunk_size chunk_overlap text source_url Hpos)
      as (chunks' & Hchunks' & _ & Hlookup).
    rewrite Hchunks in Hchunks'. injection Hchunks' as <-.
    apply Forall_lookup. intros k chunk Hk. rewrite Hlookup in Hk.
    destruct (Z.of_nat k * (chunk_size - chunk_overlap) <? _); [| discriminate].
    injection Hk as <-. eexists. split.
    + unfold word_count, chunk_at. cbn [DocumentChunk.metadata].
      apply lookup_singleton_eq.
    + pose proof (slice_length_le (Text.split text)
                    (Z.of_nat k * (chunk_size - chunk_overlap))
                    (Z.of_nat k * (chunk_size - chunk_overlap) + chunk_size)).
      pose proof (len_nonneg (PyList.slice (Text.split text)
                    (Z.of_nat k * (chunk_size - chunk_overlap))
                    (Z.of_nat k * (chunk_size - chunk_overlap) + chunk_size))).
      nia.
Qed.

Lemma index_loop_counted {Vec} (self : RAG.ImprovedRAGAgent Vec)
    (documents : list ScrapedContent.t) :
  0 <= RAG.chunk_size self ->
  forall new_chunks result,
    Forall (counted (RAG.chunk_size self)) new_chunks ->
    RAG.index_loop self documents new_chunks = Ok result ->
    Forall (counted (RAG.chunk_size self)) result.
Proof.
  intros Hsize. induction documents as [| doc rest IH]; intros new_chunks result Hnew;
    cbn [RAG.index_loop].
  - now intros [= <-].
  - destruct (RAG.worth_indexing doc); [| now apply IH].
    destruct (RAG._chunk_text _ _ _ _) as [chunks |] eqn:Hchunks; [| discriminate].
    cbn [Py.bind]. apply IH. apply Forall_app. split; [exact Hnew |].
    eapply chunk_text_counted; [exact Hsize | exact Hchunks].
Qed.

Lemma numbers_counted (chunk_size : Z) (chunks : list DocumentChunk.t) :
  Forall (counted chunk_size) chunks ->
  exists counts,
    System.numbers (map System.word_count_of chunks) = Some counts
    /\ length counts = length chunks
    /\ Forall (fun x => (0 <= x <= inject_Z chunk_size)%Q) counts.
Proof.
  induction 1 as [| chunk chunks (n & Hn & Hlow & Hhigh) _ (counts & Hcounts & Hlen & Hall)].
  - exists []. now repeat split.
  - exists (inject_Z n :: counts). cbn [map System.numbers].
    unfold System.word_count_of at 1. unfold word_count in Hn. rewrite Hn, Hcounts.
    split; [reflexivity |]. split; [cbn [length]; now rewrite Hlen |].
    constructor; [| exact Hall]. split.
    + change 0%Q with (inject_Z 0). now rewrite <- Zle_Qle.
    + now rewrite <- Zle_Qle.
Qed.

Lemma sum_between (xs : list Q) (b : Q) :
  Forall (fun x => (0 <= x <= b)%Q) xs ->
  (0 <= fold_right Qplus 0 xs <= inject_Z (PyList.len xs) * b)%Q.
Proof.
  induction 1 as [| x xs [Hlow Hhigh] _ [IHlow IHhigh]]; cbn [fold_right].
  - split; [apply Qle_refl |]. unfold PyList.len. cbn [length Z.of_nat].
    rewrite Qmult_0_l. apply Qle_refl.
  - split.
    + change 0%Q with (0 + 0)%Q. now apply Qplus_le_compat.
    + unfold PyList.len in *. cbn [length].
      rewrite Nat2Z.inj_succ, <- Z.add_1_l, inject_Z_plus.
      rewrite Qmult_plus_distr_l, Qmult_1_l. now apply Qplus_le_compat.
Qed.

Lemma mean_between (xs : list Q) (b : Q) :
  xs <> [] -> Forall (fun x => (0 <= x <= b)%Q) xs -> (0 <= RAG.mean xs <= b)%Q.
Proof.
  intros Hne Hxs. destruct (sum_between xs b Hxs) as [Hlow Hhigh].
  unfold RAG.mean. rewrite Qred_correct.
  assert (Hlen : (0 < inject_Z (PyList.len xs))%Q).
  { change 0%Q with (inject_Z 0). rewrite <- Zlt_Qlt. unfold PyList.len.
    destruct xs; [congruence | cbn [length]; lia]. }
  split.
  - apply Qle_shift_div_l; [exact Hlen |]. now rewrite Qmult_0_l.
  - apply Qle_shift_div_r; [exact Hlen |]. now rewrite Qmult_comm.
Qed.

Lemma size_list_to_set_le (l : list string) :
  (size (list_to_set l : gset string) <= length l)%nat.
Proof.
  induction l as [| x l IH]; cbn [list_to_set length].
  - rewrite size_empty. lia.
  - rewrite size_union_alt, size_singleton.
    assert (Hsub : (size (list_to_set l ∖ {[x]} : gset string)
                    <= size (list_to_set l : gset string))%nat)
      by (apply subseteq_size; set_solver).
    lia.
Qed.

Section StatisticsFacts.

Variable Vec : Type.
Variable encode : list string -> PyResult (list Vec).
Variable normalize_L2 : Vec -> Vec.
Variable step_error : RAG.Step -> list Vec -> option PyExn.
Variable np_mean_error : PyExn.

(** X26. Chunks made by [_chunk_text] keep [_get_statistics] from raising.
    When every stored chunk counts its words, at most [chunk_size] of them
    (as on a fresh agent, which stores none), this still holds after
    [index_documents], and the statistics then report the number of stored
    chunks, at most as many sources as chunks, and an average chunk size
    between 0 and [chunk_size]. *)
Theorem statistics_after_indexing :
  forall (self self' : RAG.ImprovedRAGAgent Vec) (documents : list ScrapedContent.t),
    0 <= RAG.chunk_size self ->
    Forall (counted (RAG.chunk_size self)) (RAG.document_chunks self) ->
    RAG.index_documents encode normalize_L2 step_error self documents = (self', Ok tt) ->
    Forall (counted (RAG.chunk_size self')) (RAG.document_chunks self')
    /\ exists statistics,
         System._get_statistics np_mean_error self' = Ok statistics
         /\ System.total_chunks statistics = PyList.len (RAG.document_chunks self')
         /\ 0 <= System.unique_sources statistics <= System.total_chunks statistics
         /\ System.embeddings_enabled statistics = RAG.use_embeddings self
         /\ (0 <= System.avg_chunk_size statistics
             <= inject_Z (RAG.chunk_size self))%Q.
Proof.
  intros self self' documents Hsize Hold Hcall.
  assert (Hnew : Forall (counted (RAG.chunk_size self)) (RAG.document_chunks self')
                 /\ RAG.chunk_size self' = RAG.chunk_size self
                 /\ RAG.use_embeddings self' = RAG.use_embeddings self).
  { unfold RAG.index_documents in Hcall.
    destruct (RAG.index_loop self documents []) as [new_chunks | e] eqn:Hloop;
      [| discriminate].
    assert (Hall : Forall (counted (RAG.chunk_size self))
                     (RAG.document_chunks self ++ new_chunks)).
    { apply Forall_app. split; [exact Hold |].
      eapply index_loop_counted; [exact Hsize | | exact Hloop]. constructor. }
    destruct (RAG.use_embeddings self && RAG.model self
              && negb (PyList.len new_chunks =? 0));
      [| injection Hcall as <-; now repeat split].
    destruct (Py.bind (encode (map DocumentChunk.content new_chunks)) _)
      as [embeddings' | e]; [| discriminate].
    destruct (step_error RAG.IndexFlatIP embeddings'); [discriminate |].
    destruct (step_error RAG.IndexAdd embeddings'); [discriminate |].
    injection Hcall as <-. now repeat split. }
  destruct Hnew as (Hnew & Hsame & Hflag). rewrite Hsame. split; [exact Hnew |].
  destruct (numbers_counted _ _ Hnew) as (counts & Hcounts & Hlen & Hall).
  unfold System._get_statistics. rewrite Hcounts.
  destruct (RAG.document_chunks self') as [| chunk chunks] eqn:Hchunks.
  - eexists. split; [reflexivity |].
    cbn [System.total_chunks System.unique_sources System.embeddings_enabled
         System.avg_chunk_size Py.bind].
    split; [reflexivity |]. split.
    { pose proof (size_list_to_set_le (map DocumentChunk.source_url [])) as Hle.
      cbn [map length] in *. unfold PyList.len. cbn [length]. lia. }
    split; [exact Hflag |].
    split; [apply Qle_refl |]. change 0%Q with (inject_Z 0). now rewrite <- Zle_Qle.
  - eexists. split; [reflexivity |].
    cbn [System.total_chunks System.unique_sources System.embeddings_enabled
         System.avg_chunk_size Py.bind].
    split; [reflexivity |]. split.
    + pose proof (size_list_to_set_le
                    (map DocumentChunk.source_url (chunk :: chunks))) as Hle.
      rewrite length_map in Hle. unfold PyList.len. lia.
    + split; [exact Hflag |]. apply mean_between; [| exact Hall].
      destruct counts; [discriminate | congruence].
Qed.

End StatisticsFacts.

Lemma statistics_after_indexing_witness :
  exists self' statistics,
    RAG.index_documents demo_encode id no_refusal (demo_agent true) [page 700]
    = (self', Ok tt)
    /\ System._get_statistics (Exception "flexible type") self' = Ok statistics
    /\ System.total_chunks statistics = 2
    /\ (0 <= System.avg_chunk_size statistics <= 512)%Q.
Proof.
  assert (Hsize : 0 <= RAG.chunk_size (demo_agent true)) by (cbn; lia).
  assert (Hold : Forall (counted (RAG.chunk_size (demo_agent true)))
                   (RAG.document_chunks (demo_agent true))) by constructor.
  destruct (RAG.index_documents demo_encode id no_refusal (demo_agent true) [page 700])
    as [self' [[] | e]] eqn:Hcall; [| vm_compute in Hcall; discriminate].
  destruct (statistics_after_indexing Z demo_encode id no_refusal
              (Exception "flexible type")
              (demo_agent true) self' [page 700] Hsize Hold Hcall)
    as (_ & statistics & Hstatistics & Htotal & _ & _ & Havg).
  exists self', statistics. split; [reflexivity |]. split; [exact Hstatistics |].
  split; [| exact Havg].
  rewrite Htotal. vm_compute in Hcall. injection Hcall as <-. reflexivity.
Defined.
